(** * Polymarket Data API example scripts: a shallow embedding

    The development follows the Python sources under [examples/]:
    [utils.py] (address and condition-id validators, display formatters)
    and the fetch-and-aggregate scripts built on top of it.

    Layout: the Python run-time notions the scripts rely on (text,
    numbers, exceptions, console, HTTP client) come first, then one
    module per source file, then the vocabulary of the statements and the
    theorems.

    Conventions of the embedding:
    - a [str] is a list of code points, so that lengths are counted as
      Python counts them;
    - a number is the exact rational value of the Python [int] or [float];
      arithmetic is exact (the rounding of binary floating point, NaN and
      the infinities are left to the module [Decoded]);
    - a function of a script is a computation in the monad [M], which
      threads the console and the log of requests and ends with a value,
      an exception, or never;
    - a JSON object is a typed record of optional fields.

    The module [Decoded] embeds [utils.py] and [trader_profitability.py]
    a second time, over the values as [json] decodes them: a field of any
    JSON type, an [int] without bound, a [float] as a binary64. The
    figures of well-typed data are stated over the typed modules; how a
    run ends and what the formatters print are stated over [Decoded]. *)

From Stdlib Require Import ZArith NArith QArith Qabs String Ascii DecimalString Lia.
From Stdlib Require Import SpecFloat.
From stdpp Require Import base option list strings gmap.

Local Open Scope N_scope.

(** ** Python text

    A Python [str] is a sequence of Unicode code points. *)

Abbreviation pystr := (list N).

(** An ASCII literal of the source, as a [str]. *)
Definition py (s : string) : pystr :=
  map N_of_ascii (list_ascii_of_string s).

(** The ways a request fails: the exceptions of [requests] that the
    scripts meet, all of them subclasses of [RequestException]. *)
Inductive failure :=
| ConnectionError
| Timeout
| HTTPError (status : N).

(** What the scripts take from CPython and [requests] without defining it:
    the case mappings of [str.lower] and [str.upper] outside ASCII (they
    may yield several code points and, for capital sigma, depend on the
    position [i] in the whole string [s]), and the text [str(e)] of an
    exception raised by [requests]. Every statement below holds for any
    such library. *)
Class Library := {
  lower_nonascii : pystr -> nat -> pystr;
  upper_nonascii : pystr -> nat -> pystr;
  str_failure : failure -> pystr
}.

Definition is_ascii (c : N) : bool := c <? 128.

Definition ascii_lower (c : N) : N :=
  if (65 <=? c) && (c <=? 90) then c + 32 else c.

Definition ascii_upper (c : N) : N :=
  if (97 <=? c) && (c <=? 122) then c - 32 else c.

Fixpoint lower_from `{Library} (s : pystr) (i : nat) (rest : pystr) : pystr :=
  match rest with
  | [] => []
  | c :: rest' =>
      (if is_ascii c then [ascii_lower c] else lower_nonascii s i)
        ++ lower_from s (S i) rest'
  end.

(** [s.lower()] *)
Definition lower `{Library} (s : pystr) : pystr := lower_from s 0 s.

Fixpoint upper_from `{Library} (s : pystr) (i : nat) (rest : pystr) : pystr :=
  match rest with
  | [] => []
  | c :: rest' =>
      (if is_ascii c then [ascii_upper c] else upper_nonascii s i)
        ++ upper_from s (S i) rest'
  end.

(** [s.upper()] *)
Definition upper `{Library} (s : pystr) : pystr := upper_from s 0 s.

Fixpoint starts_with (p s : pystr) : bool :=
  match p, s with
  | [], _ => true
  | _ :: _, [] => false
  | a :: p', b :: s' => (a =? b) && starts_with p' s'
  end.

(** The scan of [str.replace] for a non-empty [old]: occurrences are taken
    from left to right and do not overlap; [skip] counts the characters of
    the occurrence just matched that are still to be passed over. *)
Fixpoint replace_from (old new : pystr) (skip : nat) (s : pystr) : pystr :=
  match s with
  | [] => []
  | c :: t =>
      match skip with
      | S k => replace_from old new k t
      | O =>
          if starts_with old s
          then new ++ replace_from old new (length old - 1) t
          else c :: replace_from old new 0 t
      end
  end.

(** [s.replace(old, new)]; an empty [old] matches between any two
    characters and at both ends. *)
Definition replace (s old new : pystr) : pystr :=
  match old with
  | [] => new ++ flat_map (fun c => c :: new) s
  | _ :: _ => replace_from old new 0 s
  end.

(** [c in digits] for a one-character [c]. *)
Definition char_in (c : N) (digits : pystr) : bool :=
  existsb (N.eqb c) digits.

(** [str(n)] for an [int]. *)
Definition str_int (z : Z) : pystr :=
  py (NilZero.string_of_int (Z.to_int z)).

(** [not s] for a [str]. *)
Definition falsy (s : pystr) : bool :=
  match s with [] => true | _ :: _ => false end.

(** ** Exceptions, console and HTTP client *)

Inductive exn :=
| ValueError (msg : pystr)
| RequestException (e : failure)
| AttributeError
| KeyError
| TypeError
| OverflowError
| SystemExit (code : Z).

Inductive result (A : Type) :=
| Ret (a : A)
| Raise (e : exn)
| Hang.
Arguments Ret {A} a.
Arguments Raise {A} e.
Arguments Hang {A}.

(** One JSON object of a response, as the typed record the design notes
    ask for: its numeric, text and boolean fields, each possibly absent.
    A number is the exact value of the JSON number; the rounding of
    binary floating point, NaN and the infinities are outside the model,
    and so is a field that holds JSON of another type than the one it is
    read at. The module [Decoded] has both. *)
Record record := {
  num : gmap string Q;
  txt : gmap string pystr;
  flag : gmap string bool
}.

(** [p.get(field, default)] on a numeric field. *)
Definition get_num (p : record) (field : string) (dflt : Q) : Q :=
  default dflt (num p !! field).

(** [p.get(field, default)] on a text field. *)
Definition get_txt (p : record) (field : string) (dflt : pystr) : pystr :=
  default dflt (txt p !! field).

(** [p.get(field, default)] on a boolean field. *)
Definition get_flag (p : record) (field : string) (dflt : bool) : bool :=
  default dflt (flag p !! field).

(** The number of keys of an object. *)
Definition keys (p : record) : nat :=
  (size (num p) + size (txt p) + size (flag p))%nat.

(** A decoded response body, [response.json()]: an array of objects or
    one object, the two shapes the API answers with. *)
Inductive json :=
| JList (items : list record)
| JObject (r : record).

(** [len(data)] *)
Definition len (data : json) : nat :=
  match data with
  | JList items => length items
  | JObject r => keys r
  end.

(** [not data] *)
Definition empty (data : json) : bool := (len data =? 0)%nat.

Inductive param :=
| PStr (s : pystr)
| PInt (n : Z).

(** A GET request as [requests.get(url, params=..., timeout=...)] issues
    it; [req_timeout = None] when the keyword is not given. *)
Record request := {
  req_url : pystr;
  req_params : list (string * param);
  req_timeout : option N
}.

(** The value a request carries for the query parameter [name]. *)
Definition param_of (name : string) (rq : request) : option param :=
  snd <$> find (fun kv => String.eqb (fst kv) name) (req_params rq).

(** What the remote side does with a request: it answers with a status and
    a body of JSON, the connection fails, or no answer ever comes. *)
Inductive reply :=
| Response (status : N) (body : json)
| NoConnection
| NoAnswer.

Record response := {
  status_code : N;
  body : json
}.

(** The state a script runs in: the lines printed so far, the requests
    issued so far, and the remote side (a function of the earlier requests
    and the present one). *)
Record world := {
  console : list pystr;
  sent : list request;
  server : list request -> request -> reply
}.

Definition M (A : Type) : Type := world -> result A * world.

#[global] Instance M_ret : MRet M := fun A a w => (Ret a, w).

#[global] Instance M_bind : MBind M := fun A B f m w =>
  match m w with
  | (Ret a, w') => f a w'
  | (Raise e, w') => (Raise e, w')
  | (Hang, w') => (Hang, w')
  end.

Definition raise {A} (e : exn) : M A := fun w => (Raise e, w).

(** [try: body except <catches> as e: handler e] *)
Definition try_except {A} (body : M A) (catches : exn -> bool)
    (handler : exn -> M A) : M A := fun w =>
  match body w with
  | (Raise e, w') => if catches e then handler e w' else (Raise e, w')
  | other => other
  end.

(** [except requests.exceptions.RequestException] *)
Definition request_exception (e : exn) : bool :=
  match e with RequestException _ => true | _ => false end.

(** [except ValueError] *)
Definition value_error (e : exn) : bool :=
  match e with ValueError _ => true | _ => false end.

(** A bare [except:] *)
Definition anything (e : exn) : bool := true.

(** [str(e)] *)
Definition str_exn `{Library} (e : exn) : pystr :=
  match e with
  | ValueError msg => msg
  | RequestException f => str_failure f
  | AttributeError => py "AttributeError"
  | KeyError => py "KeyError"
  | TypeError => py "TypeError"
  | OverflowError => py "OverflowError"
  | SystemExit code => str_int code
  end.

(** [print(line)] *)
Definition print (line : pystr) : M unit := fun w =>
  (Ret (),
   {| console := console w ++ [line]; sent := sent w; server := server w |}).

(** [sys.exit(code)] *)
Definition sys_exit {A} (code : Z) : M A := raise (SystemExit code).

(** [requests.get(url, params=params, timeout=timeout)]: the request goes
    out; a failed connection raises, a missing answer raises once the
    timeout has passed and is waited for without end when there is none. *)
Definition requests_get (url : pystr) (params : list (string * param))
    (timeout : option N) : M response := fun w =>
  let rq := {| req_url := url; req_params := params; req_timeout := timeout |} in
  let w' := {| console := console w; sent := sent w ++ [rq]; server := server w |} in
  match server w (sent w) rq with
  | Response st b => (Ret {| status_code := st; body := b |}, w')
  | NoConnection => (Raise (RequestException ConnectionError), w')
  | NoAnswer =>
      match timeout with
      | Some _ => (Raise (RequestException Timeout), w')
      | None => (Hang, w')
      end
  end.

(** [response.ok]: the status is not a client or server error. *)
Definition ok (r : response) : bool :=
  negb ((400 <=? status_code r) && (status_code r <? 600)).

(** [response.raise_for_status()] *)
Definition raise_for_status (r : response) : M unit :=
  if ok r then mret () else raise (RequestException (HTTPError (status_code r))).

(** The exit status of the process that runs [main]: 0 after a normal
    return, the argument of [sys.exit], 1 after any other uncaught
    exception; none when the run never ends. *)
Definition exit_status (main : M unit) (w : world) : option Z :=
  match fst (main w) with
  | Ret _ => Some 0%Z
  | Raise (SystemExit code) => Some code
  | Raise _ => Some 1%Z
  | Hang => None
  end.

(** ** Numbers and their display *)

(** [a > b] and [a < b] on numbers; [abs(x)] is the library's [Qabs]. *)
Definition gt (a b : Q) : bool := negb (Qle_bool a b).
Definition lt (a b : Q) : bool := negb (Qle_bool b a).

(** [sum(xs)]: the items are added from left to right, starting from 0. *)
Definition sum (xs : list Q) : Q := fold_left Qplus xs 0%Q.

(** The integer nearest to [a / d] for [a >= 0], a tie going to the even
    neighbour. *)
Definition round_half_even (a : Z) (d : positive) : Z :=
  let k := (a / Zpos d)%Z in
  let r := (a mod Zpos d)%Z in
  match (2 * r ?= Zpos d)%Z with
  | Lt => k
  | Gt => (k + 1)%Z
  | Eq => if Z.even k then k else (k + 1)%Z
  end.

(** Thousands separators, on the digits in reverse order. *)
Fixpoint group3_rev (ds : pystr) : pystr :=
  match ds with
  | a :: b :: c :: ((_ :: _) as more) => a :: b :: c :: 44 :: group3_rev more
  | _ => ds
  end.

Definition group3 (ds : pystr) : pystr := rev (group3_rev (rev ds)).

Definition pad_zeros (width : nat) (ds : pystr) : pystr :=
  repeat 48 (width - length ds) ++ ds.

(** [f"{x:.<prec>f}"], and [f"{x:,.<prec>f}"] when [comma] is set: the
    decimal expansion of [x] correctly rounded to [prec] places (ties to
    even, as CPython rounds the exact value of a [float]), the sign of a
    negative [x] kept even when it rounds to zero. *)
Definition format_f (comma : bool) (prec : nat) (x : Q) : pystr :=
  let scale := (10 ^ Z.of_nat prec)%Z in
  let n := round_half_even (Z.abs (Qnum x) * scale) (Qden x) in
  let whole := str_int (n / scale) in
  (if (Qnum x <? 0)%Z then py "-" else [])
    ++ (if comma then group3 whole else whole)
    ++ match prec with
       | O => []
       | S _ => py "." ++ pad_zeros prec (str_int (n mod scale))
       end.

(** ** Loops over decoded data *)

(** The items a [for p in data] loop hands to a body that reads fields with
    [p.get]: an array yields its objects; an object yields its keys, which
    are strings and have no [get]. *)
Definition records (data : json) : M (list record) :=
  match data with
  | JList items => mret items
  | JObject r => if (keys r =? 0)%nat then mret [] else raise AttributeError
  end.

(** [data.get(field, default)] on a decoded body: a list has no [get]. *)
Definition data_get (data : json) (field : string) (dflt : Q) : M Q :=
  match data with
  | JObject r => mret (get_num r field dflt)
  | JList _ => raise AttributeError
  end.

(** [for x in xs: body x] *)
Fixpoint for_each {A} (xs : list A) (body : A -> M unit) : M unit :=
  match xs with
  | [] => mret ()
  | x :: xs' => body x;; for_each xs' body
  end.

(** [enumerate(xs, start)] *)
Fixpoint enumerate {A} (xs : list A) (start : Z) : list (Z * A) :=
  match xs with
  | [] => []
  | x :: xs' => (start, x) :: enumerate xs' (start + 1)
  end.

Fixpoint insert_desc {A} (key : A -> Q) (x : A) (sorted : list A) : list A :=
  match sorted with
  | [] => [x]
  | y :: more =>
      if lt (key y) (key x) then x :: sorted else y :: insert_desc key x more
  end.

(** [sorted(xs, key=key, reverse=True)]: descending, items of equal key in
    their original order. *)
Definition sorted_desc {A} (key : A -> Q) (xs : list A) : list A :=
  fold_left (fun acc x => insert_desc key x acc) xs [].

(** [f"{i:2d}"] and wider: right-aligned in [width] columns. *)
Definition format_d (width : nat) (i : Z) : pystr :=
  repeat 32 (width - length (str_int i)) ++ str_int i.

(** [sep.join(parts)] *)
Fixpoint join (sep : pystr) (parts : list pystr) : pystr :=
  match parts with
  | [] => []
  | [one] => one
  | one :: more => one ++ sep ++ join sep more
  end.

(** [str(b)] for a [bool]. *)
Definition str_bool (b : bool) : pystr :=
  if b then py "True" else py "False".

(** [f"{text:>3}"] and wider: a string right-aligned in [width] columns. *)
Definition align_right (width : nat) (text : pystr) : pystr :=
  repeat 32 (width - length text) ++ text.

(** [mark * n] *)
Definition times (mark : pystr) (n : nat) : pystr :=
  concat (repeat mark n).

(** * utils.py *)
Module Utils.

Definition hex_digits : pystr := py "0123456789abcdef".

Definition format_address `{Library} (address : pystr) : M pystr :=
  if falsy address then raise (ValueError (py "Address is required")) else
  let clean := replace (lower address) (py "0x") (py "") in
  if negb (length clean =? 40)%nat then
    raise (ValueError
      (py "Invalid address length: " ++ str_int (Z.of_nat (length clean))
        ++ py " characters (expected 40, got "
        ++ str_int (Z.of_nat (length clean) + 2) ++ py " with 0x prefix)"))
  else
  if negb (forallb (fun c => char_in c hex_digits) clean) then
    raise (ValueError (py "Address contains invalid hex characters"))
  else
  mret (py "0x" ++ clean).

Definition format_condition_id `{Library} (condition_id : pystr) : M pystr :=
  if falsy condition_id then raise (ValueError (py "Condition ID is required")) else
  let clean := replace (lower condition_id) (py "0x") (py "") in
  if negb (length clean =? 64)%nat then
    raise (ValueError
      (py "Invalid condition ID length: " ++ str_int (Z.of_nat (length clean))
        ++ py " characters (expected 64, got "
        ++ str_int (Z.of_nat (length clean) + 2) ++ py " with 0x prefix)"))
  else
  if negb (forallb (fun c => char_in c hex_digits) clean) then
    raise (ValueError (py "Condition ID contains invalid hex characters"))
  else
  mret (py "0x" ++ clean).

(** The markers U+1F4C8 (chart rising) and U+1F4C9 (chart falling). *)
Definition chart_up : pystr := [128200].
Definition chart_down : pystr := [128201].

Definition format_pnl (pnl : Q) : M pystr :=
  if gt pnl 0 then
    mret (py "+$" ++ format_f true 2 pnl ++ py " " ++ chart_up)
  else if lt pnl 0 then
    mret (py "-$" ++ format_f true 2 (Qabs pnl) ++ py " " ++ chart_down)
  else
    mret (py "$" ++ format_f true 2 pnl).

Definition format_percentage (percent : Q) : M pystr :=
  if gt percent 0 then
    mret (py "+" ++ format_f false 2 percent ++ py "% " ++ chart_up)
  else if lt percent 0 then
    mret (format_f false 2 percent ++ py "% " ++ chart_down)
  else
    mret (format_f false 2 percent ++ py "%").

(** The entries of [EXAMPLE_ADDRESSES] and [EXAMPLE_CONDITION_IDS]. *)
Definition trader1 : pystr := py "0x56687bf447db6ffa42ffe2204a05edaa20f55839".
Definition market1 : pystr :=
  py "0xdd22472e552920b8438158ea7238bfadfa4f736aa4cee91a6b86c39ead110917".

End Utils.

(** * trader_profitability.py *)
Module TraderProfitability.
Import Utils.

Definition get_active_positions `{Library} (address : pystr) (limit : Z) : M json :=
  let url := py "https://data-api.polymarket.com/positions" in
  try_except
    (response ← requests_get url
        [("user", PStr address); ("limit", PInt limit);
         ("redeemable", PStr (py "false"))]
        (Some 15);
     raise_for_status response;;
     mret (body response))
    request_exception
    (fun e =>
       print (py "Error fetching active positions: " ++ str_exn e);;
       mret (JList [])).

Definition get_closed_positions `{Library} (address : pystr) (limit : Z) : M json :=
  let url := py "https://data-api.polymarket.com/closed-positions" in
  try_except
    (response ← requests_get url
        [("user", PStr address); ("limit", PInt limit);
         ("sortBy", PStr (py "REALIZEDPNL")); ("sortDirection", PStr (py "DESC"))]
        (Some 15);
     raise_for_status response;;
     mret (body response))
    request_exception
    (fun e =>
       print (py "Error fetching closed positions: " ++ str_exn e);;
       mret (JList [])).

(** [data[0] if data and len(data) > 0 else None]; an object has no
    key [0]. *)
Definition first_entry (data : json) : M (option record) :=
  match data with
  | JList [] => mret None
  | JList (first :: _) => mret (Some first)
  | JObject r => if (keys r =? 0)%nat then mret None else raise KeyError
  end.

Definition get_leaderboard_pnl `{Library} (username address : option pystr)
    (time_period : pystr) : M (option record) :=
  let url := py "https://data-api.polymarket.com/v1/leaderboard" in
  let params :=
    [("category", PStr (py "OVERALL")); ("timePeriod", PStr time_period);
     ("orderBy", PStr (py "PNL")); ("limit", PInt 1)] in
  let fetch (params : list (string * param)) : M (option record) :=
    try_except
      (response ← requests_get url params (Some 15);
       raise_for_status response;;
       first_entry (body response))
      request_exception
      (fun e =>
         print (py "Warning: Could not fetch leaderboard data: " ++ str_exn e);;
         mret None) in
  match username, address with
  | Some ((_ :: _) as username), _ =>
      fetch (params ++ [("userName", PStr username)])
  | _, Some ((_ :: _) as address) =>
      formatted ← format_address address;
      fetch (params ++ [("user", PStr formatted)])
  | _, _ => mret None
  end.

(** The dictionary [calculate_profitability] returns; the last two keys
    are present only when details are asked for. *)
Record stats := {
  total_pnl : Q;
  unrealized_pnl : Q;
  realized_pnl : Q;
  active_positions : nat;
  closed_positions : nat;
  total_positions : nat;
  winning_active : nat;
  losing_active : nat;
  winning_closed : nat;
  losing_closed : nat;
  total_winning : nat;
  total_losing : nat;
  win_rate : Q;
  is_profitable : bool;
  active_positions_data : option json;
  closed_positions_data : option json
}.

(** The statistics of lines 133-183, once both lists are at hand. *)
Definition statistics (active_positions closed_positions : json)
    (active closed : list record) (show_details : bool) : stats :=
  let '(unrealized_pnl, unrealized_from_partials) :=
    fold_left
      (fun '(unrealized, partials) pos =>
         (unrealized + get_num pos "cashPnl" 0,
          partials + get_num pos "realizedPnl" 0)%Q)
      active (0%Q, 0%Q) in
  let realized_pnl := sum (map (fun pos => get_num pos "realizedPnl" 0) closed) in
  let total_realized := (realized_pnl + unrealized_from_partials)%Q in
  let total_pnl := (unrealized_pnl + total_realized)%Q in
  let winning_active := filter (fun p => gt (get_num p "cashPnl" 0) 0 = true) active in
  let losing_active := filter (fun p => lt (get_num p "cashPnl" 0) 0 = true) active in
  let winning_closed := filter (fun p => gt (get_num p "realizedPnl" 0) 0 = true) closed in
  let losing_closed := filter (fun p => lt (get_num p "realizedPnl" 0) 0 = true) closed in
  let total_positions := (length active + length closed)%nat in
  let total_winning := (length winning_active + length winning_closed)%nat in
  let total_losing := (length losing_active + length losing_closed)%nat in
  let win_rate :=
    if (0 <? total_positions)%nat
    then (inject_Z (Z.of_nat total_winning) / inject_Z (Z.of_nat total_positions) * 100)%Q
    else 0%Q in
  {| total_pnl := total_pnl;
     unrealized_pnl := unrealized_pnl;
     realized_pnl := total_realized;
     active_positions := length active;
     closed_positions := length closed;
     total_positions := total_positions;
     winning_active := length winning_active;
     losing_active := length losing_active;
     winning_closed := length winning_closed;
     losing_closed := length losing_closed;
     total_winning := total_winning;
     total_losing := total_losing;
     win_rate := win_rate;
     is_profitable := gt total_pnl 0;
     active_positions_data := if show_details then Some active_positions else None;
     closed_positions_data := if show_details then Some closed_positions else None |}.

Definition calculate_profitability `{Library} (address : pystr)
    (show_details : bool) (time_period : pystr) (username : option pystr)
    : M stats :=
  print ([240; 376; 8221] ++ py " Analyzing profitability for " ++ address ++ py "...");;
  print [];;
  active_positions ← get_active_positions address 500;
  closed_positions ← get_closed_positions address 50;
  active ← records active_positions;
  closed ← records closed_positions;
  mret (statistics active_positions closed_positions active closed show_details).

End TraderProfitability.

(** * get_leaderboard.py *)
Module GetLeaderboard.

Definition get_leaderboard `{Library} (category time_period order_by : pystr)
    (limit : Z) : M (option json) :=
  let url := py "https://data-api.polymarket.com/v1/leaderboard" in
  let params :=
    [("category", PStr (upper category));
     ("timePeriod", PStr (upper time_period));
     ("orderBy", PStr (upper order_by));
     ("limit", PInt (Z.min limit 50))] in
  try_except
    (response ← requests_get url params (Some 15);
     raise_for_status response;;
     mret (Some (body response)))
    request_exception
    (fun e =>
       print (py "Error fetching leaderboard: " ++ str_exn e);;
       mret None).

(** The totals of [main] (lines 136 and 137). *)
Definition total_pnl (leaderboard : list record) : Q :=
  sum (map (fun t => get_num t "pnl" 0) leaderboard).

Definition total_volume (leaderboard : list record) : Q :=
  sum (map (fun t => get_num t "vol" 0) leaderboard).

(** The parsed command line. *)
Record args := {
  category : pystr;
  period : pystr;
  order : pystr;
  limit : Z
}.

Definition main `{Library} (args : args) : M unit :=
  let metric :=
    if decide (order args = py "PNL") then py "P&L" else py "Volume" in
  print ([127942] ++ py " " ++ category args ++ py " Leaderboard - " ++ period args
           ++ py " (Top by " ++ metric ++ py ")");;
  print (times (py "=") 100);;
  print [];;
  leaderboard ← get_leaderboard (category args) (period args) (order args) (limit args);
  match leaderboard with
  | None => print (py "No leaderboard data found or error occurred.")
  | Some data =>
      if empty data then print (py "No leaderboard data found or error occurred.")
      else
        match data with
        | JObject _ | JList [] => print (py "No traders found on leaderboard.")
        | JList leaderboard =>
            for_each leaderboard (fun trader =>
              let rank := get_txt trader "rank" (py "?") in
              let username := get_txt trader "userName" (py "Anonymous") in
              let pnl := get_num trader "pnl" 0 in
              let volume := get_num trader "vol" 0 in
              let medal :=
                if decide (rank = py "1") then [129351] ++ py " "
                else if decide (rank = py "2") then [129352] ++ py " "
                else if decide (rank = py "3") then [129353] ++ py " "
                else [] in
              print (medal ++ py "#" ++ align_right 3 rank ++ py ". " ++ username);;
              shown ← Utils.format_pnl pnl;
              print (py "       P&L: " ++ shown);;
              print (py "       Volume: $" ++ format_f true 2 volume);;
              match txt trader !! "proxyWallet" with
              | Some ((_ :: _) as wallet) => print (py "       Wallet: " ++ wallet)
              | _ => mret ()
              end;;
              match txt trader !! "xUsername" with
              | Some ((_ :: _) as x_username) => print (py "       X: " ++ x_username)
              | _ => mret ()
              end;;
              (if get_flag trader "verifiedBadge" false
               then print (py "       " ++ [10003] ++ py " Verified")
               else mret ());;
              print []);;
            print (py "Showing top " ++ str_int (Z.of_nat (length leaderboard))
                     ++ py " traders");;
            let total_pnl := total_pnl leaderboard in
            let total_volume := total_volume leaderboard in
            print ([10] ++ py "Combined Stats:");;
            shown ← Utils.format_pnl total_pnl;
            print (py "Total P&L: " ++ shown);;
            print (py "Total Volume: $" ++ format_f true 2 total_volume)
        end
  end.

End GetLeaderboard.

(** * get_market_holders.py *)
Module GetMarketHolders.
Import Utils.

Definition get_market_holders `{Library} (condition_id : pystr) (limit : Z)
    : M (option json) :=
  let url := py "https://data-api.polymarket.com/holders" in
  market ← format_condition_id condition_id;
  let params := [("market", PStr market); ("limit", PInt (Z.min limit 20))] in
  try_except
    (response ← requests_get url params (Some 15);
     raise_for_status response;;
     mret (Some (body response)))
    request_exception
    (fun e =>
       print (py "Error fetching holders: " ++ str_exn e);;
       mret None).

End GetMarketHolders.

(** * get_user_positions.py *)
Module GetUserPositions.
Import Utils.

Definition get_user_positions `{Library} (address : pystr) (limit : Z)
    (sort_by sort_direction : pystr) (redeemable : option bool)
    : M (option json) :=
  let url := py "https://data-api.polymarket.com/positions" in
  user ← format_address address;
  let params :=
    [("user", PStr user); ("limit", PInt limit);
     ("sortBy", PStr sort_by); ("sortDirection", PStr sort_direction)]
    ++ match redeemable with
       | Some b => [("redeemable", PStr (lower (str_bool b)))]
       | None => []
       end in
  try_except
    (response ← requests_get url params (Some 15);
     raise_for_status response;;
     mret (Some (body response)))
    request_exception
    (fun e =>
       print (py "Error fetching positions: " ++ str_exn e);;
       mret None).

(** The totals of [main] (lines 145 and 146). *)
Definition total_value (positions : list record) : Q :=
  sum (map (fun p => get_num p "currentValue" 0) positions).

Definition total_pnl (positions : list record) : Q :=
  sum (map (fun p => get_num p "cashPnl" 0) positions).

(** The parsed command line. *)
Record args := {
  address : pystr;
  limit : Z;
  sort : pystr;
  direction : pystr;
  active_only : bool;
  include_payouts : bool
}.

(** [position[field]] on a text field. *)
Definition item (position : record) (field : string) : M pystr :=
  match txt position !! field with
  | Some text => mret text
  | None => raise KeyError
  end.

Definition main `{Library} (args : args) : M unit :=
  (if active_only args && include_payouts args then
     print (py "Error: Cannot use --active-only and --include-payouts together");;
     sys_exit 1
   else mret ());;
  formatted_address ←
    try_except (format_address (address args)) value_error
      (fun e => print (py "Error: " ++ str_exn e);; sys_exit 1);
  let '(redeemable, filter_description) :=
    if active_only args then (Some false, py "ACTIVE ONLY")
    else if include_payouts args then (Some true, py "CLAIMABLE PAYOUTS ONLY")
    else (None, py "ALL POSITIONS") in
  print ([128188] ++ py " Positions for " ++ formatted_address ++ py " ("
           ++ filter_description ++ py ")");;
  print (times (py "=") 100);;
  print [];;
  positions ← get_user_positions (address args) (limit args) (sort args)
                 (direction args) redeemable;
  match positions with
  | None => print (py "No positions found or error occurred.")
  | Some data =>
      if empty data then print (py "No positions found or error occurred.")
      else
        match data with
        | JObject _ | JList [] => print (py "No active positions.")
        | JList positions =>
            let total_value := total_value positions in
            let total_pnl := total_pnl positions in
            print (py "Total Positions: " ++ str_int (Z.of_nat (length positions)));;
            print (py "Total Value: $" ++ format_f true 2 total_value);;
            shown ← format_pnl total_pnl;
            print (py "Total Unrealized P&L: " ++ shown);;
            print [];;
            print (times (py "=") 100);;
            for_each (enumerate positions 1) (fun '(i, position) =>
              title ← item position "title";
              print ([10] ++ str_int i ++ py ". " ++ title);;
              print (py "   Market: " ++ get_txt position "slug" (py "N/A"));;
              outcome ← item position "outcome";
              print (py "   Outcome: " ++ outcome ++ py " (vs "
                       ++ get_txt position "oppositeOutcome" (py "N/A") ++ py ")");;
              let size := get_num position "size" 0 in
              let avg_price := get_num position "avgPrice" 0 in
              let cur_price := get_num position "curPrice" 0 in
              print ([10] ++ py "   Size: " ++ format_f true 2 size ++ py " shares");;
              print (py "   Avg Price: $" ++ format_f false 4 avg_price);;
              print (py "   Current Price: $" ++ format_f false 4 cur_price);;
              let initial_value := get_num position "initialValue" 0 in
              let current_value := get_num position "currentValue" 0 in
              let cash_pnl := get_num position "cashPnl" 0 in
              let percent_pnl := get_num position "percentPnl" 0 in
              print ([10] ++ py "   Initial Value: $" ++ format_f true 2 initial_value);;
              print (py "   Current Value: $" ++ format_f true 2 current_value);;
              shown ← format_pnl cash_pnl;
              percent ← format_percentage percent_pnl;
              print (py "   Unrealized P&L: " ++ shown ++ py " (" ++ percent ++ py ")");;
              match num position !! "realizedPnl" with
              | Some realized_pnl =>
                  if negb (Qeq_bool realized_pnl 0) then
                    let percent_realized := get_num position "percentRealizedPnl" 0 in
                    shown ← format_pnl realized_pnl;
                    percent ← format_percentage percent_realized;
                    print (py "   Realized P&L: " ++ shown ++ py " (" ++ percent ++ py ")")
                  else mret ()
              | None => mret ()
              end;;
              (if get_flag position "redeemable" false then
                 print ([10] ++ py "   Status: " ++ [10003] ++ py " Redeemable")
               else if get_flag position "mergeable" false then
                 print ([10] ++ py "   Status: " ++ [9889] ++ py " Mergeable")
               else mret ());;
              match txt position !! "endDate" with
              | Some ((_ :: _) as end_date) => print (py "   Ends: " ++ end_date)
              | _ => mret ()
              end)
        end
  end.

End GetUserPositions.

(** * get_user_activity.py *)
Module GetUserActivity.
Import Utils.

Definition get_user_activity `{Library} (address : pystr) (limit offset : Z)
    (activity_types : option (list pystr)) (side : option pystr)
    (sort_by sort_direction : pystr) : M (option json) :=
  let url := py "https://data-api.polymarket.com/activity" in
  user ← format_address address;
  let params :=
    [("user", PStr user); ("limit", PInt limit); ("offset", PInt offset);
     ("sortBy", PStr sort_by); ("sortDirection", PStr sort_direction)]
    ++ match activity_types with
       | Some ((_ :: _) as types) => [("type", PStr (join (py ",") types))]
       | _ => []
       end
    ++ match side with
       | Some ((_ :: _) as side) => [("side", PStr side)]
       | _ => []
       end in
  try_except
    (response ← requests_get url params (Some 15);
     raise_for_status response;;
     mret (Some (body response)))
    request_exception
    (fun e =>
       print (py "Error fetching activity: " ++ str_exn e);;
       mret None).

End GetUserActivity.

(** * get_user_trades.py *)
Module GetUserTrades.
Import Utils.

Definition get_user_trades `{Library} (address : pystr) (limit : Z)
    (side market : option pystr) : M (option json) :=
  let url := py "https://data-api.polymarket.com/trades" in
  user ← format_address address;
  let params :=
    [("user", PStr user); ("limit", PInt limit)]
    ++ match side with
       | Some ((_ :: _) as side) => [("side", PStr (upper side))]
       | _ => []
       end
    ++ match market with
       | Some ((_ :: _) as market) => [("market", PStr market)]
       | _ => []
       end in
  try_except
    (response ← requests_get url params (Some 15);
     raise_for_status response;;
     mret (Some (body response)))
    request_exception
    (fun e =>
       print (py "Error fetching trades: " ++ str_exn e);;
       mret None).

End GetUserTrades.

(** * get_portfolio_value.py *)
Module GetPortfolioValue.
Import Utils.

Definition get_portfolio_value `{Library} (address : pystr) : M (option Q) :=
  let url := py "https://data-api.polymarket.com/value" in
  user ← format_address address;
  let params := [("user", PStr user)] in
  try_except
    (response ← requests_get url params (Some 10);
     raise_for_status response;;
     let data := body response in
     match data with
     | JList (first :: _) => mret (Some (get_num first "value" 0))
     | _ => mret (Some 0%Q)
     end)
    request_exception
    (fun e =>
       print (py "Error fetching portfolio value: " ++ str_exn e);;
       mret None).

Definition get_user_positions_count `{Library} (address : pystr) : M nat :=
  let url := py "https://data-api.polymarket.com/positions" in
  user ← format_address address;
  let params := [("user", PStr user); ("limit", PInt 1)] in
  try_except
    (response ← requests_get url params (Some 10);
     raise_for_status response;;
     let positions := body response in
     match positions with
     | JList items => mret (length items)
     | JObject _ => mret 0%nat
     end)
    anything
    (fun _ => mret 0%nat).

Definition get_markets_traded_count `{Library} (address : pystr) : M Q :=
  let url := py "https://data-api.polymarket.com/traded" in
  user ← format_address address;
  let params := [("user", PStr user)] in
  try_except
    (response ← requests_get url params (Some 10);
     raise_for_status response;;
     data_get (body response) "traded" 0)
    anything
    (fun _ => mret 0%Q).

End GetPortfolioValue.

(** * analyze_trader.py *)
Module AnalyzeTrader.

Definition get_portfolio_value (address : pystr) : M Q :=
  let url := py "https://data-api.polymarket.com/value" in
  try_except
    (response ← requests_get url [("user", PStr address)] (Some 10);
     raise_for_status response;;
     let data := body response in
     match data with
     | JList (first :: _) => mret (get_num first "value" 0)
     | _ => mret 0%Q
     end)
    anything
    (fun _ => mret 0%Q).

Definition get_positions (address : pystr) (limit : Z) : M json :=
  let url := py "https://data-api.polymarket.com/positions" in
  try_except
    (response ← requests_get url
        [("user", PStr address); ("limit", PInt limit);
         ("sortBy", PStr (py "CASHPNL")); ("sortDirection", PStr (py "DESC"))]
        (Some 15);
     raise_for_status response;;
     mret (body response))
    anything
    (fun _ => mret (JList [])).

Definition get_recent_trades (address : pystr) (limit : Z) : M json :=
  let url := py "https://data-api.polymarket.com/trades" in
  try_except
    (response ← requests_get url
        [("user", PStr address); ("limit", PInt limit)] (Some 15);
     raise_for_status response;;
     mret (body response))
    anything
    (fun _ => mret (JList [])).

Definition get_markets_traded (address : pystr) : M Q :=
  let url := py "https://data-api.polymarket.com/traded" in
  try_except
    (response ← requests_get url [("user", PStr address)] (Some 10);
     raise_for_status response;;
     data_get (body response) "traded" 0)
    anything
    (fun _ => mret 0%Q).

Definition get_closed_positions (address : pystr) (limit : Z) : M json :=
  let url := py "https://data-api.polymarket.com/closed-positions" in
  try_except
    (response ← requests_get url
        [("user", PStr address); ("limit", PInt limit)] (Some 15);
     raise_for_status response;;
     mret (body response))
    anything
    (fun _ => mret (JList [])).

End AnalyzeTrader.

(** * trade_analysis.py *)
Module TradeAnalysis.
Import Utils.

Record failed_trade := {
  title : pystr;
  avg_buy : Q;
  avg_sell : Q;
  loss : Q;
  buy_count : nat;
  sell_count : nat
}.

Record trade_stats := {
  total_trades : nat;
  failed_trades : list failed_trade;
  markets_traded : nat
}.

(** [market_trades[condition_id].append(trade)] on a [defaultdict(list)],
    whose keys stay in the order of their first use. *)
Fixpoint append_to (market_trades : list (pystr * list record))
    (condition_id : pystr) (trade : record) : list (pystr * list record) :=
  match market_trades with
  | [] => [(condition_id, [trade])]
  | (k, v) :: more =>
      if decide (k = condition_id) then (k, v ++ [trade]) :: more
      else (k, v) :: append_to more condition_id trade
  end.

Fixpoint insert_asc {A} (key : A -> Q) (x : A) (sorted : list A) : list A :=
  match sorted with
  | [] => [x]
  | y :: more =>
      if lt (key x) (key y) then x :: sorted else y :: insert_asc key x more
  end.

(** [xs.sort(key=key)]: ascending, items of equal key in their original
    order. *)
Definition sort_asc {A} (key : A -> Q) (xs : list A) : list A :=
  fold_left (fun acc x => insert_asc key x acc) xs [].

(** [min(a, b)] *)
Definition min (a b : Q) : Q := if lt b a then b else a.

(** Lines 53-95 of [analyze_trades], on the items of the response. *)
Definition trade_statistics (trades : list record) : trade_stats :=
  let market_trades :=
    fold_left
      (fun market_trades trade =>
         match txt trade !! "conditionId" with
         | Some ((_ :: _) as condition_id) => append_to market_trades condition_id trade
         | _ => market_trades
         end)
      trades [] in
  let failed_trades :=
    fold_left
      (fun failed_trades '(condition_id, trades_list) =>
         let trades_list := sort_asc (fun x => get_num x "timestamp" 0) trades_list in
         let buys := filter (fun t => txt t !! "side" = Some (py "BUY")) trades_list in
         let sells := filter (fun t => txt t !! "side" = Some (py "SELL")) trades_list in
         match buys, sells, trades_list with
         | _ :: _, _ :: _, first :: _ =>
             let avg_buy :=
               (sum (map (fun t => get_num t "price" 0) buys)
                  / inject_Z (Z.of_nat (length buys)))%Q in
             let avg_sell :=
               (sum (map (fun t => get_num t "price" 0) sells)
                  / inject_Z (Z.of_nat (length sells)))%Q in
             if lt avg_sell avg_buy then
               let total_bought := sum (map (fun t => get_num t "size" 0) buys) in
               let total_sold := sum (map (fun t => get_num t "size" 0) sells) in
               let loss := ((avg_buy - avg_sell) * min total_bought total_sold)%Q in
               failed_trades ++
                 [{| title := get_txt first "title" (py "Unknown");
                     avg_buy := avg_buy;
                     avg_sell := avg_sell;
                     loss := loss;
                     buy_count := length buys;
                     sell_count := length sells |}]
             else failed_trades
         | _, _, _ => failed_trades
         end)
      market_trades [] in
  {| total_trades := length trades;
     failed_trades := failed_trades;
     markets_traded := length market_trades |}.

Definition analyze_trades `{Library} (address : pystr) (limit : Z)
    : M (option trade_stats) :=
  let url := py "https://data-api.polymarket.com/trades" in
  fetched ←
    try_except
      (user ← format_address address;
       response ← requests_get url
          [("user", PStr user); ("limit", PInt limit);
           ("takerOnly", PStr (py "true"))]
          (Some 20);
       raise_for_status response;;
       mret (Some (body response)))
      request_exception
      (fun e =>
         print (py "Error fetching trades: " ++ str_exn e);;
         mret None);
  match fetched with
  | None => mret None
  | Some trades =>
      items ← records trades;
      mret (Some (trade_statistics items))
  end.

Record closed_stats := {
  total_closed : nat;
  won_bets : list record;
  lost_bets : list record;
  win_count : nat;
  loss_count : nat;
  total_won : Q;
  total_lost : Q;
  net_pnl : Q
}.

(** Lines 128-151 of [analyze_closed_positions]. *)
Definition closed_statistics (positions : list record) : closed_stats :=
  let '(won_bets, lost_bets) :=
    fold_left
      (fun '(won_bets, lost_bets) pos =>
         let realized_pnl := get_num pos "realizedPnl" 0 in
         if gt realized_pnl 0 then (won_bets ++ [pos], lost_bets)
         else if lt realized_pnl 0 then (won_bets, lost_bets ++ [pos])
         else (won_bets, lost_bets))
      positions ([], []) in
  let total_won := sum (map (fun p => get_num p "realizedPnl" 0) won_bets) in
  let total_lost := sum (map (fun p => get_num p "realizedPnl" 0) lost_bets) in
  {| total_closed := length positions;
     won_bets := won_bets;
     lost_bets := lost_bets;
     win_count := length won_bets;
     loss_count := length lost_bets;
     total_won := total_won;
     total_lost := total_lost;
     net_pnl := (total_won + total_lost)%Q |}.

Definition analyze_closed_positions `{Library} (address : pystr) (limit : Z)
    : M (option closed_stats) :=
  let url := py "https://data-api.polymarket.com/closed-positions" in
  fetched ←
    try_except
      (user ← format_address address;
       response ← requests_get url
          [("user", PStr user); ("limit", PInt limit);
           ("sortBy", PStr (py "TIMESTAMP")); ("sortDirection", PStr (py "DESC"))]
          (Some 15);
       raise_for_status response;;
       mret (Some (body response)))
      request_exception
      (fun e =>
         print (py "Error fetching closed positions: " ++ str_exn e);;
         mret None);
  match fetched with
  | None => mret None
  | Some positions =>
      items ← records positions;
      mret (Some (closed_statistics items))
  end.

Record open_stats := {
  total_open : nat;
  winning_positions : list record;
  losing_positions : list record;
  winning_count : nat;
  losing_count : nat;
  unrealized_gain : Q;
  unrealized_loss : Q;
  net_unrealized : Q
}.

(** Lines 183-198 of [analyze_open_positions]. *)
Definition open_statistics (positions : list record) : open_stats :=
  let winning := filter (fun p => gt (get_num p "cashPnl" 0) 0 = true) positions in
  let losing := filter (fun p => lt (get_num p "cashPnl" 0) 0 = true) positions in
  let total_unrealized_gain := sum (map (fun p => get_num p "cashPnl" 0) winning) in
  let total_unrealized_loss := sum (map (fun p => get_num p "cashPnl" 0) losing) in
  {| total_open := length positions;
     winning_positions := winning;
     losing_positions := losing;
     winning_count := length winning;
     losing_count := length losing;
     unrealized_gain := total_unrealized_gain;
     unrealized_loss := total_unrealized_loss;
     net_unrealized := (total_unrealized_gain + total_unrealized_loss)%Q |}.

Definition analyze_open_positions `{Library} (address : pystr) (limit : Z)
    : M (option open_stats) :=
  let url := py "https://data-api.polymarket.com/positions" in
  fetched ←
    try_except
      (user ← format_address address;
       response ← requests_get url
          [("user", PStr user); ("limit", PInt limit);
           ("redeemable", PStr (py "false"))]
          (Some 15);
       raise_for_status response;;
       mret (Some (body response)))
      request_exception
      (fun e =>
         print (py "Error fetching open positions: " ++ str_exn e);;
         mret None);
  match fetched with
  | None => mret None
  | Some positions =>
      items ← records positions;
      mret (Some (open_statistics items))
  end.

(** [f"{x:+.<prec>f}"]: the sign is always shown. *)
Definition format_signed (prec : nat) (x : Q) : pystr :=
  (if (Qnum x <? 0)%Z then [] else py "+") ++ format_f false prec x.

(** The marks of the report, as the source file spells them. *)
Definition check_mark : pystr := [8218; 250; 214].
Definition cross_mark : pystr := [8218; 249; 229].
Definition bars : pystr := [63743; 252; 236; 228].
Definition target : pystr := [63743; 252; 233; 216].
Definition rising : pystr := [63743; 252; 236; 224].
Definition falling : pystr := [63743; 252; 236; 226].
Definition arrow : pystr := [8218; 220; 237].
Definition money : pystr := [63743; 252; 237; 8734].
Definition scales : pystr := [8218; 246; 241; 212; 8719; 232].
Definition rule : pystr := times [8218; 238; 196] 29.

Definition display_analysis (trade_stats : option trade_stats)
    (closed_stats : option closed_stats) (open_stats : option open_stats)
    (address : pystr) : M unit :=
  print (times (py "=") 100);;
  print (py "COMPREHENSIVE TRADE WIN/LOSS ANALYSIS");;
  print (times (py "=") 100);;
  print ([10] ++ py "Trader: " ++ address ++ [10]);;
  (* closed positions *)
  print (times (py "=") 100);;
  print (py "1. CLOSED POSITIONS (Realized P&L)");;
  print (times (py "=") 100);;
  match closed_stats with
  | Some closed_stats =>
      print ([10] ++ py "Total Closed Positions: "
               ++ str_int (Z.of_nat (total_closed closed_stats)));;
      print (py "  " ++ check_mark ++ py " WON:  "
               ++ str_int (Z.of_nat (win_count closed_stats))
               ++ py " positions (+$" ++ format_f false 2 (total_won closed_stats)
               ++ py ")");;
      print (py "  " ++ cross_mark ++ py " LOST: "
               ++ str_int (Z.of_nat (loss_count closed_stats))
               ++ py " positions ($" ++ format_f false 2 (total_lost closed_stats)
               ++ py ")");;
      print (py "  " ++ bars ++ py " NET:  $" ++ format_signed 2 (net_pnl closed_stats));;
      (if (0 <? total_closed closed_stats)%nat then
         let win_rate :=
           (inject_Z (Z.of_nat (win_count closed_stats))
              / inject_Z (Z.of_nat (total_closed closed_stats)) * 100)%Q in
         print (py "  " ++ target ++ py " Win Rate: " ++ format_f false 1 win_rate
                  ++ py "%")
       else mret ());;
      match lost_bets closed_stats with
      | _ :: _ =>
          print ([10] ++ cross_mark ++ py " TOP 10 LOST BETS (worst losses):");;
          print (times (py "-") 100);;
          let sorted_losses :=
            take 10 (sort_asc (fun x => get_num x "realizedPnl" 0)
                       (lost_bets closed_stats)) in
          for_each (enumerate sorted_losses 1) (fun '(i, bet) =>
            let pnl := get_num bet "realizedPnl" 0 in
            let title := take 60 (get_txt bet "title" (py "Unknown")) in
            let avg_price := get_num bet "avgPrice" 0 in
            print (format_d 2 i ++ py ". $" ++ align_right 7 (format_signed 2 pnl)
                     ++ py " | Avg Buy: $" ++ format_f false 3 avg_price
                     ++ py " | " ++ title))
      | [] => mret ()
      end;;
      match won_bets closed_stats with
      | _ :: _ =>
          print ([10] ++ check_mark ++ py " TOP 10 WON BETS (best wins):");;
          print (times (py "-") 100);;
          let sorted_wins :=
            take 10 (sorted_desc (fun x => get_num x "realizedPnl" 0)
                       (won_bets closed_stats)) in
          for_each (enumerate sorted_wins 1) (fun '(i, bet) =>
            let pnl := get_num bet "realizedPnl" 0 in
            let title := take 60 (get_txt bet "title" (py "Unknown")) in
            let avg_price := get_num bet "avgPrice" 0 in
            print (format_d 2 i ++ py ". $" ++ align_right 7 (format_signed 2 pnl)
                     ++ py " | Avg Buy: $" ++ format_f false 3 avg_price
                     ++ py " | " ++ title))
      | [] => mret ()
      end
  | None => mret ()
  end;;
  (* open positions *)
  print ([10] ++ times (py "=") 100);;
  print (py "2. OPEN POSITIONS (Unrealized P&L)");;
  print (times (py "=") 100);;
  match open_stats with
  | Some open_stats =>
      print ([10] ++ py "Total Open Positions: "
               ++ str_int (Z.of_nat (total_open open_stats)));;
      print (py "  " ++ rising ++ py " Currently Winning: "
               ++ str_int (Z.of_nat (winning_count open_stats))
               ++ py " (+$" ++ format_f false 2 (unrealized_gain open_stats) ++ py ")");;
      print (py "  " ++ falling ++ py " Currently Losing:  "
               ++ str_int (Z.of_nat (losing_count open_stats))
               ++ py " ($" ++ format_f false 2 (unrealized_loss open_stats) ++ py ")");;
      print (py "  " ++ bars ++ py " NET Unrealized:    $"
               ++ format_signed 2 (net_unrealized open_stats));;
      match losing_positions open_stats with
      | _ :: _ =>
          print ([10] ++ falling ++ py " BIGGEST UNREALIZED LOSSES (top 10):");;
          print (times (py "-") 100);;
          let sorted_losing :=
            take 10 (sort_asc (fun x => get_num x "cashPnl" 0)
                       (losing_positions open_stats)) in
          for_each (enumerate sorted_losing 1) (fun '(i, pos) =>
            let pnl := get_num pos "cashPnl" 0 in
            let title := take 50 (get_txt pos "title" (py "Unknown")) in
            let size := get_num pos "size" 0 in
            let avg_price := get_num pos "avgPrice" 0 in
            let cur_price := get_num pos "curPrice" 0 in
            print (format_d 2 i ++ py ". $" ++ align_right 7 (format_signed 2 pnl)
                     ++ py " | " ++ format_f false 0 size ++ py " shares | Buy $"
                     ++ format_f false 3 avg_price ++ py " " ++ arrow ++ py " Now $"
                     ++ format_f false 3 cur_price ++ py " | " ++ title))
      | [] => mret ()
      end
  | None => mret ()
  end;;
  (* failed trades *)
  print ([10] ++ times (py "=") 100);;
  print (py "3. FAILED TRADES (Bought High, Sold Low)");;
  print (times (py "=") 100);;
  match failed_trades <$> trade_stats with
  | Some ((_ :: _) as failed) =>
      print ([10] ++ py "Markets where trader BOUGHT HIGH and SOLD LOW: "
               ++ str_int (Z.of_nat (length failed)));;
      print (times (py "-") 100);;
      let sorted_failed := take 15 (sorted_desc loss failed) in
      for_each (enumerate sorted_failed 1) (fun '(i, trade) =>
        print (format_d 2 i ++ py ". Loss: $" ++ format_f false 2 (loss trade)
                 ++ py " | Buy $" ++ format_f false 3 (avg_buy trade)
                 ++ py " " ++ arrow ++ py " Sell $" ++ format_f false 3 (avg_sell trade)
                 ++ py " | " ++ take 55 (title trade)))
  | _ => print ([10] ++ py "No failed trades found (or insufficient trade data)")
  end;;
  (* overall summary *)
  print ([10] ++ times (py "=") 100);;
  print (py "OVERALL SUMMARY");;
  print (times (py "=") 100);;
  let total_realized :=
    match closed_stats with Some closed_stats => net_pnl closed_stats | None => 0%Q end in
  let total_unrealized :=
    match open_stats with Some open_stats => net_unrealized open_stats | None => 0%Q end in
  let total_pnl := (total_realized + total_unrealized)%Q in
  print ([10] ++ money ++ py " TOTAL P&L:");;
  print (py "  Realized (closed):   $" ++ format_signed 2 total_realized);;
  print (py "  Unrealized (open):   $" ++ format_signed 2 total_unrealized);;
  print (py "  " ++ rule);;
  print (py "  TOTAL:               $" ++ format_signed 2 total_pnl);;
  let verdict :=
    if gt total_pnl 0 then check_mark ++ py " PROFITABLE"
    else if lt total_pnl 0 then cross_mark ++ py " IN LOSS"
    else scales ++ py "  BREAK EVEN" in
  print ([10] ++ target ++ py " VERDICT: " ++ verdict);;
  match closed_stats with
  | Some closed_stats =>
      if (0 <? total_closed closed_stats)%nat then
        let total_wins := win_count closed_stats in
        let total_losses := loss_count closed_stats in
        let total_resolved := (total_wins + total_losses)%nat in
        if (0 <? total_resolved)%nat then
          let win_rate :=
            (inject_Z (Z.of_nat total_wins) / inject_Z (Z.of_nat total_resolved)
               * 100)%Q in
          print (bars ++ py " Win Rate (Closed): " ++ format_f false 1 win_rate
                   ++ py "% (" ++ str_int (Z.of_nat total_wins) ++ py "W / "
                   ++ str_int (Z.of_nat total_losses) ++ py "L)")
        else mret ()
      else mret ()
  | None => mret ()
  end;;
  print ([10] ++ times (py "=") 100).

(** The parsed command line; an option that is not given is [None]. *)
Record args := {
  address : option pystr;
  username : option pystr;
  limit : Z
}.

(** The truth value of an optional string. *)
Definition given (text : option pystr) : bool :=
  match text with
  | Some (_ :: _) => true
  | _ => false
  end.

Definition main `{Library} (args : args) : M unit :=
  (if negb (given (address args)) && negb (given (username args)) then
     print (py "Error: Must provide either --address or --username");;
     sys_exit 1
   else mret ());;
  '(address_to_use, formatted_address) ←
    match username args with
    | Some ((_ :: _) as username) => mret (username, username)
    | _ =>
        (* reached with an address that is given *)
        let address := default [] (address args) in
        try_except
          (formatted_address ← format_address address;
           mret (address, formatted_address))
          value_error
          (fun e => print (py "Error: " ++ str_exn e);; sys_exit 1)
    end;
  print ([63743; 252; 238; 231] ++ py " Analyzing trader: " ++ formatted_address);;
  print ([8218; 232; 8805] ++ py " Fetching data..." ++ [10]);;
  trade_stats ← analyze_trades address_to_use (limit args);
  closed_stats ← analyze_closed_positions address_to_use 50;
  open_stats ← analyze_open_positions address_to_use 100;
  display_analysis trade_stats closed_stats open_stats formatted_address.

End TradeAnalysis.

(** * redeemable_parameter_demo.py *)
Module RedeemableParameterDemo.
Import Utils.

Definition keycap : pystr := [65039; 8419].

Definition summary_text : pystr :=
  [10]
  ++ py "When to use each parameter:" ++ [10]
  ++ [10]
  ++ [9989] ++ py " redeemable=false" ++ [10]
  ++ py "   " ++ [8594] ++ py " Get ONLY current active positions" ++ [10]
  ++ py "   " ++ [8594] ++ py " Use for: portfolio tracking, active position management" ++ [10]
  ++ py "   " ++ [8594] ++ py " Example: " ++ [34] ++ py "Show me what I'm currently trading" ++ [34] ++ [10]
  ++ [10]
  ++ [128176] ++ py " redeemable=true  " ++ [10]
  ++ py "   " ++ [8594] ++ py " Get positions with UNCLAIMED PAYOUTS from resolved markets" ++ [10]
  ++ py "   " ++ [8594] ++ py " Use for: finding money to claim, checking old positions" ++ [10]
  ++ py "   " ++ [8594] ++ py " Example: " ++ [34] ++ py "Do I have any payouts to claim?" ++ [34] ++ [10]
  ++ [10]
  ++ [128260] ++ py " No redeemable parameter (or omitted)" ++ [10]
  ++ py "   " ++ [8594] ++ py " Get EVERYTHING (active + redeemable)" ++ [10]
  ++ py "   " ++ [8594] ++ py " Use for: complete portfolio view" ++ [10]
  ++ py "   " ++ [8594] ++ py " Example: " ++ [34] ++ py "Show me all my positions and claimable funds" ++ [34] ++ [10].

Definition get_positions_comparison `{Library} (address : pystr) : M unit :=
  let base_url := py "https://data-api.polymarket.com/positions" in
  formatted_addr ← format_address address;
  print (py "Comparing position queries for: " ++ formatted_addr);;
  print (times (py "=") 80);;
  (* Query 1 *)
  print ([10] ++ py "1" ++ keycap ++ py "  ACTIVE POSITIONS ONLY (redeemable=false)");;
  print (times (py "-") 80);;
  response ← requests_get base_url
    [("user", PStr formatted_addr); ("sizeThreshold", PInt 1); ("limit", PInt 100);
     ("sortBy", PStr (py "TOKENS")); ("sortDirection", PStr (py "DESC"));
     ("redeemable", PStr (py "false"))]
    None;
  (if ok response then
     let active := body response in
     print (py "Found " ++ str_int (Z.of_nat (len active)) ++ py " active position(s)");;
     if negb (empty active) then
       items ← records active;
       let total_value := sum (map (fun p => get_num p "currentValue" 0) items) in
       print (py "Total value: $" ++ format_f true 2 total_value);;
       print ([10] ++ py "Sample positions:");;
       for_each (take 3 items) (fun p =>
         print (py "  - " ++ take 60 (get_txt p "title" (py "N/A")));;
         print (py "    Value: $" ++ format_f true 2 (get_num p "currentValue" 0)
                  ++ py ", Redeemable: " ++ str_bool (get_flag p "redeemable" false)))
     else mret ()
   else
     print (py "Error: " ++ str_int (Z.of_N (status_code response))));;
  (* Query 2 *)
  print ([10; 10] ++ py "2" ++ keycap ++ py "  CLAIMABLE PAYOUTS (redeemable=true)");;
  print (times (py "-") 80);;
  response ← requests_get base_url
    [("user", PStr formatted_addr); ("sizeThreshold", PInt 1); ("limit", PInt 100);
     ("sortBy", PStr (py "TOKENS")); ("sortDirection", PStr (py "DESC"));
     ("redeemable", PStr (py "true"))]
    None;
  (if ok response then
     let redeemable := body response in
     print (py "Found " ++ str_int (Z.of_nat (len redeemable))
              ++ py " redeemable position(s)");;
     if negb (empty redeemable) then
       items ← records redeemable;
       let total_claimable := sum (map (fun p => get_num p "currentValue" 0) items) in
       print (py "Total claimable: $" ++ format_f true 2 total_claimable);;
       print ([10] ++ py "Sample redeemable positions:");;
       for_each (take 3 items) (fun p =>
         print (py "  - " ++ take 60 (get_txt p "title" (py "N/A")));;
         print (py "    Claimable: $" ++ format_f true 2 (get_num p "currentValue" 0)
                  ++ py ", Redeemable: " ++ str_bool (get_flag p "redeemable" false)))
     else mret ()
   else
     print (py "Error: " ++ str_int (Z.of_N (status_code response))));;
  (* Query 3 *)
  print ([10; 10] ++ py "3" ++ keycap ++ py "  ALL POSITIONS (no redeemable parameter)");;
  print (times (py "-") 80);;
  response ← requests_get base_url
    [("user", PStr formatted_addr); ("sizeThreshold", PInt 1); ("limit", PInt 100);
     ("sortBy", PStr (py "TOKENS")); ("sortDirection", PStr (py "DESC"))]
    None;
  (if ok response then
     let all_positions := body response in
     print (py "Found " ++ str_int (Z.of_nat (len all_positions))
              ++ py " total position(s)");;
     if negb (empty all_positions) then
       items ← records all_positions;
       let total_all := sum (map (fun p => get_num p "currentValue" 0) items) in
       let active_count :=
         length (filter (fun p => get_flag p "redeemable" false = false) items) in
       let redeemable_count :=
         length (filter (fun p => get_flag p "redeemable" false = true) items) in
       print (py "Total value: $" ++ format_f true 2 total_all);;
       print (py "  - Active: " ++ str_int (Z.of_nat active_count));;
       print (py "  - Redeemable: " ++ str_int (Z.of_nat redeemable_count));;
       print ([10] ++ py "Breakdown by status:");;
       for_each (take 5 items) (fun p =>
         let status :=
           if negb (get_flag p "redeemable" false)
           then [128994] ++ py " Active" else [128176] ++ py " Claimable" in
         print (py "  " ++ status ++ py ": " ++ take 50 (get_txt p "title" (py "N/A")));;
         print (py "    Value: $" ++ format_f true 2 (get_num p "currentValue" 0)))
     else mret ()
   else
     print (py "Error: " ++ str_int (Z.of_N (status_code response))));;
  print ([10; 10] ++ times (py "=") 80);;
  print (py "SUMMARY");;
  print (times (py "=") 80);;
  print summary_text.

End RedeemableParameterDemo.

(** * The scripts on the values as decoded

    The modules above read a response through typed records and exact
    numbers, which is how the figures are stated. How a run ends depends
    on more than that: a field can hold JSON of any type, a Python [int]
    has no bound, and a [float] is a binary64 with its rounding, its
    infinities, its signed zeros and NaN. [utils.py] and
    [trader_profitability.py] are embedded here once more, over the
    values exactly as [response.json()] hands them over. *)
Module Decoded.

(** The outcome of [format_address], which does not depend on the world
    it runs in. *)
Definition validated `{Library} (address : pystr) : result pystr :=
  fst (Utils.format_address address
         {| console := []; sent := []; server := fun _ _ => NoConnection |}).

(** ** Numbers

    A number is an [int] of any size or a [float]: a binary64, given by
    the library's [spec_float] with 53 bits of precision. *)
Definition prec : Z := 53.
Definition emax : Z := 1024.

Inductive number :=
| Int (z : Z)
| Float (f : spec_float).

(** What [json] decodes: [null], [true] and [false], a number (the
    literals [NaN], [Infinity] and [-Infinity] included), a string, an
    array, or an object, whose keys are strings and occur once each. *)
#[local] Set Warnings "-register-all".
Inductive value :=
| Null
| Bool (b : bool)
| Num (n : number)
| Str (s : pystr)
| Array (items : list value)
| Object (fields : list (pystr * value)).

(** What these scripts take from CPython beyond the model: the value of
    [sum] once it has met a [float] (a plain running sum before Python
    3.12, a compensated one since), the order [sorted] gives to keys that
    are not numbers in a total order (the comparisons it makes are those
    of its merge sort; it fails when one of them does), and the text
    [str(v)] of a value that is no string. *)
Class Interpreter := {
  float_sum : list number -> spec_float;
  sorted_reverse : list (value * value) -> option (list value);
  str_value : value -> pystr
}.

(** [float(z)]: the nearest binary64, ties to even; [None] when that is
    beyond the largest one, where Python raises [OverflowError]. *)
Definition to_float (z : Z) : option spec_float :=
  match binary_normalize prec emax z 0 false with
  | S754_infinity _ => None
  | f => Some f
  end.

(** The [float] an arithmetic operation or a format takes a number for. *)
Definition float_of (n : number) : option spec_float :=
  match n with
  | Int z => to_float z
  | Float f => Some f
  end.

(** A [bool] is an [int]: [True] is 1 and [False] is 0. *)
Definition as_number (v : value) : option number :=
  match v with
  | Num n => Some n
  | Bool b => Some (Int (if b then 1 else 0))
  | _ => None
  end.

(** [n > 0], [n < 0] and [n == 0]; NaN is none of the three. *)
Definition above_zero (n : number) : bool :=
  match n with
  | Int z => (0 <? z)%Z
  | Float (S754_finite false _ _) | Float (S754_infinity false) => true
  | Float _ => false
  end.

Definition below_zero (n : number) : bool :=
  match n with
  | Int z => (z <? 0)%Z
  | Float (S754_finite true _ _) | Float (S754_infinity true) => true
  | Float _ => false
  end.

Definition is_zero (n : number) : bool :=
  match n with
  | Int z => (z =? 0)%Z
  | Float (S754_zero _) => true
  | Float _ => false
  end.

(** [v == 0] and [v != 0] for any value: a value that is no number is
    not equal to 0. *)
Definition equals_zero (v : value) : bool :=
  match as_number v with
  | Some n => is_zero n
  | None => false
  end.

(** [abs(n)] *)
Definition absolute (n : number) : number :=
  match n with
  | Int z => Int (Z.abs z)
  | Float f => Float (SFabs f)
  end.

(** [-n] *)
Definition opposite (n : number) : number :=
  match n with
  | Int z => Int (- z)
  | Float f => Float (SFopp f)
  end.

(** The exact value of a finite [float]. *)
Definition float_value (f : spec_float) : Q :=
  match f with
  | S754_finite s m e =>
      let n := if s then Z.neg m else Z.pos m in
      match e with
      | Z.neg k => Qmake n (2 ^ k)%positive
      | _ => Qmake (n * 2 ^ e)%Z 1
      end
  | _ => 0%Q
  end.

(** The order of two numbers, exact also between an [int] and a [float];
    none when one of them is NaN. *)
Definition compare_numbers (a b : number) : option comparison :=
  match a, b with
  | Int x, Int y => Some (x ?= y)%Z
  | Float f, Float g => SFcompare f g
  | Int x, Float g =>
      match g with
      | S754_nan => None
      | S754_infinity s => Some (if s then Gt else Lt)
      | _ => Some (inject_Z x ?= float_value g)%Q
      end
  | Float f, Int y =>
      match f with
      | S754_nan => None
      | S754_infinity s => Some (if s then Lt else Gt)
      | _ => Some (float_value f ?= inject_Z y)%Q
      end
  end.

(** [f"{x:.<digits>f}"] for a [float], with [,] when [comma] is set: the
    decimal expansion of the exact value, correctly rounded; a negative
    zero keeps its sign. *)
Definition format_float (comma : bool) (digits : nat) (f : spec_float) : pystr :=
  match f with
  | S754_nan => py "nan"
  | S754_infinity s => (if s then py "-" else []) ++ py "inf"
  | S754_zero s => (if s then py "-" else []) ++ format_f comma digits 0
  | S754_finite _ _ _ => format_f comma digits (float_value f)
  end.

(** ** Console and HTTP client, with a decoded body *)

Inductive reply :=
| Response (status : N) (content : value)
| NoConnection
| NoAnswer.

Record response := {
  status_code : N;
  content : value
}.

Record world := {
  console : list pystr;
  sent : list request;
  server : list request -> request -> reply
}.

Definition M (A : Type) : Type := world -> result A * world.

#[global] Instance M_ret : MRet M := fun A a w => (Ret a, w).

#[global] Instance M_bind : MBind M := fun A B f m w =>
  match m w with
  | (Ret a, w') => f a w'
  | (Raise e, w') => (Raise e, w')
  | (Hang, w') => (Hang, w')
  end.

Definition raise {A} (e : exn) : M A := fun w => (Raise e, w).

Definition try_except {A} (body : M A) (catches : exn -> bool)
    (handler : exn -> M A) : M A := fun w =>
  match body w with
  | (Raise e, w') => if catches e then handler e w' else (Raise e, w')
  | other => other
  end.

Definition print (line : pystr) : M unit := fun w =>
  (Ret (),
   {| console := console w ++ [line]; sent := sent w; server := server w |}).

Definition sys_exit {A} (code : Z) : M A := raise (SystemExit code).

Definition requests_get (url : pystr) (params : list (string * param))
    (timeout : option N) : M response := fun w =>
  let rq := {| req_url := url; req_params := params; req_timeout := timeout |} in
  let w' := {| console := console w; sent := sent w ++ [rq]; server := server w |} in
  match server w (sent w) rq with
  | Response st v => (Ret {| status_code := st; content := v |}, w')
  | NoConnection => (Raise (RequestException ConnectionError), w')
  | NoAnswer =>
      match timeout with
      | Some _ => (Raise (RequestException Timeout), w')
      | None => (Hang, w')
      end
  end.

Definition ok (r : response) : bool :=
  negb ((400 <=? status_code r) && (status_code r <? 600)).

Definition raise_for_status (r : response) : M unit :=
  if ok r then mret () else raise (RequestException (HTTPError (status_code r))).

Definition exit_status (main : M unit) (w : world) : option Z :=
  match fst (main w) with
  | Ret _ => Some 0%Z
  | Raise (SystemExit code) => Some code
  | Raise _ => Some 1%Z
  | Hang => None
  end.

(** ** Operations on decoded values *)

(** [a + b] on numbers: exact on two [int]s, else the sum of two
    [float]s, rounded; an [int] too large for a [float] raises. *)
Definition add (a b : number) : M number :=
  match a, b with
  | Int x, Int y => mret (Int (x + y)%Z)
  | _, _ =>
      match float_of a, float_of b with
      | Some f, Some g => mret (Float (SFadd prec emax f g))
      | _, _ => raise OverflowError
      end
  end.

(** [a + v] for a number [a] and any value [v]. *)
Definition plus (a : number) (v : value) : M number :=
  match as_number v with
  | Some b => add a b
  | None => raise TypeError
  end.

(** [v > 0] and [v < 0] *)
Definition gt_zero (v : value) : M bool :=
  match as_number v with
  | Some n => mret (above_zero n)
  | None => raise TypeError
  end.

Definition lt_zero (v : value) : M bool :=
  match as_number v with
  | Some n => mret (below_zero n)
  | None => raise TypeError
  end.

(** [f"{n:.<digits>f}"] for a number: an [int] is first taken for a
    [float]. *)
Definition format_number (comma : bool) (digits : nat) (n : number) : M pystr :=
  match float_of n with
  | Some f => mret (format_float comma digits f)
  | None => raise OverflowError
  end.

(** The key [k] of a decoded object. *)
Definition lookup (k : pystr) (fields : list (pystr * value)) : option value :=
  snd <$> find (fun kv => bool_decide (fst kv = k)) fields.

(** [p.get(key, default)]: only an object has [get]. *)
Definition get (p : value) (key : string) (dflt : value) : M value :=
  match p with
  | Object fields => mret (default dflt (lookup (py key) fields))
  | _ => raise AttributeError
  end.

(** The items [for x in data] goes through: those of an array, the keys
    of an object, the characters of a string; nothing else can be
    iterated. *)
Definition iterate (data : value) : M (list value) :=
  match data with
  | Array items => mret items
  | Object fields => mret (map (fun kv => Str (fst kv)) fields)
  | Str s => mret (map (fun c => Str [c]) s)
  | _ => raise TypeError
  end.

(** [len(data)] *)
Definition len (data : value) : M nat :=
  match data with
  | Array items => mret (length items)
  | Object fields => mret (length fields)
  | Str s => mret (length s)
  | _ => raise TypeError
  end.

(** A loop that carries a state, a list comprehension with a test, and a
    loop for its effects. *)
Fixpoint fold_each {A S} (step : S -> A -> M S) (s : S) (xs : list A) : M S :=
  match xs with
  | [] => mret s
  | x :: xs' => s' ← step s x; fold_each step s' xs'
  end.

Fixpoint select {A} (test : A -> M bool) (xs : list A) : M (list A) :=
  match xs with
  | [] => mret []
  | x :: xs' =>
      keep ← test x;
      rest ← select test xs';
      mret (if (keep : bool) then x :: rest else rest)
  end.

Fixpoint for_each {A} (xs : list A) (body : A -> M unit) : M unit :=
  match xs with
  | [] => mret ()
  | x :: xs' => body x;; for_each xs' body
  end.

Fixpoint collect {A B} (f : A -> M B) (xs : list A) : M (list B) :=
  match xs with
  | [] => mret []
  | x :: xs' => y ← f x; ys ← collect f xs'; mret (y :: ys)
  end.

(** [sum(x.get(key, 0) for x in data)]: the items are read and added one
    by one from 0; when all went well and a [float] was among them, the
    value is the one CPython's [sum] gives. *)
Definition sum_of `{Interpreter} (key : string) (data : value) : M number :=
  items ← iterate data;
  '(total, terms) ←
    fold_each
      (fun '(total, terms) x =>
         v ← get x key (Num (Int 0));
         total ← plus total v;
         mret (total, terms ++ [default (Int 0) (as_number v)]))
      (Int 0, []) items;
  mret (match total with
        | Int _ => total
        | Float _ => Float (float_sum terms)
        end).

(** Keys that [sorted] can put in order whatever comparisons it makes:
    numbers, none of them NaN. *)
Definition ordered_key (v : value) : option number :=
  match as_number v with
  | Some (Float S754_nan) => None
  | other => other
  end.

Definition key_lt (a b : number) : bool :=
  match compare_numbers a b with
  | Some Lt => true
  | _ => false
  end.

Fixpoint insert_desc {A} (x : number * A) (sorted : list (number * A))
    : list (number * A) :=
  match sorted with
  | [] => [x]
  | y :: more =>
      if key_lt (fst y) (fst x) then x :: sorted else y :: insert_desc x more
  end.

(** [sorted(data, key=lambda x: x.get(key, 0), reverse=True)]: the keys
    are read first; fewer than two items are not compared; numbers in a
    total order come out descending, equal keys in their first order. *)
Definition sorted_by `{Interpreter} (key : string) (data : value) : M (list value) :=
  items ← iterate data;
  keys ← collect (fun x => get x key (Num (Int 0))) items;
  if (length items <? 2)%nat then mret items
  else
    match mapM ordered_key keys with
    | Some numbers =>
        mret (snd <$> fold_left (fun acc x => insert_desc x acc)
                        (zip numbers items) [])
    | None =>
        match sorted_reverse (zip keys items) with
        | Some sorted => mret sorted
        | None => raise TypeError
        end
    end.

(** * utils.py *)
Module Utils.

Definition format_address `{Library} (address : pystr) : M pystr :=
  fun w => (validated address, w).

(** The markers are U+1F4C8 (chart rising) and U+1F4C9 (chart falling).
    The first thing done with the argument is [pnl > 0], which raises
    [TypeError] for what is no number. *)
Definition format_pnl (pnl : value) : M pystr :=
  match as_number pnl with
  | None => raise TypeError
  | Some pnl =>
      if above_zero pnl then
        shown ← format_number true 2 pnl;
        mret (py "+$" ++ shown ++ py " " ++ [128200])
      else if below_zero pnl then
        shown ← format_number true 2 (absolute pnl);
        mret (py "-$" ++ shown ++ py " " ++ [128201])
      else
        shown ← format_number true 2 pnl;
        mret (py "$" ++ shown)
  end.

Definition format_percentage (percent : value) : M pystr :=
  match as_number percent with
  | None => raise TypeError
  | Some percent =>
      if above_zero percent then
        shown ← format_number false 2 percent;
        mret (py "+" ++ shown ++ py "% " ++ [128200])
      else if below_zero percent then
        shown ← format_number false 2 percent;
        mret (shown ++ py "% " ++ [128201])
      else
        shown ← format_number false 2 percent;
        mret (shown ++ py "%")
  end.

End Utils.

(** * trader_profitability.py *)
Module TraderProfitability.
Import Utils.

Definition get_active_positions `{Library} (address : pystr) (limit : Z) : M value :=
  let url := py "https://data-api.polymarket.com/positions" in
  try_except
    (response ← requests_get url
        [("user", PStr address); ("limit", PInt limit);
         ("redeemable", PStr (py "false"))]
        (Some 15);
     raise_for_status response;;
     mret (content response))
    request_exception
    (fun e =>
       print (py "Error fetching active positions: " ++ str_exn e);;
       mret (Array [])).

Definition get_closed_positions `{Library} (address : pystr) (limit : Z) : M value :=
  let url := py "https://data-api.polymarket.com/closed-positions" in
  try_except
    (response ← requests_get url
        [("user", PStr address); ("limit", PInt limit);
         ("sortBy", PStr (py "REALIZEDPNL")); ("sortDirection", PStr (py "DESC"))]
        (Some 15);
     raise_for_status response;;
     mret (content response))
    request_exception
    (fun e =>
       print (py "Error fetching closed positions: " ++ str_exn e);;
       mret (Array [])).

(** The dictionary [calculate_profitability] returns; the last two keys
    are present only when details are asked for. *)
Record stats := {
  total_pnl : number;
  unrealized_pnl : number;
  realized_pnl : number;
  active_positions : nat;
  closed_positions : nat;
  total_positions : nat;
  winning_active : nat;
  losing_active : nat;
  winning_closed : nat;
  losing_closed : nat;
  total_winning : nat;
  total_losing : nat;
  win_rate : number;
  is_profitable : bool;
  active_positions_data : option value;
  closed_positions_data : option value
}.

(** [n / d * 100] for two counts, [d] above zero. *)
Definition percentage (n d : nat) : number :=
  let float n := binary_normalize prec emax (Z.of_nat n) 0 false in
  Float (SFmul prec emax (SFdiv prec emax (float n) (float d)) (float 100%nat)).

Definition calculate_profitability `{Library} `{Interpreter} (address : pystr)
    (show_details : bool) (time_period : pystr) (username : option pystr)
    : M stats :=
  print ([240; 376; 8221] ++ py " Analyzing profitability for " ++ address ++ py "...");;
  print [];;
  active_positions ← get_active_positions address 500;
  closed_positions ← get_closed_positions address 50;
  active ← iterate active_positions;
  '(unrealized_pnl, unrealized_from_partials) ←
    fold_each
      (fun '(unrealized_pnl, unrealized_from_partials) pos =>
         cash ← get pos "cashPnl" (Num (Int 0));
         unrealized_pnl ← plus unrealized_pnl cash;
         realized ← get pos "realizedPnl" (Num (Int 0));
         unrealized_from_partials ← plus unrealized_from_partials realized;
         mret (unrealized_pnl, unrealized_from_partials))
      (Int 0, Int 0) active;
  realized_pnl ← sum_of "realizedPnl" closed_positions;
  total_realized ← add realized_pnl unrealized_from_partials;
  total_pnl ← add unrealized_pnl total_realized;
  closed ← iterate closed_positions;
  winning_active ←
    select (fun p => v ← get p "cashPnl" (Num (Int 0)); gt_zero v) active;
  losing_active ←
    select (fun p => v ← get p "cashPnl" (Num (Int 0)); lt_zero v) active;
  winning_closed ←
    select (fun p => v ← get p "realizedPnl" (Num (Int 0)); gt_zero v) closed;
  losing_closed ←
    select (fun p => v ← get p "realizedPnl" (Num (Int 0)); lt_zero v) closed;
  active_count ← len active_positions;
  closed_count ← len closed_positions;
  let total_positions := (active_count + closed_count)%nat in
  let total_winning := (length winning_active + length winning_closed)%nat in
  let total_losing := (length losing_active + length losing_closed)%nat in
  let win_rate :=
    if (0 <? total_positions)%nat then percentage total_winning total_positions
    else Int 0 in
  mret {| total_pnl := total_pnl;
          unrealized_pnl := unrealized_pnl;
          realized_pnl := total_realized;
          active_positions := active_count;
          closed_positions := closed_count;
          total_positions := total_positions;
          winning_active := length winning_active;
          losing_active := length losing_active;
          winning_closed := length winning_closed;
          losing_closed := length losing_closed;
          total_winning := total_winning;
          total_losing := total_losing;
          win_rate := win_rate;
          is_profitable := above_zero total_pnl;
          active_positions_data := if show_details then Some active_positions else None;
          closed_positions_data := if show_details then Some closed_positions else None |}.

(** [f"{pos.get('title', 'Unknown')[:60]}"]: a string is cut; an array is
    cut and then shown as [str] shows it; an object takes no slice
    ([TypeError], [KeyError] from Python 3.12 on) and nothing else can be
    indexed. *)
Definition title_of `{Interpreter} (pos : value) : M pystr :=
  title ← get pos "title" (Str (py "Unknown"));
  match title with
  | Str s => mret (take 60 s)
  | Array items => mret (str_value (Array (take 60 items)))
  | _ => raise TypeError
  end.

Definition display_profitability `{Interpreter} (stats : stats) (show_details : bool)
    : M unit :=
  print (times (py "=") 100);;
  print (py "TRADER PROFITABILITY ANALYSIS");;
  print (times (py "=") 100);;
  print [];;
  let total_pnl := total_pnl stats in
  let '(verdict, emoji) :=
    if above_zero total_pnl then
      ([226; 339; 8230] ++ py " PROFITABLE", [240; 376; 353; 8364])
    else if below_zero total_pnl then
      ([226; 338] ++ py " IN LOSS", [240; 376; 8220; 8240])
    else
      ([226; 353; 8211; 239; 184] ++ py "  BREAK EVEN", [226; 382; 161; 239; 184]) in
  print (emoji ++ py "  " ++ verdict);;
  shown ← format_pnl (Num total_pnl);
  print ([10] ++ py "Total P&L: " ++ shown);;
  print [];;
  print (times (py "-") 100);;
  print ([10] ++ [240; 376; 8220; 352] ++ py " P&L BREAKDOWN");;
  print (times (py "-") 100);;
  shown ← format_pnl (Num (unrealized_pnl stats));
  print (py "Unrealized P&L (Active Positions):  " ++ shown);;
  shown ← format_pnl (Num (realized_pnl stats));
  print (py "Realized P&L (Closed Positions):    " ++ shown);;
  print (times [226; 8221; 8364] 40);;
  shown ← format_pnl (Num (TraderProfitability.total_pnl stats));
  print (py "TOTAL P&L:                           " ++ shown);;
  print ([10; 10] ++ [240; 376; 8220; 710] ++ py " POSITION STATISTICS");;
  print (times (py "-") 100);;
  print (py "Total Positions Traded: " ++ str_int (Z.of_nat (total_positions stats)));;
  print (py "  " ++ [226; 8221; 339; 226; 8221; 8364] ++ py " Active: "
           ++ str_int (Z.of_nat (active_positions stats)));;
  print (py "  " ++ [226; 8221; 8221; 226; 8221; 8364] ++ py " Closed: "
           ++ str_int (Z.of_nat (closed_positions stats)));;
  print [];;
  print (py "Winning Positions: " ++ str_int (Z.of_nat (total_winning stats))
           ++ py " " ++ [240; 376; 8220; 710]);;
  print (py "  " ++ [226; 8221; 339; 226; 8221; 8364] ++ py " Active: "
           ++ str_int (Z.of_nat (winning_active stats)));;
  print (py "  " ++ [226; 8221; 8221; 226; 8221; 8364] ++ py " Closed: "
           ++ str_int (Z.of_nat (winning_closed stats)));;
  print [];;
  print (py "Losing Positions: " ++ str_int (Z.of_nat (total_losing stats))
           ++ py " " ++ [240; 376; 8220; 8240]);;
  print (py "  " ++ [226; 8221; 339; 226; 8221; 8364] ++ py " Active: "
           ++ str_int (Z.of_nat (losing_active stats)));;
  print (py "  " ++ [226; 8221; 8221; 226; 8221; 8364] ++ py " Closed: "
           ++ str_int (Z.of_nat (losing_closed stats)));;
  print [];;
  shown ← format_number false 1 (win_rate stats);
  print (py "Win Rate: " ++ shown ++ py "%");;
  match show_details, active_positions_data stats with
  | true, Some active_positions_data =>
      print ([10; 10] ++ [240; 376; 8217; 188] ++ py " TOP 10 ACTIVE POSITIONS (by P&L)");;
      print (times (py "-") 100);;
      sorted ← sorted_by "cashPnl" active_positions_data;
      for_each (enumerate (take 10 sorted) 1) (fun '(i, pos) =>
        cash_pnl ← get pos "cashPnl" (Num (Int 0));
        percent_pnl ← get pos "percentPnl" (Num (Int 0));
        rising ← gt_zero cash_pnl;
        let status := if (rising : bool) then [240; 376; 8220; 710] else [240; 376; 8220; 8240] in
        title ← title_of pos;
        print (format_d 2 i ++ py ". " ++ status ++ py " " ++ title);;
        shown ← format_pnl cash_pnl;
        percent ← format_percentage percent_pnl;
        print (py "     Unrealized: " ++ shown ++ py " (" ++ percent ++ py ")");;
        realized ← get pos "realizedPnl" (Num (Int 0));
        if negb (equals_zero realized) then
          shown ← format_pnl realized;
          print (py "     Realized (partial sales): " ++ shown)
        else mret ());;
      print ([10; 10] ++ [240; 376; 8217; 176]
               ++ py " TOP 10 CLOSED POSITIONS (by Realized P&L)");;
      print (times (py "-") 100);;
      closed_positions_data ←
        match closed_positions_data stats with
        | Some data => mret data
        | None => raise KeyError
        end;
      sorted ← sorted_by "realizedPnl" closed_positions_data;
      for_each (enumerate (take 10 sorted) 1) (fun '(i, pos) =>
        realized_pnl ← get pos "realizedPnl" (Num (Int 0));
        rising ← gt_zero realized_pnl;
        let status := if (rising : bool) then [240; 376; 8220; 710] else [240; 376; 8220; 8240] in
        title ← title_of pos;
        print (format_d 2 i ++ py ". " ++ status ++ py " " ++ title);;
        shown ← format_pnl realized_pnl;
        print (py "     Realized P&L: " ++ shown))
  | _, _ => mret ()
  end;;
  print ([10] ++ times (py "=") 100).

(** The parsed command line: [--address] (required) and [--detailed]. *)
Record args := {
  address : pystr;
  detailed : bool
}.

Definition main `{Library} `{Interpreter} (args : args) : M unit :=
  formatted_address ←
    try_except (format_address (address args)) value_error
      (fun e => print (py "Error: " ++ str_exn e);; sys_exit 1);
  stats ← calculate_profitability formatted_address (detailed args) (py "DAY") None;
  display_profitability stats (detailed args);;
  sys_exit (if is_profitable stats then 0 else 1).

End TraderProfitability.

(** ** Vocabulary of the statements *)

(** The number [p.get(key, 0)] is, for a position that is an object and
    holds a number there. *)
Definition reading (key : string) (p : value) : option number :=
  match p with
  | Object fields => as_number (default (Num (Int 0)) (lookup (py key) fields))
  | _ => None
  end.

(** How many positions of a list hold, under [key], a number that passes
    [test]. *)
Definition tally (test : number -> bool) (key : string) (items : list value) : nat :=
  length (List.filter (fun p => from_option test false (reading key p)) items).

Definition is_nan (n : number) : bool :=
  match n with
  | Float S754_nan => true
  | _ => false
  end.

(** The exception a reply makes a request with a timeout end in, if any. *)
Definition failure (r : reply) : option exn :=
  match r with
  | Response st _ =>
      if (400 <=? st) && (st <? 600) then Some (RequestException (HTTPError st))
      else None
  | NoConnection => Some (RequestException ConnectionError)
  | NoAnswer => Some (RequestException Timeout)
  end.

(** The statistics of a trader for whom no position was fetched. *)
Definition no_positions (detailed : bool) : TraderProfitability.stats :=
  {| TraderProfitability.total_pnl := Int 0;
     TraderProfitability.unrealized_pnl := Int 0;
     TraderProfitability.realized_pnl := Int 0;
     TraderProfitability.active_positions := 0;
     TraderProfitability.closed_positions := 0;
     TraderProfitability.total_positions := 0;
     TraderProfitability.winning_active := 0;
     TraderProfitability.losing_active := 0;
     TraderProfitability.winning_closed := 0;
     TraderProfitability.losing_closed := 0;
     TraderProfitability.total_winning := 0;
     TraderProfitability.total_losing := 0;
     TraderProfitability.win_rate := Int 0;
     TraderProfitability.is_profitable := false;
     TraderProfitability.active_positions_data :=
       if detailed then Some (Array []) else None;
     TraderProfitability.closed_positions_data :=
       if detailed then Some (Array []) else None |}.

(** An outcome that is a value or an exception other than [SystemExit]. *)
Definition plain {A} (r : result A) : Prop :=
  match r with
  | Ret _ => True
  | Raise (SystemExit _) => False
  | Raise _ => True
  | Hang => False
  end.

(** A computation that leaves the world as it found it and ends in a
    value or an exception other than [SystemExit]; one that at most
    prints before it ends so. *)
Definition computes {A} (m : M A) : Prop :=
  forall w, snd (m w) = w /\ plain (fst (m w)).

Definition only_prints {A} (m : M A) : Prop :=
  forall w,
    plain (fst (m w)) /\
    sent (snd (m w)) = sent w /\ server (snd (m w)) = server w /\
    exists more, console (snd (m w)) = console w ++ more.

(** A world with an empty console in which [remote] answers, and one in
    which the first request is answered with [active] and every later
    one with [closed]. *)
Definition fresh (remote : list request -> request -> reply) : world :=
  {| console := []; sent := []; server := remote |}.

Definition serving (active closed : value) : world :=
  fresh (fun earlier _ =>
           match earlier with
           | [] => Response 200 active
           | _ :: _ => Response 200 closed
           end).

Definition unreachable : world := fresh (fun _ _ => NoConnection).

(** An interpreter for the worked runs: the [sum] of before Python 3.12,
    which adds from left to right, exactly as long as it has met only
    [int]s; no order for keys out of a total order; no text for what is
    no string. *)
Definition running_sum (terms : list number) : number :=
  fold_left
    (fun acc n =>
       match acc, n with
       | Int x, Int y => Int (x + y)%Z
       | _, _ =>
           Float (SFadd prec emax (default S754_nan (float_of acc))
                    (default S754_nan (float_of n)))
       end)
    terms (Int 0).

Definition plain_interpreter : Interpreter := {|
  float_sum := fun terms => default S754_nan (float_of (running_sum terms));
  sorted_reverse := fun _ => None;
  str_value := fun _ => []
|}.

End Decoded.

(** * Concrete surroundings for the worked runs *)

(** A library in which code points outside ASCII have no case and a failed
    request is described by its kind. *)
Definition plain_library : Library := {|
  lower_nonascii := fun s i => match s !! i with Some c => [c] | None => [] end;
  upper_nonascii := fun s i => match s !! i with Some c => [c] | None => [] end;
  str_failure := fun f =>
    match f with
    | ConnectionError => py "connection failed"
    | Timeout => py "timed out"
    | HTTPError status => str_int (Z.of_N status) ++ py " error"
    end
|}.

(** A world with an empty console in which [remote] answers. *)
Definition fresh (remote : list request -> request -> reply) : world :=
  {| console := []; sent := []; server := remote |}.

Definition unreachable : world := fresh (fun _ _ => NoConnection).
Definition mute : world := fresh (fun _ _ => NoAnswer).

(** * Vocabulary of the statements *)

(** The characters a normalized identifier is made of. *)
Definition is_lower_hex_digit (c : N) : Prop :=
  48 <= c <= 57 \/ 97 <= c <= 102.

(** Following the words of the contract: the text left when one optional
    leading [0x] is taken off. *)
Definition without_leading_0x (s : pystr) : pystr :=
  match s with
  | 48 :: 120 :: rest => rest
  | _ => s
  end.

(** The positions of a list whose profit and loss in [field] is exactly
    zero (an absent field counting as 0). *)
Definition breakeven (field : string) (positions : list record) : nat :=
  length (filter (fun p => Qeq_bool (get_num p field 0) 0 = true) positions).

(** A remote side that answers the first request with the array [active]
    and every later one with the array [closed]. *)
Definition serving (active closed : list record) : world :=
  fresh (fun earlier _ =>
           match earlier with
           | [] => Response 200 (JList active)
           | _ :: _ => Response 200 (JList closed)
           end).

(** The three entries of the leaderboard fixture. *)
Definition entry (pnl : Q) : record :=
  {| num := {[ "pnl" := pnl ]}; txt := ∅; flag := ∅ |}.

(** The items of a decoded body, when a loop can read them. *)
Definition items_of (data : json) : option (list record) :=
  match data with
  | JList items => Some items
  | JObject r => if (keys r =? 0)%nat then Some [] else None
  end.

(** The failure a reply amounts to, if any: no connection, no answer, or a
    status that [raise_for_status] rejects. *)
Definition failure_of (r : reply) : option failure :=
  match r with
  | Response st _ =>
      if (400 <=? st) && (st <? 600) then Some (HTTPError st) else None
  | NoConnection => Some ConnectionError
  | NoAnswer => Some Timeout
  end.

(** A fetching call that degrades to a default: it never waits without
    end; it sends no request at all or exactly one, which carries
    [timeout]; and when that request fails the call returns [dflt], after
    printing [message] followed by the text of the failure, or nothing when
    there is no [message]. *)
Definition guarded `{Library} {A} (call : M A) (timeout : N) (dflt : A)
    (message : option pystr) : Prop :=
  forall w,
    fst (call w) <> Hang /\
    (sent (snd (call w)) = sent w \/
     exists rq,
       sent (snd (call w)) = sent w ++ [rq] /\
       req_timeout rq = Some timeout /\
       forall f, failure_of (server w (sent w) rq) = Some f ->
         fst (call w) = Ret dflt /\
         console (snd (call w)) =
           console w ++ match message with
                        | Some text => [text ++ str_failure f]
                        | None => []
                        end).

(** A character of the ASCII range, and a hexadecimal digit in either
    case. *)
Definition ascii_text (s : pystr) : Prop := Forall (fun c => c < 128) s.

Definition is_hex_digit (c : N) : Prop :=
  48 <= c <= 57 \/ 65 <= c <= 70 \/ 97 <= c <= 102.

(** A remote side that answers every request with status 200 and the
    body [data]. *)
Definition answering (data : json) : world :=
  fresh (fun _ _ => Response 200 data).

(** A position with the given unrealized and realized P&L. *)
Definition holding (cash realized : Q) : record :=
  {| num := {[ "cashPnl" := cash; "realizedPnl" := realized ]};
     txt := ∅; flag := ∅ |}.

(** A trade of a market: its side, price and size. *)
Definition trade (condition_id side : string) (price size : Q) : record :=
  {| num := {[ "price" := price; "size" := size ]};
     txt := {[ "conditionId" := py condition_id; "side" := py side ]};
     flag := ∅ |}.

(** The call sends exactly one request: to [url], with [value] as its
    query parameter [name]. *)
Definition asks {A} (call : M A) (w : world) (url name : string)
    (value : pystr) : Prop :=
  exists rq,
    sent (snd (call w)) = sent w ++ [rq] /\
    req_url rq = py url /\
    param_of name rq = Some (PStr value).

(** A position with a title and an outcome, and nothing else. *)
Definition bet (title outcome : string) : record :=
  {| num := ∅;
     txt := {[ "title" := py title; "outcome" := py outcome ]};
     flag := ∅ |}.

(** A computation that comes back with a value from every world, sends
    nothing and leaves the remote side as it is. *)
Definition quiet {A} (m : M A) : Prop :=
  forall w, exists a w',
    m w = (Ret a, w') /\ sent w' = sent w /\ server w' = server w.

(** A call that from every world comes back with a value, having sent
    one request and printed nothing. *)
Definition swallows {A} (call : M A) : Prop :=
  forall w, exists a rq,
    call w = (Ret a, {| console := console w; sent := sent w ++ [rq];
                        server := server w |}).

(** A remote side that brings no item: each request fails or is
    answered with the empty array. *)
Definition answers_nothing (w : world) : Prop :=
  forall earlier rq,
    failure_of (server w earlier rq) <> None \/
    exists st, server w earlier rq = Response st (JList []).

(** A computation that sends nothing and leaves the remote side as it
    is, whether it returns or raises. *)
Definition silent {A} (m : M A) : Prop :=
  forall w, sent (snd (m w)) = sent w /\ server (snd (m w)) = server w.

(** * Properties of the text primitives *)

(** Source literals are evaluated to their code points before a proof
    looks inside them. *)
Ltac eval_py :=
  repeat match goal with
         | |- context [py ?s] =>
             let v := eval vm_compute in (py s) in change (py s) with v
         | H : context [py ?s] |- _ =>
             let v := eval vm_compute in (py s) in change (py s) with v in H
         end.

Lemma char_in_hex_digits c :
  char_in c Utils.hex_digits = true <-> is_lower_hex_digit c.
Proof.
  unfold is_lower_hex_digit, char_in, Utils.hex_digits. eval_py. cbn.
  rewrite !orb_true_iff, !N.eqb_eq. lia.
Qed.

Lemma forallb_hex_digits s :
  forallb (fun c => char_in c Utils.hex_digits) s = true <->
  Forall is_lower_hex_digit s.
Proof.
  rewrite forallb_forall, Forall_forall.
  split; intros H c Hc.
  - apply char_in_hex_digits, H. by apply list_elem_of_In.
  - apply char_in_hex_digits, H. by apply list_elem_of_In.
Qed.

Section Text.
Context {lib : Library}.

Lemma lower_from_hex s i rest :
  Forall is_lower_hex_digit rest -> lower_from s i rest = rest.
Proof.
  intros H. revert i. induction H as [|c rest Hc _ IH]; intros i; [done|].
  cbn [lower_from]. rewrite IH.
  assert (is_ascii c = true) as ->.
  { unfold is_ascii. apply N.ltb_lt. destruct Hc; lia. }
  unfold ascii_lower.
  destruct (_ && _) eqn:E; [|done].
  apply andb_true_iff in E as [E1%N.leb_le E2%N.leb_le]. destruct Hc; lia.
Qed.

Lemma lower_hex s : Forall is_lower_hex_digit s -> lower s = s.
Proof. apply lower_from_hex. Qed.

Lemma lower_0x_hex s :
  Forall is_lower_hex_digit s -> lower (py "0x" ++ s) = py "0x" ++ s.
Proof.
  intros H. unfold lower. eval_py. cbn. f_equal. f_equal. by apply lower_from_hex.
Qed.

End Text.

Lemma replace_from_0x_hex s :
  Forall is_lower_hex_digit s -> replace_from (py "0x") [] 0 s = s.
Proof.
  eval_py. induction 1 as [|c s Hc Hs IH]; [done|].
  cbn [replace_from]. rewrite IH.
  destruct (starts_with [48; 120] (c :: s)) eqn:E; [|done].
  exfalso. destruct s as [|d s]; cbn [starts_with] in E.
  - by rewrite andb_false_r in E.
  - apply andb_true_iff in E as [_ E]. apply andb_true_iff in E as [E _].
    apply N.eqb_eq in E. apply Forall_cons in Hs as [Hd _].
    destruct Hd; lia.
Qed.

Lemma replace_0x_hex s :
  Forall is_lower_hex_digit s -> replace s (py "0x") (py "") = s.
Proof. intros H. rewrite <- (replace_from_0x_hex s H) at 2. by eval_py. Qed.

Lemma replace_0x_prefixed s :
  Forall is_lower_hex_digit s -> replace (py "0x" ++ s) (py "0x") (py "") = s.
Proof.
  intros H. pose proof (replace_from_0x_hex s H) as E. revert E.
  eval_py. cbn. by intros ->.
Qed.

(** * utils.py: the validators *)

Section Validators.
Context {lib : Library}.
Import Utils.

(** What a validator returns is what it kept of its argument: the text
    left after lowering and removing every [0x], when that text has the
    expected length and only hexadecimal digits. *)
Lemma format_address_returns s w v w' :
  format_address s w = (Ret v, w') ->
  let clean := replace (lower s) (py "0x") (py "") in
  v = py "0x" ++ clean /\ w' = w /\ length clean = 40%nat /\
  Forall is_lower_hex_digit clean.
Proof.
  unfold format_address. cbv zeta.
  destruct (falsy s); [discriminate|].
  destruct (length _ =? 40)%nat eqn:Hlen; [|discriminate]. cbn [negb].
  destruct (forallb _ _) eqn:Hhex; [|discriminate]. cbn [negb].
  intros [= <- <-]. repeat split.
  - by apply Nat.eqb_eq.
  - by apply forallb_hex_digits.
Qed.

Lemma format_condition_id_returns s w v w' :
  format_condition_id s w = (Ret v, w') ->
  let clean := replace (lower s) (py "0x") (py "") in
  v = py "0x" ++ clean /\ w' = w /\ length clean = 64%nat /\
  Forall is_lower_hex_digit clean.
Proof.
  unfold format_condition_id. cbv zeta.
  destruct (falsy s); [discriminate|].
  destruct (length _ =? 64)%nat eqn:Hlen; [|discriminate]. cbn [negb].
  destruct (forallb _ _) eqn:Hhex; [|discriminate]. cbn [negb].
  intros [= <- <-]. repeat split.
  - by apply Nat.eqb_eq.
  - by apply forallb_hex_digits.
Qed.

Lemma format_address_normalized h w :
  length h = 40%nat -> Forall is_lower_hex_digit h ->
  format_address (py "0x" ++ h) w = (Ret (py "0x" ++ h), w) /\
  format_address h w = (Ret (py "0x" ++ h), w).
Proof.
  intros Hlen Hhex. unfold format_address. cbv zeta.
  rewrite lower_0x_hex, replace_0x_prefixed, lower_hex, replace_0x_hex by done.
  rewrite Hlen. cbn [Nat.eqb negb].
  apply forallb_hex_digits in Hhex as ->. cbn [negb].
  destruct h; [discriminate|]. done.
Qed.

Lemma format_condition_id_normalized h w :
  length h = 64%nat -> Forall is_lower_hex_digit h ->
  format_condition_id (py "0x" ++ h) w = (Ret (py "0x" ++ h), w) /\
  format_condition_id h w = (Ret (py "0x" ++ h), w).
Proof.
  intros Hlen Hhex. unfold format_condition_id. cbv zeta.
  rewrite lower_0x_hex, replace_0x_prefixed, lower_hex, replace_0x_hex by done.
  rewrite Hlen. cbn [Nat.eqb negb].
  apply forallb_hex_digits in Hhex as ->. cbn [negb].
  destruct h; [discriminate|]. done.
Qed.

(** Conversely, a validator returns as soon as the text it kept has the
    expected length and only hexadecimal digits. *)
Lemma format_address_accepts s w :
  let clean := replace (lower s) (py "0x") (py "") in
  length clean = 40%nat -> Forall is_lower_hex_digit clean ->
  format_address s w = (Ret (py "0x" ++ clean), w).
Proof.
  cbv zeta. intros Hlen Hhex. unfold format_address. cbv zeta.
  rewrite Hlen. apply forallb_hex_digits in Hhex as ->. cbn [Nat.eqb negb].
  destruct s; [discriminate Hlen|done].
Qed.

Lemma format_condition_id_accepts s w :
  let clean := replace (lower s) (py "0x") (py "") in
  length clean = 64%nat -> Forall is_lower_hex_digit clean ->
  format_condition_id s w = (Ret (py "0x" ++ clean), w).
Proof.
  cbv zeta. intros Hlen Hhex. unfold format_condition_id. cbv zeta.
  rewrite Hlen. apply forallb_hex_digits in Hhex as ->. cbn [Nat.eqb negb].
  destruct s; [discriminate Hlen|done].
Qed.

(** A validator raises nothing but [ValueError] and leaves the world as it
    found it. *)
Lemma format_address_run s w :
  exists r, format_address s w = (r, w) /\
            match r with Ret _ | Raise (ValueError _) => True | _ => False end.
Proof.
  unfold format_address. cbv zeta.
  destruct (falsy s); [by eexists|].
  destruct (negb (length _ =? 40)%nat); [by eexists|].
  destruct (negb (forallb _ _)); by eexists.
Qed.

Lemma format_condition_id_run s w :
  exists r, format_condition_id s w = (r, w) /\
            match r with Ret _ | Raise (ValueError _) => True | _ => False end.
Proof.
  unfold format_condition_id. cbv zeta.
  destruct (falsy s); [by eexists|].
  destruct (negb (length _ =? 64)%nat); [by eexists|].
  destruct (negb (forallb _ _)); by eexists.
Qed.

(** C9. Whenever [format_address] returns, its value is [0x] followed by
    exactly 40 lowercase hexadecimal digits; whenever
    [format_condition_id] returns, its value is [0x] followed by exactly
    64 lowercase hexadecimal digits. *)
Theorem validators_output_shape :
  (forall s w v w', format_address s w = (Ret v, w') ->
     exists digits, v = py "0x" ++ digits /\ length digits = 40%nat /\
                    Forall is_lower_hex_digit digits) /\
  (forall s w v w', format_condition_id s w = (Ret v, w') ->
     exists digits, v = py "0x" ++ digits /\ length digits = 64%nat /\
                    Forall is_lower_hex_digit digits).
Proof.
  split; intros s w v w' Hrun.
  - apply format_address_returns in Hrun as (Hv & _ & Hlen & Hhex). eauto.
  - apply format_condition_id_returns in Hrun as (Hv & _ & Hlen & Hhex). eauto.
Qed.

(** C5. On 40 lowercase hexadecimal digits [h], [format_address] gives
    [0x h] with or without the prefix on its argument, and it maps every
    value it returns to itself; the same for [format_condition_id] with 64
    digits. *)
Theorem validators_idempotent :
  (forall h w, length h = 40%nat -> Forall is_lower_hex_digit h ->
     format_address (py "0x" ++ h) w = (Ret (py "0x" ++ h), w) /\
     format_address h w = (Ret (py "0x" ++ h), w)) /\
  (forall s w v w', format_address s w = (Ret v, w') ->
     forall w2, format_address v w2 = (Ret v, w2)) /\
  (forall h w, length h = 64%nat -> Forall is_lower_hex_digit h ->
     format_condition_id (py "0x" ++ h) w = (Ret (py "0x" ++ h), w) /\
     format_condition_id h w = (Ret (py "0x" ++ h), w)) /\
  (forall s w v w', format_condition_id s w = (Ret v, w') ->
     forall w2, format_condition_id v w2 = (Ret v, w2)).
Proof.
  split; [|split; [|split]].
  - intros h w. apply format_address_normalized.
  - intros s w v w' Hrun w2.
    apply format_address_returns in Hrun as (-> & _ & Hlen & Hhex).
    by apply format_address_normalized.
  - intros h w. apply format_condition_id_normalized.
  - intros s w v w' Hrun w2.
    apply format_condition_id_returns in Hrun as (-> & _ & Hlen & Hhex).
    by apply format_condition_id_normalized.
Qed.

End Validators.

(** A run that settles on an outcome without looking at the world. *)
Ltac pure_run := eexists; split; [|intros ?; reflexivity]; discriminate.

Section ValidatorRuns.
Context {lib : Library}.
Import Utils.

(** C1. The validators take out every [0x], not only a leading one: a
    44-character argument that begins with two prefixes, and a
    42-character one with [0x] in its middle, are returned as addresses
    although what follows one leading prefix is not 40 hexadecimal digits;
    likewise a condition id with two prefixes. *)
Theorem validators_remove_inner_0x w :
  let doubled := py "0x0x56687bf447db6ffa42ffe2204a05edaa20f55839" in
  let inner := py "56687bf447db6ffa0x42ffe2204a05edaa20f55839" in
  let market :=
    py "0x0xdd22472e552920b8438158ea7238bfadfa4f736aa4cee91a6b86c39ead110917" in
  (length (without_leading_0x (lower doubled)) = 42%nat /\
   format_address doubled w =
     (Ret (py "0x56687bf447db6ffa42ffe2204a05edaa20f55839"), w)) /\
  (length (without_leading_0x (lower inner)) = 42%nat /\
   format_address inner w =
     (Ret (py "0x56687bf447db6ffa42ffe2204a05edaa20f55839"), w)) /\
  (length (without_leading_0x (lower market)) = 66%nat /\
   format_condition_id market w =
     (Ret (py "0xdd22472e552920b8438158ea7238bfadfa4f736aa4cee91a6b86c39ead110917"), w)).
Proof. vm_compute. repeat split. Qed.

(** C8. Each of the four helpers of [utils.py] is a function of its
    argument alone: there is one outcome (a value or a [ValueError]) that
    every run on that argument yields, whatever the console, the request
    log and the remote side are, and the run leaves all three as they
    were. *)
Theorem utils_pure :
  (forall s, exists r, r <> Hang /\ forall w, format_address s w = (r, w)) /\
  (forall s, exists r, r <> Hang /\ forall w, format_condition_id s w = (r, w)) /\
  (forall x, exists r, r <> Hang /\ forall w, format_pnl x w = (r, w)) /\
  (forall x, exists r, r <> Hang /\ forall w, format_percentage x w = (r, w)).
Proof.
  repeat split; intros x.
  - unfold format_address. cbv zeta.
    destruct (falsy x); [pure_run|].
    destruct (negb (length _ =? 40)%nat); [pure_run|].
    destruct (negb (forallb _ _)); pure_run.
  - unfold format_condition_id. cbv zeta.
    destruct (falsy x); [pure_run|].
    destruct (negb (length _ =? 64)%nat); [pure_run|].
    destruct (negb (forallb _ _)); pure_run.
  - unfold format_pnl. destruct (gt x 0); [pure_run|].
    destruct (lt x 0); pure_run.
  - unfold format_percentage. destruct (gt x 0); [pure_run|].
    destruct (lt x 0); pure_run.
Qed.

End ValidatorRuns.

(** * The sign of an amount *)

Lemma gt_spec (a b : Q) : gt a b = true <-> (b < a)%Q.
Proof.
  unfold gt. rewrite negb_true_iff, <- not_true_iff_false, Qle_bool_iff.
  split; [apply Qnot_le_lt | apply Qlt_not_le].
Qed.

Lemma lt_spec (a b : Q) : lt a b = true <-> (a < b)%Q.
Proof. apply gt_spec. Qed.

Lemma gt_false (a b : Q) : gt a b = false <-> (a <= b)%Q.
Proof.
  unfold gt. rewrite negb_false_iff. apply Qle_bool_iff.
Qed.

(** * Aggregation *)

Lemma sign_cases (x : Q) :
  (gt x 0 = true /\ lt x 0 = false /\ Qeq_bool x 0 = false) \/
  (gt x 0 = false /\ lt x 0 = true /\ Qeq_bool x 0 = false) \/
  (gt x 0 = false /\ lt x 0 = false /\ Qeq_bool x 0 = true).
Proof.
  destruct (Q_dec x 0) as [[Hlt|Hgt]|Heq].
  - right; left. repeat split.
    + apply gt_false. by apply Qlt_le_weak.
    + by apply lt_spec.
    + apply not_true_iff_false. intros E%Qeq_bool_iff.
      rewrite E in Hlt. by apply Qlt_irrefl in Hlt.
  - left. repeat split.
    + by apply gt_spec.
    + apply gt_false. by apply Qlt_le_weak.
    + apply not_true_iff_false. intros E%Qeq_bool_iff.
      rewrite E in Hgt. by apply Qlt_irrefl in Hgt.
  - right; right. repeat split.
    + apply gt_false. by rewrite Heq.
    + apply gt_false. by rewrite Heq.
    + by apply Qeq_bool_iff.
Qed.

(** Every item of a list falls in exactly one of the three classes. *)
Lemma sign_partition (value : record -> Q) (l : list record) :
  (length (filter (fun p => gt (value p) 0 = true) l)
   + length (filter (fun p => lt (value p) 0 = true) l)
   + length (filter (fun p => Qeq_bool (value p) 0 = true) l) = length l)%nat.
Proof.
  induction l as [|p l IH]; [done|].
  rewrite !filter_cons.
  destruct (sign_cases (value p)) as [(-> & -> & ->)|[(-> & -> & ->)|(-> & -> & ->)]];
    repeat case_decide; try done; cbn [length]; lia.
Qed.

Lemma sum_snoc (xs : list Q) (x : Q) : sum (xs ++ [x]) = (sum xs + x)%Q.
Proof. unfold sum. by rewrite fold_left_app. Qed.

Section Profitability.
Context {lib : Library}.
Import TraderProfitability.


End Profitability.

(** The win and loss lists of [analyze_closed_positions] and of
    [analyze_open_positions] leave out exactly the positions at zero. *)
Lemma closed_statistics_partition (positions : list record) :
  let s := TradeAnalysis.closed_statistics positions in
  (TradeAnalysis.win_count s + TradeAnalysis.loss_count s
     + breakeven "realizedPnl" positions = TradeAnalysis.total_closed s)%nat.
Proof.
  unfold TradeAnalysis.closed_statistics, breakeven.
  set (step := fun '(won, lost) pos => _).
  assert (forall l won lost,
    let r := fold_left step l (won, lost) in
    (length (fst r) + length (snd r)
      + length (filter (fun p => Qeq_bool (get_num p "realizedPnl" 0) 0 = true) l)
     = length won + length lost + length l)%nat) as Hfold.
  { induction l as [|p l IH]; intros won lost; [cbn; lia|].
    cbn [fold_left]. rewrite filter_cons.
    assert (step (won, lost) p =
            if gt (get_num p "realizedPnl" 0) 0 then (won ++ [p], lost)
            else if lt (get_num p "realizedPnl" 0) 0 then (won, lost ++ [p])
            else (won, lost)) as -> by reflexivity.
    pose proof (IH (won ++ [p]) lost) as I1.
    pose proof (IH won (lost ++ [p])) as I2.
    pose proof (IH won lost) as I3.
    cbv zeta in I1, I2, I3. rewrite ?length_app in I1, I2.
    destruct (sign_cases (get_num p "realizedPnl" 0))
      as [(Hg & Hl & He)|[(Hg & Hl & He)|(Hg & Hl & He)]];
      rewrite Hg, ?Hl; case_decide; try congruence; cbn [length] in *; lia. }
  specialize (Hfold positions [] []). cbv zeta in Hfold.
  destruct (fold_left step positions ([], [])) as [won lost].
  cbn in *. lia.
Qed.

Lemma open_statistics_partition (positions : list record) :
  let s := TradeAnalysis.open_statistics positions in
  (TradeAnalysis.winning_count s + TradeAnalysis.losing_count s
     + breakeven "cashPnl" positions = TradeAnalysis.total_open s)%nat.
Proof. apply (sign_partition (fun p => get_num p "cashPnl" 0)). Qed.

(** C3. Sums over records read an absent field as 0: the total of
    [cashPnl] over no positions is 0, in [get_user_positions.py] and in
    the loop of [calculate_profitability]; the total of [pnl] over three
    leaderboard entries worth 10, -5 and 0 is 5; an entry without [pnl]
    adds nothing to the total. *)
Theorem sum_aggregation :
  GetUserPositions.total_pnl [] = 0%Q /\
  (forall closed details,
     TraderProfitability.unrealized_pnl
       (TraderProfitability.statistics (JList []) (JList closed) [] closed details)
     = 0%Q) /\
  (forall t1 t2 t3 : record,
     (get_num t1 "pnl" 0 == 10)%Q -> (get_num t2 "pnl" 0 == -5)%Q ->
     (get_num t3 "pnl" 0 == 0)%Q ->
     (GetLeaderboard.total_pnl [t1; t2; t3] == 5)%Q) /\
  (forall (leaderboard : list record) (t : record),
     num t !! "pnl" = None ->
     (GetLeaderboard.total_pnl (leaderboard ++ [t])
        == GetLeaderboard.total_pnl leaderboard)%Q).
Proof.
  split; [reflexivity|split; [reflexivity|split]].
  - intros t1 t2 t3 H1 H2 H3. unfold GetLeaderboard.total_pnl, sum. cbn.
    rewrite H1, H2, H3. reflexivity.
  - intros l t Ht. unfold GetLeaderboard.total_pnl.
    rewrite map_app. cbn [map]. rewrite sum_snoc.
    unfold get_num. rewrite Ht. apply Qplus_0_r.
Qed.

(** * Requests *)

#[local] Arguments py : simpl never.

(** The steps of a run: binds, handlers and the client are opened up and
    the reply of the remote side is taken case by case. *)
Ltac run_steps :=
  unfold raise_for_status, sys_exit, data_get;
  unfold try_except, mbind, M_bind, mret, M_ret, requests_get, raise, print;
  cbn [fst snd console sent server status_code body req_url req_params req_timeout].

Section Limits.
Context {lib : Library}.

(** C10. The leaderboard request carries [limit = min(limit, 50)], at most
    50; the holders request, sent once the condition id is accepted,
    carries [limit = min(limit, 20)], at most 20. *)
Theorem request_limit_caps :
  (forall category period order limit w,
     exists rq,
       sent (snd (GetLeaderboard.get_leaderboard category period order limit w))
         = sent w ++ [rq] /\
       param_of "limit" rq = Some (PInt (Z.min limit 50)) /\
       (Z.min limit 50 <= 50)%Z) /\
  (forall condition_id limit w,
     let w' := snd (GetMarketHolders.get_market_holders condition_id limit w) in
     match fst (Utils.format_condition_id condition_id w) with
     | Ret _ =>
         exists rq, sent w' = sent w ++ [rq] /\
                    param_of "limit" rq = Some (PInt (Z.min limit 20))
     | _ => sent w' = sent w
     end /\
     (Z.min limit 20 <= 20)%Z).
Proof.
  split.
  - intros category period order limit w. eexists. split.
    { unfold GetLeaderboard.get_leaderboard. run_steps.
      destruct (server w _ _) as [st b| |]; cbn; [|done..].
      unfold ok; cbn. by destruct (_ && _). }
    split; [reflexivity|lia].
  - intros condition_id limit w. split; [|lia].
    unfold GetMarketHolders.get_market_holders. run_steps.
    destruct (format_condition_id_run condition_id w) as (r & -> & Hr).
    destruct r as [v|e|]; cbn; [|done..].
    eexists. split.
    { destruct (server w _ _) as [st b| |]; cbn; [|done..].
      unfold ok; cbn. by destruct (_ && _). }
    reflexivity.
Qed.

End Limits.

(** The items a loop reads from a decoded body. *)
Lemma records_items data w :
  records data w =
    match items_of data with
    | Some items => (Ret items, w)
    | None => (Raise AttributeError, w)
    end.
Proof. destruct data as [items|r]; cbn; [done|]. by destruct (keys r =? 0)%nat. Qed.

(** * Failed requests *)

(** The run of a fetching call, case by case: the verdict of the validator,
    the reply of the remote side, the status, the shape of the body. *)
Ltac fetch_cases w :=
  repeat first
    [ progress cbn [fst snd console sent server status_code body negb
                    request_exception value_error anything]
    | match goal with
      | |- context [Utils.format_address ?a w] =>
          let r := fresh "r" in let Hr := fresh "Hr" in
          destruct (format_address_run a w) as (r & -> & Hr);
          destruct r as [?|[?| | | | | |]|]; try done
      | |- context [Utils.format_condition_id ?a w] =>
          let r := fresh "r" in let Hr := fresh "Hr" in
          destruct (format_condition_id_run a w) as (r & -> & Hr);
          destruct r as [?|[?| | | | | |]|]; try done
      | |- context [match server w (sent w) ?rq with _ => _ end] =>
          let Hreply := fresh "Hreply" in
          destruct (server w (sent w) rq) as [?st ?b| |] eqn:Hreply
      | |- context [ok {| status_code := ?st; body := _ |}] =>
          let Hst := fresh "Hst" in
          unfold ok; cbn [status_code];
          destruct ((400 <=? st) && (st <? 600)) eqn:Hst
      | |- context [records ?j ?w'] =>
          rewrite (records_items j w'); destruct (items_of j)
      | |- context [match ?j with JList _ => _ | JObject _ => _ end] =>
          destruct j as [[|? ?]|?]
      | |- context [if (keys ?r =? 0)%nat then _ else _] =>
          destruct (keys r =? 0)%nat
      end ].

(** What is left to see at the end of each case. *)
Ltac fetch_leaf :=
  cbn [fst snd console sent server];
  split; [discriminate|];
  first
    [ left; reflexivity
    | right; eexists; split; [reflexivity|]; split; [reflexivity|];
      let f := fresh "f" in let Hf := fresh "Hf" in
      intros f Hf; unfold failure_of in Hf;
      match goal with
      | H : server _ _ _ = _ |- _ => rewrite H in Hf
      end;
      repeat match goal with
             | H : (_ && _) = _ |- _ => rewrite H in Hf
             end;
      first [ discriminate Hf
            | injection Hf as <-; rewrite ?app_nil_r; split; reflexivity ] ].

Ltac guarded_tac w := run_steps; fetch_cases w; fetch_leaf.

Section Degrade.
Context {lib : Library}.

Lemma guarded_trader_profitability :
  (forall address limit,
     guarded (TraderProfitability.get_active_positions address limit) 15 (JList [])
       (Some (py "Error fetching active positions: "))) /\
  (forall address limit,
     guarded (TraderProfitability.get_closed_positions address limit) 15 (JList [])
       (Some (py "Error fetching closed positions: "))) /\
  (forall username address period,
     guarded (TraderProfitability.get_leaderboard_pnl username address period) 15 None
       (Some (py "Warning: Could not fetch leaderboard data: "))).
Proof.
  split; [|split].
  - intros address limit w.
    unfold TraderProfitability.get_active_positions. guarded_tac w.
  - intros address limit w.
    unfold TraderProfitability.get_closed_positions. guarded_tac w.
  - intros username address period w.
    unfold TraderProfitability.get_leaderboard_pnl, TraderProfitability.first_entry.
    destruct username as [[|? ?]|], address as [[|? ?]|]; guarded_tac w.
Qed.

Lemma guarded_single_fetchers :
  (forall category period order limit,
     guarded (GetLeaderboard.get_leaderboard category period order limit) 15 None
       (Some (py "Error fetching leaderboard: "))) /\
  (forall condition_id limit,
     guarded (GetMarketHolders.get_market_holders condition_id limit) 15 None
       (Some (py "Error fetching holders: "))) /\
  (forall address limit sort_by sort_direction redeemable,
     guarded (GetUserPositions.get_user_positions address limit sort_by
                sort_direction redeemable) 15 None
       (Some (py "Error fetching positions: "))) /\
  (forall address limit offset types side sort_by sort_direction,
     guarded (GetUserActivity.get_user_activity address limit offset types side
                sort_by sort_direction) 15 None
       (Some (py "Error fetching activity: "))) /\
  (forall address limit side market,
     guarded (GetUserTrades.get_user_trades address limit side market) 15 None
       (Some (py "Error fetching trades: "))).
Proof.
  split; [|split; [|split; [|split]]].
  - intros ? ? ? ? w. unfold GetLeaderboard.get_leaderboard. guarded_tac w.
  - intros ? ? w. unfold GetMarketHolders.get_market_holders. guarded_tac w.
  - intros ? ? ? ? ? w. unfold GetUserPositions.get_user_positions. guarded_tac w.
  - intros ? ? ? ? ? ? ? w. unfold GetUserActivity.get_user_activity. guarded_tac w.
  - intros ? ? ? ? w. unfold GetUserTrades.get_user_trades. guarded_tac w.
Qed.

Lemma guarded_portfolio_value :
  (forall address,
     guarded (GetPortfolioValue.get_portfolio_value address) 10 None
       (Some (py "Error fetching portfolio value: "))) /\
  (forall address,
     guarded (GetPortfolioValue.get_user_positions_count address) 10 0%nat None) /\
  (forall address,
     guarded (GetPortfolioValue.get_markets_traded_count address) 10 0%Q None).
Proof.
  split; [|split].
  - intros ? w. unfold GetPortfolioValue.get_portfolio_value. guarded_tac w.
  - intros ? w. unfold GetPortfolioValue.get_user_positions_count. guarded_tac w.
  - intros ? w. unfold GetPortfolioValue.get_markets_traded_count. guarded_tac w.
Qed.

Lemma guarded_analyze_trader :
  (forall address,
     guarded (AnalyzeTrader.get_portfolio_value address) 10 0%Q None) /\
  (forall address limit,
     guarded (AnalyzeTrader.get_positions address limit) 15 (JList []) None) /\
  (forall address limit,
     guarded (AnalyzeTrader.get_recent_trades address limit) 15 (JList []) None) /\
  (forall address,
     guarded (AnalyzeTrader.get_markets_traded address) 10 0%Q None) /\
  (forall address limit,
     guarded (AnalyzeTrader.get_closed_positions address limit) 15 (JList []) None).
Proof.
  split; [|split; [|split; [|split]]].
  - intros ? w. unfold AnalyzeTrader.get_portfolio_value. guarded_tac w.
  - intros ? ? w. unfold AnalyzeTrader.get_positions. guarded_tac w.
  - intros ? ? w. unfold AnalyzeTrader.get_recent_trades. guarded_tac w.
  - intros ? w. unfold AnalyzeTrader.get_markets_traded. guarded_tac w.
  - intros ? ? w. unfold AnalyzeTrader.get_closed_positions. guarded_tac w.
Qed.

Lemma guarded_trade_analysis :
  (forall address limit,
     guarded (TradeAnalysis.analyze_trades address limit) 20 None
       (Some (py "Error fetching trades: "))) /\
  (forall address limit,
     guarded (TradeAnalysis.analyze_closed_positions address limit) 15 None
       (Some (py "Error fetching closed positions: "))) /\
  (forall address limit,
     guarded (TradeAnalysis.analyze_open_positions address limit) 15 None
       (Some (py "Error fetching open positions: "))).
Proof.
  split; [|split].
  - intros ? ? w. unfold TradeAnalysis.analyze_trades. guarded_tac w.
  - intros ? ? w. unfold TradeAnalysis.analyze_closed_positions. guarded_tac w.
  - intros ? ? w. unfold TradeAnalysis.analyze_open_positions. guarded_tac w.
Qed.

(** [get_positions_comparison] tests [response.ok]: when each of its three
    requests is answered with an error status, it reports the status three
    times and ends normally. *)
Lemma demo_reports_error_status address formatted w st b :
  Utils.format_address address w = (Ret formatted, w) ->
  (forall earlier rq, server w earlier rq = Response st b) ->
  (400 <=? st) && (st <? 600) = true ->
  fst (RedeemableParameterDemo.get_positions_comparison address w) = Ret () /\
  console (snd (RedeemableParameterDemo.get_positions_comparison address w)) =
    console w ++
      [py "Comparing position queries for: " ++ formatted;
       times (py "=") 80;
       [10] ++ py "1" ++ RedeemableParameterDemo.keycap
         ++ py "  ACTIVE POSITIONS ONLY (redeemable=false)";
       times (py "-") 80;
       py "Error: " ++ str_int (Z.of_N st);
       [10; 10] ++ py "2" ++ RedeemableParameterDemo.keycap
         ++ py "  CLAIMABLE PAYOUTS (redeemable=true)";
       times (py "-") 80;
       py "Error: " ++ str_int (Z.of_N st);
       [10; 10] ++ py "3" ++ RedeemableParameterDemo.keycap
         ++ py "  ALL POSITIONS (no redeemable parameter)";
       times (py "-") 80;
       py "Error: " ++ str_int (Z.of_N st);
       [10; 10] ++ times (py "=") 80;
       py "SUMMARY";
       times (py "=") 80;
       RedeemableParameterDemo.summary_text].
Proof.
  intros Haddress Hserver Hstatus.
  unfold RedeemableParameterDemo.get_positions_comparison. run_steps.
  rewrite Haddress. unfold ok.
  repeat first
    [ progress cbn [fst snd console sent server status_code body negb]
    | rewrite Hserver
    | rewrite Hstatus ].
  split; [reflexivity|]. by rewrite <- !app_assoc.
Qed.

(** C2, as the code has it. Each of the nineteen fetching functions of the
    scripts other than [redeemable_parameter_demo.py] sends its request
    with a fixed timeout (10, 15 or 20 seconds), never waits without end,
    and on a failed request (no connection, no answer in time, an error
    status) returns its default ([[]], [None] or 0) instead of raising.
    The handlers written [except RequestException as e] first print one
    line, their message followed by the failure; the bare [except:]
    helpers of [analyze_trader.py] and the two counters of
    [get_portfolio_value.py] print nothing. The demo script tests
    [response.ok] instead: an error status is reported on the console and
    the script goes on to its next query. *)
Theorem fetchers_degrade :
  ((forall address limit,
      guarded (TraderProfitability.get_active_positions address limit) 15 (JList [])
        (Some (py "Error fetching active positions: "))) /\
   (forall address limit,
      guarded (TraderProfitability.get_closed_positions address limit) 15 (JList [])
        (Some (py "Error fetching closed positions: "))) /\
   (forall username address period,
      guarded (TraderProfitability.get_leaderboard_pnl username address period) 15 None
        (Some (py "Warning: Could not fetch leaderboard data: ")))) /\
  ((forall category period order limit,
      guarded (GetLeaderboard.get_leaderboard category period order limit) 15 None
        (Some (py "Error fetching leaderboard: "))) /\
   (forall condition_id limit,
      guarded (GetMarketHolders.get_market_holders condition_id limit) 15 None
        (Some (py "Error fetching holders: "))) /\
   (forall address limit sort_by sort_direction redeemable,
      guarded (GetUserPositions.get_user_positions address limit sort_by
                 sort_direction redeemable) 15 None
        (Some (py "Error fetching positions: "))) /\
   (forall address limit offset types side sort_by sort_direction,
      guarded (GetUserActivity.get_user_activity address limit offset types side
                 sort_by sort_direction) 15 None
        (Some (py "Error fetching activity: "))) /\
   (forall address limit side market,
      guarded (GetUserTrades.get_user_trades address limit side market) 15 None
        (Some (py "Error fetching trades: ")))) /\
  ((forall address,
      guarded (GetPortfolioValue.get_portfolio_value address) 10 None
        (Some (py "Error fetching portfolio value: "))) /\
   (forall address,
      guarded (GetPortfolioValue.get_user_positions_count address) 10 0%nat None) /\
   (forall address,
      guarded (GetPortfolioValue.get_markets_traded_count address) 10 0%Q None)) /\
  ((forall address,
      guarded (AnalyzeTrader.get_portfolio_value address) 10 0%Q None) /\
   (forall address limit,
      guarded (AnalyzeTrader.get_positions address limit) 15 (JList []) None) /\
   (forall address limit,
      guarded (AnalyzeTrader.get_recent_trades address limit) 15 (JList []) None) /\
   (forall address,
      guarded (AnalyzeTrader.get_markets_traded address) 10 0%Q None) /\
   (forall address limit,
      guarded (AnalyzeTrader.get_closed_positions address limit) 15 (JList []) None)) /\
  ((forall address limit,
      guarded (TradeAnalysis.analyze_trades address limit) 20 None
        (Some (py "Error fetching trades: "))) /\
   (forall address limit,
      guarded (TradeAnalysis.analyze_closed_positions address limit) 15 None
        (Some (py "Error fetching closed positions: "))) /\
   (forall address limit,
      guarded (TradeAnalysis.analyze_open_positions address limit) 15 None
        (Some (py "Error fetching open positions: ")))) /\
  (forall address formatted w st b,
     Utils.format_address address w = (Ret formatted, w) ->
     (forall earlier rq, server w earlier rq = Response st b) ->
     (400 <=? st) && (st <? 600) = true ->
     let run := RedeemableParameterDemo.get_positions_comparison address w in
     fst run = Ret () /\
     exists before between after,
       console (snd run) =
         console w ++ before ++ [py "Error: " ++ str_int (Z.of_N st)]
           ++ between ++ [py "Error: " ++ str_int (Z.of_N st)]
           ++ after ++ [py "Error: " ++ str_int (Z.of_N st)]
           ++ [[10; 10] ++ times (py "=") 80; py "SUMMARY"; times (py "=") 80;
               RedeemableParameterDemo.summary_text]).
Proof.
  split; [exact guarded_trader_profitability|].
  split; [exact guarded_single_fetchers|].
  split; [exact guarded_portfolio_value|].
  split; [exact guarded_analyze_trader|].
  split; [exact guarded_trade_analysis|].
  intros address formatted w st b Haddress Hserver Hstatus.
  destruct (demo_reports_error_status address formatted w st b Haddress Hserver Hstatus)
    as [Hret Hconsole].
  split; [exact Hret|].
  cbv zeta. rewrite Hconsole.
  eexists [_; _; _; _], [_; _], [_; _]. reflexivity.
Qed.

End Degrade.

(** * Worked runs *)

(** C2, as stated, fails. With the remote side out of reach,
    [get_positions] of [analyze_trader.py] returns its default without a
    word on the console; the first request of
    [redeemable_parameter_demo.py] goes out with no timeout and its
    [ConnectionError] ends [get_positions_comparison]; when no answer
    comes, that function waits without end; and a status outside 2xx that
    is not an error for [raise_for_status], such as 304, is no failure to
    [get_active_positions], which returns the body it came with. *)
Lemma fetch_failure_counterexample :
  (fst (AnalyzeTrader.get_positions Utils.trader1 10 unreachable) = Ret (JList []) /\
   console (snd (AnalyzeTrader.get_positions Utils.trader1 10 unreachable)) = []) /\
  (fst (@RedeemableParameterDemo.get_positions_comparison plain_library
          Utils.trader1 unreachable)
     = Raise (RequestException ConnectionError) /\
   map req_timeout
     (sent (snd (@RedeemableParameterDemo.get_positions_comparison plain_library
                   Utils.trader1 unreachable)))
     = [None]) /\
  fst (@RedeemableParameterDemo.get_positions_comparison plain_library
         Utils.trader1 mute) = Hang /\
  (let w := fresh (fun _ _ => Response 304 (JList [entry 1])) in
   fst (@TraderProfitability.get_active_positions plain_library
          Utils.trader1 500 w) = Ret (JList [entry 1]) /\
   console (snd (@TraderProfitability.get_active_positions plain_library
                   Utils.trader1 500 w)) = []).
Proof. vm_compute. repeat split. Qed.

(** C9 at the example address, written in capitals. *)
Lemma validators_output_shape_witness :
  exists digits,
    Utils.trader1 = py "0x" ++ digits /\ length digits = 40%nat /\
    Forall is_lower_hex_digit digits.
Proof.
  apply (proj1 (@validators_output_shape plain_library)
           (py "0X56687BF447DB6FFA42FFE2204A05EDAA20F55839")
           unreachable Utils.trader1 unreachable).
  vm_compute. reflexivity.
Defined.

(** C5 at the digits of the example address. *)
Lemma validators_idempotent_witness :
  let h := py "56687bf447db6ffa42ffe2204a05edaa20f55839" in
  @Utils.format_address plain_library (py "0x" ++ h) unreachable
    = (Ret (py "0x" ++ h), unreachable) /\
  @Utils.format_address plain_library h unreachable
    = (Ret (py "0x" ++ h), unreachable).
Proof.
  apply (proj1 (@validators_idempotent plain_library)).
  - vm_compute. reflexivity.
  - apply forallb_hex_digits. vm_compute. reflexivity.
Defined.

(** C3 at the fixture of three entries. *)
Lemma sum_aggregation_witness :
  (GetLeaderboard.total_pnl [entry 10; entry (-5); entry 0] == 5)%Q.
Proof.
  apply (proj1 (proj2 (proj2 sum_aggregation))); vm_compute; reflexivity.
Defined.

(** C2 at a remote side out of reach: the default comes back after one
    line on the console. *)
Lemma fetchers_degrade_witness :
  fst (@TraderProfitability.get_active_positions plain_library
         Utils.trader1 500 unreachable) = Ret (JList []) /\
  console (snd (@TraderProfitability.get_active_positions plain_library
                  Utils.trader1 500 unreachable))
    = [py "Error fetching active positions: connection failed"].
Proof.
  destruct (proj1 (proj1 (@fetchers_degrade plain_library)) Utils.trader1 500%Z
              unreachable) as [_ [Hsent|(rq & Hsent & _ & Hfail)]].
  - vm_compute in Hsent. discriminate Hsent.
  - vm_compute in Hsent. injection Hsent as <-.
    apply (Hfail ConnectionError). vm_compute. reflexivity.
Defined.

(** C3 end to end: [main] of [get_leaderboard.py], answered with the
    fixture, prints the total 5 as its last line but one. *)
Lemma leaderboard_fixture_run :
  let w :=
    fresh (fun _ _ => Response 200 (JList [entry 10; entry (-5); entry 0])) in
  let run :=
    @GetLeaderboard.main plain_library
      {| GetLeaderboard.category := py "OVERALL";
         GetLeaderboard.period := py "DAY";
         GetLeaderboard.order := py "PNL";
         GetLeaderboard.limit := 25 |} w in
  fst run = Ret () /\
  console (snd run) !! 17%nat = Some (py "Total P&L: +$5.00 " ++ Utils.chart_up) /\
  length (console (snd run)) = 19%nat.
Proof. vm_compute. repeat split. Qed.

(** * More on the validators *)

Section Case.
Context {lib : Library}.

Lemma lower_from_ascii s i rest :
  ascii_text rest -> lower_from s i rest = map ascii_lower rest.
Proof.
  intros H. revert i. induction H as [|c rest Hc _ IH]; intros i; [done|].
  cbn [lower_from map]. rewrite IH.
  by assert (is_ascii c = true) as -> by by apply N.ltb_lt.
Qed.

Lemma upper_from_ascii s i rest :
  ascii_text rest -> upper_from s i rest = map ascii_upper rest.
Proof.
  intros H. revert i. induction H as [|c rest Hc _ IH]; intros i; [done|].
  cbn [upper_from map]. rewrite IH.
  by assert (is_ascii c = true) as -> by by apply N.ltb_lt.
Qed.

Lemma ascii_lower_bound c : c < 128 -> ascii_lower c < 128.
Proof.
  unfold ascii_lower. destruct (_ && _) eqn:E; [|done].
  apply andb_true_iff in E as [_ E%N.leb_le]. lia.
Qed.

Lemma ascii_upper_bound c : c < 128 -> ascii_upper c < 128.
Proof. unfold ascii_upper. destruct (_ && _); lia. Qed.

Lemma ascii_lower_upper c : ascii_lower (ascii_upper c) = ascii_lower c.
Proof.
  unfold ascii_lower, ascii_upper.
  destruct ((97 <=? c) && (c <=? 122)) eqn:E1.
  - apply andb_true_iff in E1 as [H1%N.leb_le H2%N.leb_le].
    assert ((65 <=? c - 32) && (c - 32 <=? 90) = true) as ->.
    { apply andb_true_iff. split; apply N.leb_le; lia. }
    assert ((65 <=? c) && (c <=? 90) = false) as ->.
    { apply andb_false_iff. right. apply N.leb_gt. lia. }
    lia.
  - done.
Qed.

Lemma ascii_lower_lower c : ascii_lower (ascii_lower c) = ascii_lower c.
Proof.
  unfold ascii_lower.
  destruct ((65 <=? c) && (c <=? 90)) eqn:E1; [|by rewrite E1].
  apply andb_true_iff in E1 as [H1%N.leb_le H2%N.leb_le].
  assert ((65 <=? c + 32) && (c + 32 <=? 90) = false) as ->; [|done].
  apply andb_false_iff. right. apply N.leb_gt. lia.
Qed.

(** On ASCII text, lowering undoes raising and lowering twice is lowering
    once. *)
Lemma lower_upper_ascii s : ascii_text s -> lower (upper s) = lower s.
Proof.
  intros H. unfold lower, upper.
  rewrite (upper_from_ascii s 0 s H).
  rewrite !lower_from_ascii; [|done|].
  - rewrite map_map. apply map_ext. intros c. apply ascii_lower_upper.
  - unfold ascii_text in *. rewrite Forall_map.
    eapply Forall_impl; [exact H|]. intros c. apply ascii_upper_bound.
Qed.

Lemma lower_lower_ascii s : ascii_text s -> lower (lower s) = lower s.
Proof.
  intros H. unfold lower.
  rewrite (lower_from_ascii s 0 s H).
  rewrite lower_from_ascii.
  - rewrite map_map. apply map_ext. intros c. apply ascii_lower_lower.
  - unfold ascii_text in *. rewrite Forall_map.
    eapply Forall_impl; [exact H|]. intros c. apply ascii_lower_bound.
Qed.

Lemma falsy_upper s : ascii_text s -> falsy (upper s) = falsy s.
Proof.
  intros H. unfold upper. rewrite (upper_from_ascii s 0 s H). by destruct s.
Qed.

Lemma falsy_lower s : ascii_text s -> falsy (lower s) = falsy s.
Proof.
  intros H. unfold lower. rewrite (lower_from_ascii s 0 s H). by destruct s.
Qed.

(** X1. The validators do not look at the case of an ASCII argument: the
    argument in capitals, and the argument in small letters, get the very
    outcome of the argument itself, value or error. *)
Theorem validators_ignore_case (s : pystr) (w : world) :
  ascii_text s ->
  (Utils.format_address (upper s) w = Utils.format_address s w /\
   Utils.format_address (lower s) w = Utils.format_address s w) /\
  (Utils.format_condition_id (upper s) w = Utils.format_condition_id s w /\
   Utils.format_condition_id (lower s) w = Utils.format_condition_id s w).
Proof.
  intros H. unfold Utils.format_address, Utils.format_condition_id.
  by rewrite lower_upper_ascii, lower_lower_ascii, falsy_upper, falsy_lower.
Qed.

End Case.

(** X1 at the example address with every letter raised. *)
Lemma validators_ignore_case_witness :
  @Utils.format_address plain_library
     (@upper plain_library Utils.trader1) unreachable
  = (Ret Utils.trader1, unreachable).
Proof.
  rewrite (proj1 (proj1 (@validators_ignore_case plain_library Utils.trader1
                           unreachable ltac:(by vm_compute; repeat constructor)))).
  vm_compute. reflexivity.
Defined.

(** A character other than [0] and [x] is never taken out by
    [replace(..., '0x', '')]. *)
Lemma replace_from_0x_keeps (c : N) (n : nat) :
  c <> 48 -> c <> 120 ->
  forall s, (length s <= n)%nat -> c ∈ s -> c ∈ replace_from [48; 120] [] 0 s.
Proof.
  intros H0 Hx. induction n as [|n IH]; intros s Hn Hc.
  { destruct s; [by apply elem_of_nil in Hc|cbn in Hn; lia]. }
  destruct s as [|a s]; [by apply elem_of_nil in Hc|].
  cbn [replace_from].
  destruct (starts_with [48; 120] (a :: s)) eqn:E.
  - destruct s as [|b s]; cbn [starts_with] in E.
    { by rewrite andb_false_r in E. }
    apply andb_true_iff in E as [Ea%N.eqb_eq E].
    apply andb_true_iff in E as [Eb%N.eqb_eq _]. subst a b.
    cbn [length Nat.sub app replace_from].
    apply IH; [cbn in Hn; lia|].
    apply elem_of_cons in Hc as [->|Hc]; [done|].
    apply elem_of_cons in Hc as [->|Hc]; done.
  - apply elem_of_cons in Hc as [->|Hc]; [by left|].
    right. apply IH; [cbn in Hn; lia|done].
Qed.

Section Rejection.
Context {lib : Library}.

Lemma lower_from_keeps s i rest c :
  c ∈ rest -> c < 128 -> ascii_lower c ∈ lower_from s i rest.
Proof.
  intros Hc Hascii. revert i.
  induction rest as [|a rest IH]; intros i; [by apply elem_of_nil in Hc|].
  cbn [lower_from]. apply elem_of_app.
  apply elem_of_cons in Hc as [<-|Hc].
  - left. assert (is_ascii c = true) as -> by by apply N.ltb_lt. by left.
  - right. by apply IH.
Qed.

(** The text a validator keeps still has, in small letters, every ASCII
    character of the argument other than [0], [x] and [X]. *)
Lemma clean_keeps s c :
  c ∈ s -> c < 128 -> c <> 48 -> c <> 120 -> c <> 88 ->
  ascii_lower c ∈ replace (lower s) (py "0x") (py "").
Proof.
  intros Hc Hascii H0 Hx HX.
  change (replace (lower s) (py "0x") (py ""))
    with (replace_from [48; 120] [] 0 (lower s)).
  apply (replace_from_0x_keeps _ (length (lower s))); [| |done|].
  - unfold ascii_lower. destruct (_ && _) eqn:E; [|done].
    apply andb_true_iff in E as [E1%N.leb_le E2%N.leb_le]. lia.
  - unfold ascii_lower. destruct (_ && _) eqn:E; [|done].
    apply andb_true_iff in E as [E1%N.leb_le E2%N.leb_le]. lia.
  - by apply lower_from_keeps.
Qed.

(** X2. One ASCII character that is neither a hexadecimal digit nor the
    letter x, anywhere in the argument, is enough for both validators to
    raise [ValueError], leaving the world as it was. *)
Theorem validators_reject_foreign_character (s : pystr) (c : N) (w : world) :
  c ∈ s -> c < 128 -> ~ is_hex_digit c -> c <> 120 -> c <> 88 ->
  (exists msg, Utils.format_address s w = (Raise (ValueError msg), w)) /\
  (exists msg, Utils.format_condition_id s w = (Raise (ValueError msg), w)).
Proof.
  intros Hc Hascii Hhex Hx HX.
  assert (c <> 48) as H0 by (intros ->; apply Hhex; left; lia).
  pose proof (clean_keeps s c Hc Hascii H0 Hx HX) as Hkept.
  assert (forallb (fun c => char_in c Utils.hex_digits)
            (replace (lower s) (py "0x") (py "")) = false) as Hbad.
  { apply not_true_iff_false. intros Hall%forallb_hex_digits.
    rewrite Forall_forall in Hall. specialize (Hall _ Hkept).
    apply Hhex. unfold is_lower_hex_digit, is_hex_digit in *.
    unfold ascii_lower in Hall. destruct (_ && _) eqn:E in Hall.
    - apply andb_true_iff in E as [E1%N.leb_le E2%N.leb_le]. lia.
    - lia. }
  unfold Utils.format_address, Utils.format_condition_id. cbv zeta.
  rewrite Hbad.
  destruct s as [|a s]; [by apply elem_of_nil in Hc|]. cbn [falsy negb].
  split.
  - destruct (negb (length _ =? 40)%nat); by eexists.
  - destruct (negb (length _ =? 64)%nat); by eexists.
Qed.

End Rejection.

(** X2 at the example address with a [g] for its last digit. *)
Lemma validators_reject_foreign_character_witness :
  exists msg,
    @Utils.format_address plain_library
      (py "0x56687bf447db6ffa42ffe2204a05edaa20f5583g") unreachable
    = (Raise (ValueError msg), unreachable).
Proof.
  apply (proj1 (@validators_reject_foreign_character plain_library
                  (py "0x56687bf447db6ffa42ffe2204a05edaa20f5583g") 103
                  unreachable
                  ltac:(vm_compute; set_solver)
                  ltac:(reflexivity)
                  ltac:(unfold is_hex_digit; lia)
                  ltac:(discriminate) ltac:(discriminate))).
Defined.

(** * More on the statistics of trader_profitability.py *)



Section Figures.
Context {lib : Library}.
Import TraderProfitability.


End Figures.

(** * The books of trade_analysis.py *)









Section Books.
Context {lib : Library}.
Import TradeAnalysis.




End Books.


(** * The failed trades of trade_analysis.py *)







Section Failed.
Context {lib : Library}.
Import TradeAnalysis.



End Failed.


(** * Validation before the request *)

Ltac asks_steps Haccepted :=
  run_steps; rewrite Haccepted;
  repeat first
    [ progress cbn [fst snd console sent server status_code body negb
                    request_exception value_error anything]
    | match goal with
      | |- context [match ?srv ?earlier ?rq with
                    | Response _ _ => _ | NoConnection => _ | NoAnswer => _ end] =>
          destruct (srv earlier rq)
      | |- context [if ok ?r then _ else _] => destruct (ok r)
      end ];
  repeat match goal with
         | |- context [records ?d ?w'] =>
             rewrite (records_items d w'); destruct (items_of d)
         | |- context [match ?d with JList _ => _ | JObject _ => _ end] => destruct d
         | |- context [match ?l with [] => _ | _ :: _ => _ end] => destruct l
         | |- context [if ?b then _ else _] => destruct b
         end;
  (eexists; split; [reflexivity|split; reflexivity]).

Section Gate.
Context {lib : Library}.

(** X8. An identifier the validator rejects stops the fetching functions
    that validate before anything is sent or printed, and the [ValueError]
    is theirs to raise: the handlers for [RequestException] do not catch
    it, and in [get_portfolio_value.py] the address is validated before
    the [try] of the bare [except:]. *)
Theorem rejected_id_escapes (w : world) :
  (forall address msg,
     Utils.format_address address w = (Raise (ValueError msg), w) ->
     (forall limit sort_by sort_direction redeemable,
        GetUserPositions.get_user_positions address limit sort_by sort_direction
          redeemable w = (Raise (ValueError msg), w)) /\
     (forall limit offset types side sort_by sort_direction,
        GetUserActivity.get_user_activity address limit offset types side sort_by
          sort_direction w = (Raise (ValueError msg), w)) /\
     (forall limit side market,
        GetUserTrades.get_user_trades address limit side market w
          = (Raise (ValueError msg), w)) /\
     (GetPortfolioValue.get_portfolio_value address w = (Raise (ValueError msg), w) /\
      GetPortfolioValue.get_user_positions_count address w
        = (Raise (ValueError msg), w) /\
      GetPortfolioValue.get_markets_traded_count address w
        = (Raise (ValueError msg), w)) /\
     (forall limit,
        TradeAnalysis.analyze_trades address limit w = (Raise (ValueError msg), w) /\
        TradeAnalysis.analyze_closed_positions address limit w
          = (Raise (ValueError msg), w) /\
        TradeAnalysis.analyze_open_positions address limit w
          = (Raise (ValueError msg), w)) /\
     RedeemableParameterDemo.get_positions_comparison address w
       = (Raise (ValueError msg), w)) /\
  (forall condition_id msg limit,
     Utils.format_condition_id condition_id w = (Raise (ValueError msg), w) ->
     GetMarketHolders.get_market_holders condition_id limit w
       = (Raise (ValueError msg), w)).
Proof.
  split.
  - intros address msg Hrejected. split_and!; intros.
    + unfold GetUserPositions.get_user_positions. run_steps. by rewrite Hrejected.
    + unfold GetUserActivity.get_user_activity. run_steps. by rewrite Hrejected.
    + unfold GetUserTrades.get_user_trades. run_steps. by rewrite Hrejected.
    + unfold GetPortfolioValue.get_portfolio_value. run_steps. by rewrite Hrejected.
    + unfold GetPortfolioValue.get_user_positions_count. run_steps.
      by rewrite Hrejected.
    + unfold GetPortfolioValue.get_markets_traded_count. run_steps.
      by rewrite Hrejected.
    + split_and!.
      * unfold TradeAnalysis.analyze_trades. run_steps. by rewrite Hrejected.
      * unfold TradeAnalysis.analyze_closed_positions. run_steps.
        by rewrite Hrejected.
      * unfold TradeAnalysis.analyze_open_positions. run_steps.
        by rewrite Hrejected.
    + unfold RedeemableParameterDemo.get_positions_comparison. run_steps.
      by rewrite Hrejected.
  - intros condition_id msg limit Hrejected.
    unfold GetMarketHolders.get_market_holders. run_steps. by rewrite Hrejected.
Qed.

(** X9. Once the validator accepts an identifier, each of these functions
    sends exactly one request, to its own endpoint, and the request
    carries the normalized identifier, not the text the caller gave. *)
Theorem accepted_id_is_sent (w : world) :
  (forall address v,
     Utils.format_address address w = (Ret v, w) ->
     (forall limit sort_by sort_direction redeemable,
        asks (GetUserPositions.get_user_positions address limit sort_by
                sort_direction redeemable) w
          "https://data-api.polymarket.com/positions" "user" v) /\
     (forall limit offset types side sort_by sort_direction,
        asks (GetUserActivity.get_user_activity address limit offset types side
                sort_by sort_direction) w
          "https://data-api.polymarket.com/activity" "user" v) /\
     (forall limit side market,
        asks (GetUserTrades.get_user_trades address limit side market) w
          "https://data-api.polymarket.com/trades" "user" v) /\
     (asks (GetPortfolioValue.get_portfolio_value address) w
        "https://data-api.polymarket.com/value" "user" v /\
      asks (GetPortfolioValue.get_user_positions_count address) w
        "https://data-api.polymarket.com/positions" "user" v /\
      asks (GetPortfolioValue.get_markets_traded_count address) w
        "https://data-api.polymarket.com/traded" "user" v) /\
     (forall limit,
        asks (TradeAnalysis.analyze_trades address limit) w
          "https://data-api.polymarket.com/trades" "user" v /\
        asks (TradeAnalysis.analyze_closed_positions address limit) w
          "https://data-api.polymarket.com/closed-positions" "user" v /\
        asks (TradeAnalysis.analyze_open_positions address limit) w
          "https://data-api.polymarket.com/positions" "user" v)) /\
  (forall condition_id v limit,
     Utils.format_condition_id condition_id w = (Ret v, w) ->
     asks (GetMarketHolders.get_market_holders condition_id limit) w
       "https://data-api.polymarket.com/holders" "market" v).
Proof.
  split.
  - intros address v Haccepted. split_and!; intros.
    + unfold asks, GetUserPositions.get_user_positions. asks_steps Haccepted.
    + unfold asks, GetUserActivity.get_user_activity. asks_steps Haccepted.
    + unfold asks, GetUserTrades.get_user_trades. asks_steps Haccepted.
    + unfold asks, GetPortfolioValue.get_portfolio_value. asks_steps Haccepted.
    + unfold asks, GetPortfolioValue.get_user_positions_count. asks_steps Haccepted.
    + unfold asks, GetPortfolioValue.get_markets_traded_count. asks_steps Haccepted.
    + split_and!.
      * unfold asks, TradeAnalysis.analyze_trades. asks_steps Haccepted.
      * unfold asks, TradeAnalysis.analyze_closed_positions. asks_steps Haccepted.
      * unfold asks, TradeAnalysis.analyze_open_positions. asks_steps Haccepted.
  - intros condition_id v limit Haccepted.
    unfold asks, GetMarketHolders.get_market_holders. asks_steps Haccepted.
Qed.

End Gate.

(** X8 at an address of four digits and a market that is no hexadecimal
    text. *)
Lemma rejected_id_escapes_witness :
  @GetUserTrades.get_user_trades plain_library (py "0x1234") 50 None None unreachable
    = (Raise (ValueError
         (py "Invalid address length: 4 characters (expected 40, got 6 with 0x prefix)")),
       unreachable) /\
  @GetMarketHolders.get_market_holders plain_library (py "market") 10 unreachable
    = (Raise (ValueError
         (py "Invalid condition ID length: 6 characters (expected 64, got 8 with 0x prefix)")),
       unreachable).
Proof.
  destruct (@rejected_id_escapes plain_library unreachable) as [Haddress Hmarket].
  split.
  - apply Haddress. vm_compute. reflexivity.
  - apply Hmarket. vm_compute. reflexivity.
Defined.

(** X9 at the first example address, written in capitals and without its
    prefix. *)
Lemma accepted_id_is_sent_witness :
  asks (@GetPortfolioValue.get_portfolio_value plain_library
          (py "56687BF447DB6FFA42FFE2204A05EDAA20F55839")) unreachable
    "https://data-api.polymarket.com/value" "user" Utils.trader1.
Proof.
  destruct (@accepted_id_is_sent plain_library unreachable) as [Haddress _].
  apply (Haddress (py "56687BF447DB6FFA42FFE2204A05EDAA20F55839") Utils.trader1).
  vm_compute. reflexivity.
Defined.

(** * The command line of get_user_positions.py *)

(** The outcome of a validator does not depend on the world. *)
Lemma format_address_anywhere `{Library} s w w' :
  Utils.format_address s w' = (fst (Utils.format_address s w), w').
Proof.
  unfold Utils.format_address. cbv zeta.
  destruct (falsy s); [done|].
  destruct (negb (length _ =? 40)%nat); [done|].
  by destruct (negb (forallb _ _)).
Qed.

Lemma format_condition_id_anywhere `{Library} s w w' :
  Utils.format_condition_id s w' = (fst (Utils.format_condition_id s w), w').
Proof.
  unfold Utils.format_condition_id. cbv zeta.
  destruct (falsy s); [done|].
  destruct (negb (length _ =? 64)%nat); [done|].
  by destruct (negb (forallb _ _)).
Qed.

Section Positions.
Context {lib : Library}.
Import GetUserPositions.

(** X10. [main] of [get_user_positions.py] leaves with status 1 and one
    line of explanation, before any request, when both filters are asked
    for (the address is then not even looked at) and when the address is
    rejected. *)
Theorem positions_main_exit (a : args) (w : world) :
  (active_only a && include_payouts a = true ->
   fst (main a w) = Raise (SystemExit 1) /\
   sent (snd (main a w)) = sent w /\
   console (snd (main a w)) = console w ++
     [py "Error: Cannot use --active-only and --include-payouts together"]) /\
  (active_only a && include_payouts a = false ->
   forall msg,
     Utils.format_address (address a) w = (Raise (ValueError msg), w) ->
     fst (main a w) = Raise (SystemExit 1) /\
     sent (snd (main a w)) = sent w /\
     console (snd (main a w)) = console w ++ [py "Error: " ++ msg]).
Proof.
  split.
  - intros Hflags. unfold main. rewrite Hflags. run_steps. done.
  - intros Hclear msg Hrejected. unfold main. rewrite Hclear. run_steps.
    rewrite Hrejected. done.
Qed.

End Positions.

(** X10 at the first example address with both filters. *)
Lemma positions_main_exit_witness :
  fst (@GetUserPositions.main plain_library
         {| GetUserPositions.address := Utils.trader1;
            GetUserPositions.limit := 20;
            GetUserPositions.sort := py "CURRENT";
            GetUserPositions.direction := py "DESC";
            GetUserPositions.active_only := true;
            GetUserPositions.include_payouts := true |}
         unreachable)
  = Raise (SystemExit 1).
Proof.
  apply (proj1 (@positions_main_exit plain_library
                  {| GetUserPositions.address := Utils.trader1;
                     GetUserPositions.limit := 20;
                     GetUserPositions.sort := py "CURRENT";
                     GetUserPositions.direction := py "DESC";
                     GetUserPositions.active_only := true;
                     GetUserPositions.include_payouts := true |}
                  unreachable)).
  reflexivity.
Defined.

(** * Reports that only print *)

Lemma quiet_ret {A} (a : A) : quiet (mret a).
Proof. intros w. by eexists _, _. Qed.

Lemma quiet_print line : quiet (print line).
Proof. intros w. by eexists _, _. Qed.

Lemma quiet_bind {A B} (m : M A) (k : A -> M B) :
  quiet m -> (forall a, quiet (k a)) -> quiet (m ≫= k).
Proof.
  intros Hm Hk w. destruct (Hm w) as (a & w1 & E & S1 & R1).
  destruct (Hk a w1) as (b & w2 & E2 & S2 & R2).
  exists b, w2. unfold mbind, M_bind. rewrite E.
  split; [done|]. split; congruence.
Qed.

Lemma quiet_for_each {A} (xs : list A) (body : A -> M unit) :
  (forall x, quiet (body x)) -> quiet (for_each xs body).
Proof.
  intros Hbody. induction xs as [|x xs IH]; cbn [for_each].
  - apply quiet_ret.
  - apply quiet_bind; [apply Hbody | by intros _].
Qed.

Lemma quiet_format_pnl x : quiet (Utils.format_pnl x).
Proof.
  intros w. unfold Utils.format_pnl.
  destruct (gt x 0); [by eexists _, _|]. destruct (lt x 0); by eexists _, _.
Qed.

Lemma quiet_format_percentage x : quiet (Utils.format_percentage x).
Proof.
  intros w. unfold Utils.format_percentage.
  destruct (gt x 0); [by eexists _, _|]. destruct (lt x 0); by eexists _, _.
Qed.

Ltac quiet_steps :=
  repeat match goal with
         | |- quiet (print _) => apply quiet_print
         | |- quiet (mret _) => apply quiet_ret
         | |- quiet (Utils.format_pnl _) => apply quiet_format_pnl
         | |- quiet (Utils.format_percentage _) => apply quiet_format_percentage
         | |- quiet (mbind _ _) => apply quiet_bind; [|intros ?]
         | |- quiet (for_each _ _) => apply quiet_for_each; intros ?
         | |- quiet (if ?b then _ else _) => destruct b
         | |- quiet (let '(_, _) := ?p in _) => destruct p
         | |- quiet (match ?o with _ => _ end) => destruct o
         end.

Section Leaderboard.
Context {lib : Library}.
Import GetLeaderboard.

(** X11. [main] of [get_leaderboard.py] sends exactly one request however
    the run goes, with a timeout of 15 seconds and a limit of at most 50.
    When that request fails, [main] says so and returns, and the process
    leaves with status 0: after its three lines of heading it prints the
    line about the failure and the line that no data was found. *)
Theorem leaderboard_main_one_request (a : args) (w : world) :
  let rq :=
    {| req_url := py "https://data-api.polymarket.com/v1/leaderboard";
       req_params :=
         [("category", PStr (upper (category a)));
          ("timePeriod", PStr (upper (period a)));
          ("orderBy", PStr (upper (order a)));
          ("limit", PInt (Z.min (limit a) 50))];
       req_timeout := Some 15 |} in
  sent (snd (main a w)) = sent w ++ [rq] /\
  (forall e,
     failure_of (server w (sent w) rq) = Some e ->
     fst (main a w) = Ret () /\
     exit_status (main a) w = Some 0%Z /\
     console (snd (main a w)) =
       console w ++
         [[127942] ++ py " " ++ category a ++ py " Leaderboard - " ++ period a
            ++ py " (Top by "
            ++ (if decide (order a = py "PNL") then py "P&L" else py "Volume")
            ++ py ")";
          times (py "=") 100;
          [];
          py "Error fetching leaderboard: " ++ str_exn (RequestException e);
          py "No leaderboard data found or error occurred."]).
Proof.
  cbv zeta. unfold exit_status, main.
  set (each := fun trader : record => _).
  assert (forall trader, quiet (each trader)) as Heach.
  { intros trader. unfold each. quiet_steps. }
  unfold get_leaderboard. run_steps.
  destruct (server w (sent w) _) as [st b| |].
  - cbn [fst snd console sent server status_code body failure_of].
    unfold ok. cbn [status_code].
    destruct ((400 <=? st) && (st <? 600));
      cbn [negb fst snd console sent server status_code body request_exception].
    + split; [done|]. intros e [= <-]. split; [done|]. split; [done|].
      by rewrite <- !app_assoc.
    + destruct (empty b); [by split|].
      destruct b as [[|trader leaderboard]|r]; [by split| |by split].
      match goal with
      | |- context [for_each ?xs each ?w0] =>
          destruct (quiet_for_each xs each Heach w0) as ([] & w1 & -> & Hsent & _)
      end.
      cbn [fst snd console sent server].
      match goal with
      | |- context [Utils.format_pnl ?x ?w0] =>
          destruct (quiet_format_pnl x w0) as (total & w2 & -> & Hsent2 & _)
      end.
      cbn [fst snd console sent server] in *.
      split; [by rewrite Hsent2, Hsent|done].
  - cbn [fst snd console sent server status_code body request_exception failure_of].
    split; [done|]. intros e [= <-]. split; [done|]. split; [done|].
    by rewrite <- !app_assoc.
  - cbn [fst snd console sent server status_code body request_exception failure_of].
    split; [done|]. intros e [= <-]. split; [done|]. split; [done|].
    by rewrite <- !app_assoc.
Qed.

End Leaderboard.

(** X11 with the remote side out of reach. *)
Lemma leaderboard_main_one_request_witness :
  let main :=
    @GetLeaderboard.main plain_library
      {| GetLeaderboard.category := py "OVERALL";
         GetLeaderboard.period := py "DAY";
         GetLeaderboard.order := py "PNL";
         GetLeaderboard.limit := 70 |} in
  fst (main unreachable) = Ret () /\
  console (snd (main unreachable)) !! 4%nat =
    Some (py "No leaderboard data found or error occurred.") /\
  map (param_of "limit") (sent (snd (main unreachable))) = [Some (PInt 50)].
Proof.
  cbv zeta.
  destruct (@leaderboard_main_one_request plain_library
              {| GetLeaderboard.category := py "OVERALL";
                 GetLeaderboard.period := py "DAY";
                 GetLeaderboard.order := py "PNL";
                 GetLeaderboard.limit := 70 |} unreachable)
    as [Hsent Hdown].
  destruct (Hdown ConnectionError eq_refl) as (Hrun & _ & Hconsole).
  split; [exact Hrun|]. split.
  - rewrite Hconsole. reflexivity.
  - rewrite Hsent. reflexivity.
Defined.

(** * The leaderboard lookup of trader_profitability.py *)

Section Lookup.
Context {lib : Library}.
Import TraderProfitability.

(** X12. [get_leaderboard_pnl] looks a trader up by name before it looks
    at the address: with a username it sends one request that carries
    [userName] and no [user], and the address is not validated; with
    neither it returns [None] and sends nothing; with an address alone the
    address is validated first, a rejected one raising its [ValueError]
    with nothing sent, an accepted one going out normalized as [user]. *)
Theorem leaderboard_pnl_lookup (period : pystr) (w : world) :
  (forall username address,
     username <> [] ->
     exists rq,
       sent (snd (get_leaderboard_pnl (Some username) address period w))
         = sent w ++ [rq] /\
       param_of "userName" rq = Some (PStr username) /\
       param_of "user" rq = None) /\
  (forall username address,
     username = None \/ username = Some [] ->
     address = None \/ address = Some [] ->
     get_leaderboard_pnl username address period w = (Ret None, w)) /\
  (forall username address,
     username = None \/ username = Some [] ->
     address <> [] ->
     (forall msg,
        Utils.format_address address w = (Raise (ValueError msg), w) ->
        get_leaderboard_pnl username (Some address) period w
          = (Raise (ValueError msg), w)) /\
     (forall v,
        Utils.format_address address w = (Ret v, w) ->
        asks (get_leaderboard_pnl username (Some address) period) w
          "https://data-api.polymarket.com/v1/leaderboard" "user" v)).
Proof.
  split; [|split].
  - intros [|c username] address Hgiven; [done|].
    unfold get_leaderboard_pnl. run_steps.
    destruct (server w (sent w) _) as [st b| |];
      cbn [fst snd console sent server status_code body request_exception].
    + destruct (ok _);
        cbn [fst snd console sent server status_code body request_exception].
      * destruct b as [[|p ps]|r]; cbn [first_entry];
          try destruct (keys r =? 0)%nat; unfold raise, mret, M_ret;
          cbn [fst snd console sent server request_exception];
          (eexists; split; [reflexivity|split; reflexivity]).
      * by eexists.
    + by eexists.
    + by eexists.
  - intros username address [->| ->] [->| ->]; reflexivity.
  - intros username [|c address] Husername Haddress; [done|].
    split.
    + intros msg Hrejected. unfold get_leaderboard_pnl.
      destruct Husername as [->| ->]; run_steps; by rewrite Hrejected.
    + intros v Haccepted. unfold asks, get_leaderboard_pnl.
      destruct Husername as [->| ->]; run_steps; rewrite Haccepted;
        cbn [fst snd console sent server];
        (destruct (server w (sent w) _) as [st b| |];
         cbn [fst snd console sent server status_code body request_exception];
         [destruct (ok _);
          cbn [fst snd console sent server status_code body request_exception];
          [destruct b as [[|p ps]|r]; cbn [first_entry];
           try destruct (keys r =? 0)%nat; unfold raise, mret, M_ret|]| |]);
        (eexists; split; [reflexivity|split; reflexivity]).
Qed.

End Lookup.

(** X12 at a name given together with an address that no validator would
    accept. *)
Lemma leaderboard_pnl_lookup_witness :
  exists rq,
    sent (snd (@TraderProfitability.get_leaderboard_pnl plain_library
                 (Some (py "Theo4")) (Some (py "nobody")) (py "DAY") unreachable))
      = [rq] /\
    param_of "userName" rq = Some (PStr (py "Theo4")) /\
    param_of "user" rq = None.
Proof.
  apply (proj1 (@leaderboard_pnl_lookup plain_library (py "DAY") unreachable)
           (py "Theo4") (Some (py "nobody"))).
  vm_compute. discriminate.
Defined.

(** * The three queries of redeemable_parameter_demo.py *)

Section Demo.
Context {lib : Library}.
Import RedeemableParameterDemo.

(** X13. With an accepted address and a remote side that answers every
    request with an empty array, whatever the status,
    [get_positions_comparison] ends normally after exactly three requests
    to the positions endpoint. They carry the
    normalized address and the same threshold, limit and order, and differ
    in [redeemable] alone: [false], [true], and no such parameter; none
    has a timeout. *)
Theorem demo_sends_three_queries (address v : pystr) (w : world) :
  let query redeemable :=
    {| req_url := py "https://data-api.polymarket.com/positions";
       req_params :=
         [("user", PStr v); ("sizeThreshold", PInt 1); ("limit", PInt 100);
          ("sortBy", PStr (py "TOKENS")); ("sortDirection", PStr (py "DESC"))]
         ++ redeemable;
       req_timeout := None |} in
  Utils.format_address address w = (Ret v, w) ->
  (forall earlier rq, exists st,
     server w earlier rq = Response st (JList [])) ->
  fst (get_positions_comparison address w) = Ret () /\
  sent (snd (get_positions_comparison address w)) =
    sent w ++ [query [("redeemable", PStr (py "false"))];
               query [("redeemable", PStr (py "true"))];
               query []].
Proof.
  cbv zeta. intros Haccepted Hserver.
  unfold get_positions_comparison.
  set (sample1 := fun p : record => mbind _ (print _)).
  set (sample2 := fun p : record => mbind _ (print _)).
  set (sample3 := fun p : record => mbind _ (print _)).
  assert (forall p, quiet (sample1 p)) as H1 by (intros p; unfold sample1; quiet_steps).
  assert (forall p, quiet (sample2 p)) as H2 by (intros p; unfold sample2; quiet_steps).
  assert (forall p, quiet (sample3 p)) as H3 by (intros p; unfold sample3; quiet_steps).
  run_steps. rewrite Haccepted.
  repeat first
    [ progress cbn [fst snd console sent server status_code body negb records]
    | progress unfold mret, M_ret
    | match goal with
      | |- context [server w ?earlier ?rq] =>
          let st := fresh "st" in
          destruct (Hserver earlier rq) as (st & ->)
      | |- context [if ok ?r then _ else _] => destruct (ok r)
      | |- context [empty ?d] => destruct (empty d)
      | |- context [for_each ?xs sample1 ?w0] =>
          let Hs := fresh "Hs" in let Hr := fresh "Hr" in
          destruct (quiet_for_each xs sample1 H1 w0) as ([] & ? & -> & Hs & Hr);
          cbn [sent server] in Hs, Hr; try rewrite Hs; try rewrite Hr
      | |- context [for_each ?xs sample2 ?w0] =>
          let Hs := fresh "Hs" in let Hr := fresh "Hr" in
          destruct (quiet_for_each xs sample2 H2 w0) as ([] & ? & -> & Hs & Hr);
          cbn [sent server] in Hs, Hr; try rewrite Hs; try rewrite Hr
      | |- context [for_each ?xs sample3 ?w0] =>
          let Hs := fresh "Hs" in let Hr := fresh "Hr" in
          destruct (quiet_for_each xs sample3 H3 w0) as ([] & ? & -> & Hs & Hr);
          cbn [sent server] in Hs, Hr; try rewrite Hs; try rewrite Hr
      end ].
  all: split; [reflexivity|]; by rewrite <- !app_assoc.
Qed.

End Demo.

(** X13 at the first example address, each query answered with the
    empty array. *)
Lemma demo_sends_three_queries_witness :
  map (param_of "redeemable")
    (sent (snd (@RedeemableParameterDemo.get_positions_comparison plain_library
                  Utils.trader1 (answering (JList [])))))
  = [Some (PStr (py "false")); Some (PStr (py "true")); None].
Proof.
  destruct (@demo_sends_three_queries plain_library Utils.trader1 Utils.trader1
              (answering (JList []))
              ltac:(vm_compute; reflexivity)
              ltac:(intros; by eexists))
    as [_ Hsent].
  rewrite Hsent. vm_compute. reflexivity.
Defined.

(** * The helpers of analyze_trader.py *)

Ltac swallows_steps :=
  intros ?; run_steps;
  repeat first
    [ progress cbn [fst snd console sent server status_code body anything]
    | match goal with
      | |- context [match ?srv ?earlier ?rq with
                    | Response _ _ => _ | NoConnection => _ | NoAnswer => _ end] =>
          destruct (srv earlier rq)
      | |- context [if ok ?r then _ else _] => destruct (ok r)
      | |- context [match ?d with JList _ => _ | JObject _ => _ end] => destruct d
      | |- context [match ?l with [] => _ | _ :: _ => _ end] => destruct l
      end ];
  eexists _, _; reflexivity.

(** X14. The five helpers of [analyze_trader.py] catch everything: for
    every address, validated or not, and whatever the remote side does,
    each sends one request, prints nothing and returns a value; a body of
    the wrong shape is swallowed like a failed request, so that
    [get_markets_traded] answers 0 to an array. *)
Theorem analyze_trader_helpers_swallow (address : pystr) (limit : Z) :
  (swallows (AnalyzeTrader.get_portfolio_value address) /\
   swallows (AnalyzeTrader.get_positions address limit) /\
   swallows (AnalyzeTrader.get_recent_trades address limit) /\
   swallows (AnalyzeTrader.get_markets_traded address) /\
   swallows (AnalyzeTrader.get_closed_positions address limit)) /\
  (forall w st items,
     (forall rq, server w (sent w) rq = Response st (JList items)) ->
     fst (AnalyzeTrader.get_markets_traded address w) = Ret 0%Q).
Proof.
  split; [split_and!|].
  - unfold AnalyzeTrader.get_portfolio_value. swallows_steps.
  - unfold AnalyzeTrader.get_positions. swallows_steps.
  - unfold AnalyzeTrader.get_recent_trades. swallows_steps.
  - unfold AnalyzeTrader.get_markets_traded. swallows_steps.
  - unfold AnalyzeTrader.get_closed_positions. swallows_steps.
  - intros w st items Hserver. unfold AnalyzeTrader.get_markets_traded.
    run_steps. rewrite Hserver.
    cbn [fst snd console sent server status_code body anything].
    by destruct (ok _).
Qed.

(** X14 at an address that is none, answered with an empty array. *)
Lemma analyze_trader_helpers_swallow_witness :
  fst (AnalyzeTrader.get_markets_traded (py "nobody") (answering (JList [])))
  = Ret 0%Q.
Proof.
  apply (proj2 (analyze_trader_helpers_swallow (py "nobody") 10)
           (answering (JList [])) 200 []).
  intros rq. reflexivity.
Defined.

(** * The command line of trade_analysis.py *)

Section Analysis.
Context {lib : Library}.
Import TradeAnalysis.

Lemma analyze_trades_rejected address limit msg w0 w :
  fst (Utils.format_address address w0) = Raise (ValueError msg) ->
  analyze_trades address limit w = (Raise (ValueError msg), w).
Proof.
  intros Hrejected. unfold analyze_trades. run_steps.
  by rewrite (format_address_anywhere address w0 w), Hrejected.
Qed.

Lemma display_analysis_quiet trade_stats closed_stats open_stats address :
  quiet (display_analysis trade_stats closed_stats open_stats address).
Proof. unfold display_analysis. quiet_steps. Qed.

(** X15. [main] of [trade_analysis.py] leaves with status 1 and one line
    when neither an address nor a username is given, and when the address
    given alone is rejected. A username is taken for the address of every
    request without the check [main] makes of an address: when the
    validator rejects it, as it does every name that is not itself forty
    hexadecimal digits, [analyze_trades] raises that [ValueError] out of
    [main] after two lines of progress, and nothing was sent; an address
    given beside the username is not looked at. *)
Theorem trade_analysis_command_line (a : args) (w : world) :
  (given (address a) = false -> given (username a) = false ->
   fst (main a w) = Raise (SystemExit 1) /\
   sent (snd (main a w)) = sent w /\
   console (snd (main a w)) =
     console w ++ [py "Error: Must provide either --address or --username"]) /\
  (forall text msg,
     given (username a) = false -> address a = Some text -> text <> [] ->
     Utils.format_address text w = (Raise (ValueError msg), w) ->
     fst (main a w) = Raise (SystemExit 1) /\
     sent (snd (main a w)) = sent w /\
     console (snd (main a w)) = console w ++ [py "Error: " ++ msg]) /\
  (forall name msg,
     username a = Some name -> name <> [] ->
     Utils.format_address name w = (Raise (ValueError msg), w) ->
     fst (main a w) = Raise (ValueError msg) /\
     sent (snd (main a w)) = sent w /\
     console (snd (main a w)) =
       console w ++ [[63743; 252; 238; 231] ++ py " Analyzing trader: " ++ name;
                     [8218; 232; 8805] ++ py " Fetching data..." ++ [10]]).
Proof.
  split; [|split].
  - intros Haddress Husername. unfold main. rewrite Haddress, Husername.
    run_steps. done.
  - intros text msg Husername Haddress Htext Hrejected. unfold main.
    rewrite Haddress. destruct text as [|c text]; [done|].
    destruct (username a) as [[|d name]|]; [|done|];
      cbn [from_option given negb andb id]; run_steps; by rewrite Hrejected.
  - intros name msg Husername Hname Hrejected. unfold main.
    rewrite Husername. destruct name as [|c name]; [done|].
    rewrite andb_false_r.
    unfold mbind at 1 2 3 4, M_bind at 1 2 3 4. run_steps.
    erewrite analyze_trades_rejected by (by rewrite Hrejected).
    split; [done|]. split; [done|]. cbn. by rewrite <- app_assoc.
Qed.

(** One analysis, on an accepted address and with a remote side that
    brings no item: it returns, with empty statistics or with [None] after
    a failed request, and has sent its one request. *)
Ltac analysis_runs Haccepted Hnothing w0 w :=
  run_steps; rewrite (format_address_anywhere _ w0 w), Haccepted;
  cbn [fst snd console sent server];
  match goal with
  | |- context [server w (sent w) ?rq] =>
      destruct (Hnothing (sent w) rq) as [Hfails|[st ->]];
      [destruct (server w (sent w) rq) as [st b| |];
       [unfold ok; cbn [failure_of status_code] in Hfails |- *;
        destruct ((400 <=? st) && (st <? 600)); [|done]| |]|]
  end;
  cbn [negb fst snd console sent server status_code body request_exception records];
  try destruct (ok _);
  cbn [fst snd console sent server status_code body request_exception records];
  unfold mret, M_ret;
  (eexists _, _, _; split; [reflexivity|]; split; [reflexivity|]; split; [reflexivity|];
   split; reflexivity).

Lemma analyze_trades_runs address limit v w0 w :
  fst (Utils.format_address address w0) = Ret v -> answers_nothing w ->
  exists r rq w',
    analyze_trades address limit w = (Ret r, w') /\
    sent w' = sent w ++ [rq] /\ server w' = server w /\
    req_url rq = py "https://data-api.polymarket.com/trades" /\
    param_of "user" rq = Some (PStr v).
Proof.
  intros Haccepted Hnothing. unfold analyze_trades.
  analysis_runs Haccepted Hnothing w0 w.
Qed.

Lemma analyze_closed_positions_runs address limit v w0 w :
  fst (Utils.format_address address w0) = Ret v -> answers_nothing w ->
  exists r rq w',
    analyze_closed_positions address limit w = (Ret r, w') /\
    sent w' = sent w ++ [rq] /\ server w' = server w /\
    req_url rq = py "https://data-api.polymarket.com/closed-positions" /\
    param_of "user" rq = Some (PStr v).
Proof.
  intros Haccepted Hnothing. unfold analyze_closed_positions.
  analysis_runs Haccepted Hnothing w0 w.
Qed.

Lemma analyze_open_positions_runs address limit v w0 w :
  fst (Utils.format_address address w0) = Ret v -> answers_nothing w ->
  exists r rq w',
    analyze_open_positions address limit w = (Ret r, w') /\
    sent w' = sent w ++ [rq] /\ server w' = server w /\
    req_url rq = py "https://data-api.polymarket.com/positions" /\
    param_of "user" rq = Some (PStr v).
Proof.
  intros Haccepted Hnothing. unfold analyze_open_positions.
  analysis_runs Haccepted Hnothing w0 w.
Qed.

(** X16. With an accepted address and no username, [main] of
    [trade_analysis.py] runs to its end with status 0 whenever each of
    its requests fails or is answered with an empty array: it sends
    exactly three requests, for the trades, the closed positions and the
    open positions in this order, each with the normalized address, and a
    failed request costs only its part of the report. *)
Theorem trade_analysis_main_completes (a : args) (text v : pystr) (w : world) :
  given (username a) = false ->
  address a = Some text ->
  Utils.format_address text w = (Ret v, w) ->
  answers_nothing w ->
  exit_status (main a) w = Some 0%Z /\
  exists trades closed open,
    sent (snd (main a w)) = sent w ++ [trades; closed; open] /\
    map req_url [trades; closed; open] =
      [py "https://data-api.polymarket.com/trades";
       py "https://data-api.polymarket.com/closed-positions";
       py "https://data-api.polymarket.com/positions"] /\
    Forall (fun rq => param_of "user" rq = Some (PStr v)) [trades; closed; open].
Proof.
  intros Husername Haddress Haccepted Hnothing.
  assert (fst (Utils.format_address text w) = Ret v) as Hfst by (by rewrite Haccepted).
  unfold exit_status, main. rewrite Haddress.
  destruct text as [|c text]; [discriminate Haccepted|].
  destruct (username a) as [[|d name]|]; [|done|];
    cbn [from_option given negb andb id]; run_steps; rewrite Haccepted;
    cbn [fst snd console sent server].
  all: match goal with
       | |- context [analyze_trades ?x ?l ?w0] =>
           destruct (analyze_trades_runs x l v w w0 Hfst)
             as (r1 & q1 & w1 & -> & Hs1 & Hr1 & Hu1 & Hp1); [exact Hnothing|]
       end.
  all: match goal with
       | |- context [analyze_closed_positions ?x ?l ?w0] =>
           destruct (analyze_closed_positions_runs x l v w w0 Hfst)
             as (r2 & q2 & w2 & -> & Hs2 & Hr2 & Hu2 & Hp2);
             [intros ? ?; rewrite Hr1; apply Hnothing|]
       end.
  all: match goal with
       | |- context [analyze_open_positions ?x ?l ?w0] =>
           destruct (analyze_open_positions_runs x l v w w0 Hfst)
             as (r3 & q3 & w3 & -> & Hs3 & Hr3 & Hu3 & Hp3);
             [intros ? ?; rewrite Hr2, Hr1; apply Hnothing|]
       end.
  all: match goal with
       | |- context [display_analysis ?t ?c ?o ?x ?w0] =>
           destruct (display_analysis_quiet t c o x w0) as ([] & w4 & -> & Hs4 & _)
       end.
  all: cbn [fst snd]; split; [done|]; exists q1, q2, q3.
  all: rewrite Hs4, Hs3, Hs2, Hs1; cbn [sent]; rewrite <- !app_assoc.
  all: split; [done|]; split; [cbn [map]; by rewrite Hu1, Hu2, Hu3|].
  all: by repeat constructor.
Qed.

End Analysis.

(** X15 at a username given with nothing else. *)
Lemma trade_analysis_command_line_witness :
  fst (@TradeAnalysis.main plain_library
         {| TradeAnalysis.address := None;
            TradeAnalysis.username := Some (py "Theo4");
            TradeAnalysis.limit := 500 |}
         (answering (JList [])))
  = Raise (ValueError
      (py "Invalid address length: 5 characters (expected 40, got 7 with 0x prefix)")).
Proof.
  apply (proj2 (proj2 (@trade_analysis_command_line plain_library
                         {| TradeAnalysis.address := None;
                            TradeAnalysis.username := Some (py "Theo4");
                            TradeAnalysis.limit := 500 |}
                         (answering (JList []))))
           (py "Theo4")).
  - reflexivity.
  - vm_compute. discriminate.
  - vm_compute. reflexivity.
Defined.

(** X16 at the first example address with the remote side out of reach. *)
Lemma trade_analysis_main_completes_witness :
  exit_status
    (@TradeAnalysis.main plain_library
       {| TradeAnalysis.address := Some Utils.trader1;
          TradeAnalysis.username := None;
          TradeAnalysis.limit := 500 |})
    unreachable
  = Some 0%Z.
Proof.
  apply (@trade_analysis_main_completes plain_library
           {| TradeAnalysis.address := Some Utils.trader1;
              TradeAnalysis.username := None;
              TradeAnalysis.limit := 500 |}
           Utils.trader1 Utils.trader1 unreachable).
  - reflexivity.
  - reflexivity.
  - vm_compute. reflexivity.
  - intros earlier rq. by left.
Defined.

(** * The filter of get_user_positions.py *)

Lemma silent_ret {A} (a : A) : silent (mret a).
Proof. by intros w. Qed.

Lemma silent_raise {A} (e : exn) : silent (@raise A e).
Proof. by intros w. Qed.

Lemma silent_print line : silent (print line).
Proof. by intros w. Qed.

Lemma silent_bind {A B} (m : M A) (k : A -> M B) :
  silent m -> (forall a, silent (k a)) -> silent (m ≫= k).
Proof.
  intros Hm Hk w. destruct (Hm w) as [S1 R1]. unfold mbind, M_bind.
  destruct (m w) as [[a|e|] w1]; cbn [snd] in *; [|done..].
  destruct (Hk a w1) as [S2 R2]. split; congruence.
Qed.

Lemma silent_for_each {A} (xs : list A) (body : A -> M unit) :
  (forall x, silent (body x)) -> silent (for_each xs body).
Proof.
  intros Hbody. induction xs as [|x xs IH]; cbn [for_each].
  - apply silent_ret.
  - apply silent_bind; [apply Hbody | by intros _].
Qed.

Lemma silent_quiet {A} (m : M A) : quiet m -> silent m.
Proof. intros Hm w. by destruct (Hm w) as (a & w' & -> & ? & ?). Qed.

Lemma silent_item position field : silent (GetUserPositions.item position field).
Proof.
  unfold GetUserPositions.item.
  destruct (txt position !! field); [apply silent_ret|apply silent_raise].
Qed.

Ltac silent_steps :=
  repeat match goal with
         | |- silent (print _) => apply silent_print
         | |- silent (mret _) => apply silent_ret
         | |- silent (raise _) => apply silent_raise
         | |- silent (GetUserPositions.item _ _) => apply silent_item
         | |- silent (Utils.format_pnl _) => apply silent_quiet, quiet_format_pnl
         | |- silent (Utils.format_percentage _) =>
             apply silent_quiet, quiet_format_percentage
         | |- silent (mbind _ _) => apply silent_bind; [|intros ?]
         | |- silent (for_each _ _) => apply silent_for_each; intros ?
         | |- silent (if ?b then _ else _) => destruct b
         | |- silent (let '(_, _) := ?p in _) => destruct p
         | |- silent (match ?o with _ => _ end) => destruct o
         end.

Section Filter.
Context {lib : Library}.
Import GetUserPositions.

(** X18. With an accepted address and at most one of the two filters,
    [main] of [get_user_positions.py] sends exactly one request whatever
    the remote side does and however the report ends. The request carries
    the normalized address, and [redeemable=false] for [--active-only],
    [redeemable=true] for [--include-payouts] and no such parameter
    without a filter. *)
Theorem positions_main_filter (a : args) (v : pystr) (w : world) :
  active_only a && include_payouts a = false ->
  Utils.format_address (address a) w = (Ret v, w) ->
  exists rq,
    sent (snd (main a w)) = sent w ++ [rq] /\
    req_url rq = py "https://data-api.polymarket.com/positions" /\
    param_of "user" rq = Some (PStr v) /\
    param_of "redeemable" rq =
      if active_only a then Some (PStr (py "false"))
      else if include_payouts a then Some (PStr (py "true"))
      else None.
Proof.
  intros Hclear Haccepted. unfold main. rewrite Hclear.
  set (report := fun positions : option json => _).
  assert (forall positions, silent (report positions)) as Hreport.
  { intros positions. unfold report. silent_steps. }
  run_steps. rewrite Haccepted. cbn [fst snd value_error].
  unfold get_user_positions.
  destruct (active_only a), (include_payouts a); try discriminate Hclear;
    run_steps; rewrite (format_address_anywhere _ w), Haccepted;
    cbn [fst snd console sent server];
    (destruct (server w (sent w) _) as [st b| |];
     cbn [fst snd console sent server status_code body request_exception];
     [destruct (ok _);
      cbn [fst snd console sent server status_code body request_exception]| |]);
    rewrite (proj1 (Hreport _ _)); cbn [sent];
    (eexists; split; [reflexivity|]; split; [reflexivity|];
     split; [reflexivity|vm_compute; reflexivity]).
Qed.

End Filter.

(** X18 at the first example address with [--include-payouts]. *)
Lemma positions_main_filter_witness :
  exists rq,
    sent (snd (@GetUserPositions.main plain_library
                 {| GetUserPositions.address := Utils.trader1;
                    GetUserPositions.limit := 20;
                    GetUserPositions.sort := py "CURRENT";
                    GetUserPositions.direction := py "DESC";
                    GetUserPositions.active_only := false;
                    GetUserPositions.include_payouts := true |}
                 (answering (JList [holding 1 0]))))
      = [rq] /\
    param_of "redeemable" rq = Some (PStr (py "true")).
Proof.
  destruct (@positions_main_filter plain_library
              {| GetUserPositions.address := Utils.trader1;
                 GetUserPositions.limit := 20;
                 GetUserPositions.sort := py "CURRENT";
                 GetUserPositions.direction := py "DESC";
                 GetUserPositions.active_only := false;
                 GetUserPositions.include_payouts := true |}
              Utils.trader1 (answering (JList [holding 1 0]))
              eq_refl ltac:(vm_compute; reflexivity))
    as (rq & Hsent & _ & _ & Hfilter).
  exists rq. split; [exact Hsent|exact Hfilter].
Defined.

(** * utils.py on decoded numbers *)

Section Formatters.
Import Decoded Decoded.Utils.

Lemma below_not_above (x : number) : below_zero x = true -> above_zero x = false.
Proof.
  destruct x as [z|[s|s| |s m e]]; cbn; try done; [lia|by destruct s..].
Qed.

(** C6, as the code has it. [format_pnl] branches three ways on the sign
    of a number. Zero, the [int] or the [float], is shown as [$0.00]
    without sign or marker. A number above zero is shown as [+$], its
    value to two decimals, and U+1F4C8; a number below zero as [-$], its
    absolute value to two decimals, and U+1F4C9. An [int] is shown as the
    nearest [float], and raises [OverflowError] when it is beyond every
    [float]. The negative zero of [float], neither above nor below zero,
    is shown with its sign after the dollar. *)
Theorem format_pnl_three_way (w : world) :
  (format_pnl (Num (Int 0)) w = (Ret (py "$0.00"), w) /\
   format_pnl (Num (Float (S754_zero false))) w = (Ret (py "$0.00"), w)) /\
  (forall x f,
     above_zero x = true -> float_of x = Some f ->
     format_pnl (Num x) w =
       (Ret (py "+$" ++ format_float true 2 f ++ py " " ++ [128200]), w)) /\
  (forall x f,
     below_zero x = true -> float_of (absolute x) = Some f ->
     format_pnl (Num x) w =
       (Ret (py "-$" ++ format_float true 2 f ++ py " " ++ [128201]), w)) /\
  (forall z,
     to_float (Z.abs z) = None ->
     format_pnl (Num (Int z)) w = (Raise OverflowError, w)) /\
  format_pnl (Num (Float (S754_zero true))) w = (Ret (py "$-0.00"), w).
Proof.
  split; [split; reflexivity|]. split; [|split; [|split; [|reflexivity]]].
  - intros x f Habove Hf. unfold format_pnl, format_number. cbn [as_number].
    by rewrite Habove, Hf.
  - intros x f Hbelow Hf. unfold format_pnl, format_number. cbn [as_number].
    by rewrite (below_not_above x Hbelow), Hbelow, Hf.
  - intros z Hz. unfold format_pnl. cbn [as_number].
    destruct z as [|p|p]; [done| |]; change (to_float (Z.pos p) = None) in Hz.
    + change (above_zero (Int (Z.pos p))) with true. cbv iota.
      unfold format_number. change (float_of (Int (Z.pos p))) with (to_float (Z.pos p)).
      by rewrite Hz.
    + change (above_zero (Int (Z.neg p))) with false.
      change (below_zero (Int (Z.neg p))) with true. cbv iota.
      unfold format_number.
      change (float_of (absolute (Int (Z.neg p)))) with (to_float (Z.pos p)).
      by rewrite Hz.
Qed.

(** C6 at 1234567 and at -5. *)
Lemma format_pnl_three_way_witness :
  format_pnl (Num (Int 1234567)) unreachable =
    (Ret (py "+$1,234,567.00 " ++ [128200]), unreachable) /\
  format_pnl (Num (Int (-5))) unreachable =
    (Ret (py "-$5.00 " ++ [128201]), unreachable).
Proof.
  destruct (format_pnl_three_way unreachable) as (_ & Hup & Hdown & _).
  split.
  - exact (Hup (Int 1234567) (S754_finite false 5302424889720832 (-32))
             eq_refl eq_refl).
  - exact (Hdown (Int (-5)) (S754_finite false 5629499534213120 (-50))
             eq_refl eq_refl).
Defined.

(** C6 does not hold of every number: an [int] of 401 digits is above
    zero and has no rendering, and negative zero is rendered with a
    sign. *)
Lemma format_pnl_beyond_float :
  above_zero (Int (10 ^ 400)) = true /\
  fst (format_pnl (Num (Int (10 ^ 400))) unreachable) = Raise OverflowError /\
  equals_zero (Num (Float (S754_zero true))) = true /\
  fst (format_pnl (Num (Float (S754_zero true))) unreachable) = Ret (py "$-0.00").
Proof. repeat split; vm_compute; reflexivity. Qed.

(** X3. [format_percentage] branches the same way: zero is shown as
    [0.00%]; a number above zero as [+], its value to two decimals, [%]
    and U+1F4C8; a number below zero as its value to two decimals, with
    the sign the format gives it, [%] and U+1F4C9. An [int] beyond every
    [float] raises [OverflowError], and negative zero is shown as
    [-0.00%]. *)
Theorem format_percentage_three_way (w : world) :
  (format_percentage (Num (Int 0)) w = (Ret (py "0.00%"), w) /\
   format_percentage (Num (Float (S754_zero false))) w = (Ret (py "0.00%"), w)) /\
  (forall x f,
     above_zero x = true -> float_of x = Some f ->
     format_percentage (Num x) w =
       (Ret (py "+" ++ format_float false 2 f ++ py "% " ++ [128200]), w)) /\
  (forall x f,
     below_zero x = true -> float_of x = Some f ->
     format_percentage (Num x) w =
       (Ret (format_float false 2 f ++ py "% " ++ [128201]), w)) /\
  (forall z,
     to_float z = None ->
     format_percentage (Num (Int z)) w = (Raise OverflowError, w)) /\
  format_percentage (Num (Float (S754_zero true))) w = (Ret (py "-0.00%"), w).
Proof.
  split; [split; reflexivity|]. split; [|split; [|split; [|reflexivity]]].
  - intros x f Habove Hf. unfold format_percentage, format_number. cbn [as_number].
    by rewrite Habove, Hf.
  - intros x f Hbelow Hf. unfold format_percentage, format_number. cbn [as_number].
    by rewrite (below_not_above x Hbelow), Hbelow, Hf.
  - intros z Hz. unfold format_percentage, format_number. cbn [as_number float_of].
    rewrite Hz. by destruct (above_zero (Int z)), (below_zero (Int z)).
Qed.

(** X3 at 12.5 and at -3. *)
Lemma format_percentage_three_way_witness :
  format_percentage (Num (Float (S754_finite false 25 (-1)))) unreachable =
    (Ret (py "+12.50% " ++ [128200]), unreachable) /\
  format_percentage (Num (Int (-3))) unreachable =
    (Ret (py "-3.00% " ++ [128201]), unreachable).
Proof.
  destruct (format_percentage_three_way unreachable) as (_ & Hup & Hdown & _).
  split.
  - exact (Hup (Float (S754_finite false 25 (-1))) _ eq_refl eq_refl).
  - exact (Hdown (Int (-3)) (S754_finite true 6755399441055744 (-51))
             eq_refl eq_refl).
Defined.

(** X4. A gain and the loss of the same size are shown with the same
    figure: for a number [x] above zero, [format_pnl x] is [+$], the
    figure and U+1F4C8, and [format_pnl (-x)] is [-$], the same figure
    and U+1F4C9. *)
Theorem format_pnl_mirror (x : number) (f : spec_float) (w : world) :
  above_zero x = true -> float_of x = Some f ->
  format_pnl (Num x) w =
    (Ret (py "+$" ++ format_float true 2 f ++ py " " ++ [128200]), w) /\
  format_pnl (Num (opposite x)) w =
    (Ret (py "-$" ++ format_float true 2 f ++ py " " ++ [128201]), w).
Proof.
  intros Habove Hf. unfold format_pnl, format_number. cbn [as_number].
  rewrite Habove, Hf. split; [done|].
  assert (below_zero (opposite x) = true) as Hbelow.
  { destruct x as [z|[s|s| |s m e]]; cbn in *; try done; [lia|by destruct s..]. }
  assert (absolute (opposite x) = x) as Habs.
  { destruct x as [z|[s|s| |s m e]]; cbn in *; try done;
      [f_equal; lia|by destruct s..]. }
  by rewrite (below_not_above _ Hbelow), Hbelow, Habs, Hf.
Qed.

(** X4 at 2.5. *)
Lemma format_pnl_mirror_witness :
  format_pnl (Num (Float (S754_finite false 5 (-1)))) unreachable =
    (Ret (py "+$2.50 " ++ [128200]), unreachable) /\
  format_pnl (Num (Float (S754_finite true 5 (-1)))) unreachable =
    (Ret (py "-$2.50 " ++ [128201]), unreachable).
Proof.
  exact (format_pnl_mirror (Float (S754_finite false 5 (-1))) _ unreachable
           eq_refl eq_refl).
Defined.

End Formatters.
(** * trader_profitability.py on decoded responses *)

Lemma bind_returns_inv {A B} (m : Decoded.M A) (k : A -> Decoded.M B) w b w' :
  (m ≫= k) w = (Ret b, w') ->
  exists a w1, m w = (Ret a, w1) /\ k a w1 = (Ret b, w').
Proof.
  unfold mbind, Decoded.M_bind. destruct (m w) as [[a|e|] w1]; [eauto|done..].
Qed.

Tactic Notation "invert_bind" hyp(H) "as" ident(a) ident(w) ident(E) :=
  apply bind_returns_inv in H as (a & w & E & H).

Section Counts.
Import Decoded.

Lemma tally_cons test key p items :
  tally test key (p :: items) =
    ((if from_option test false (reading key p) then 1 else 0)
     + tally test key items)%nat.
Proof. unfold tally. cbn [List.filter]. by destruct (from_option _ _ _). Qed.

(** A comprehension that tests the sign of a field returns only when
    every item is an object with a number there, and then keeps the items
    that pass. *)
Lemma select_sign (test : number -> bool) (check : value -> M bool) key items w l w' :
  (forall v, check v = match as_number v with
                       | Some n => mret (test n)
                       | None => raise TypeError
                       end) ->
  select (fun p => v ← get p key (Num (Int 0)); check v) items w = (Ret l, w') ->
  length l = tally test key items /\
  Forall (fun p => reading key p <> None) items.
Proof.
  intros Hcheck. revert w l w'.
  induction items as [|p items IH]; intros w l w' H.
  - cbn [select] in H. unfold mret, M_ret in H. simplify_eq. by split.
  - cbn [select] in H.
    invert_bind H as keep w1 Htest. invert_bind Htest as v w0 Hget.
    invert_bind H as rest w2 Hrest.
    unfold mret, M_ret in H. simplify_eq.
    destruct p as [| | | | |fields]; try discriminate Hget.
    unfold get, mret, M_ret in Hget. simplify_eq. rewrite Hcheck in Htest.
    rewrite tally_cons. cbn [reading].
    destruct (as_number _) as [n|] eqn:Hn; [|discriminate Htest].
    unfold mret, M_ret in Htest. simplify_eq.
    apply IH in Hrest as [Hlen Hall]. cbn [from_option].
    split; [|constructor; [cbn [reading]; by rewrite Hn|done]].
    destruct (test n); cbn [length]; lia.
Qed.

Lemma tally_partition key items :
  Forall (fun p => reading key p <> None) items ->
  tally is_nan key items = 0%nat ->
  (tally above_zero key items + tally below_zero key items
   + tally is_zero key items = length items)%nat.
Proof.
  induction 1 as [|p items Hp _ IH]; [done|].
  rewrite !tally_cons. cbn [length].
  destruct (reading key p) as [n|]; [|done]. cbn [from_option].
  intros Hnan.
  assert (is_nan n = false) as Hn by (destruct (is_nan n); [done|done]).
  rewrite Hn in Hnan. specialize (IH Hnan).
  destruct n as [z|[s|s| |s m e]]; cbn in *; try done.
  - destruct (Z.ltb_spec 0 z), (Z.ltb_spec z 0), (Z.eqb_spec z 0); lia.
  - lia.
  - destruct s; lia.
  - destruct s; lia.
Qed.

End Counts.

Section Partition.
Context {lib : Library} {interp : Decoded.Interpreter}.
Import Decoded Decoded.TraderProfitability.

(** The statistics of two served arrays: the counts are those of the
    items, and every item is an object with a number under the key that
    is read. *)
Lemma calculate_profitability_counts address d period username active closed s w' :
  calculate_profitability address d period username
    (serving (Array active) (Array closed)) = (Ret s, w') ->
  (winning_active s = tally above_zero "cashPnl" active /\
   losing_active s = tally below_zero "cashPnl" active /\
   active_positions s = length active /\
   Forall (fun p => reading "cashPnl" p <> None) active) /\
  (winning_closed s = tally above_zero "realizedPnl" closed /\
   losing_closed s = tally below_zero "realizedPnl" closed /\
   closed_positions s = length closed /\
   Forall (fun p => reading "realizedPnl" p <> None) closed) /\
  total_winning s = (winning_active s + winning_closed s)%nat /\
  total_losing s = (losing_active s + losing_closed s)%nat /\
  total_positions s = (active_positions s + closed_positions s)%nat.
Proof.
  intros H. unfold calculate_profitability in H.
  invert_bind H as u1 w1 H1. invert_bind H as u2 w2 H2.
  invert_bind H as ap w3 Hap. invert_bind H as cp w4 Hcp.
  unfold print in H1, H2. simplify_eq.
  unfold get_active_positions, try_except, requests_get, mbind, M_bind in Hap.
  cbn in Hap. simplify_eq.
  unfold get_closed_positions, try_except, requests_get, mbind, M_bind in Hcp.
  cbn in Hcp. simplify_eq.
  invert_bind H as items w5 Hitems. cbn in Hitems.
  unfold mret, M_ret in Hitems. simplify_eq.
  invert_bind H as sums w6 Hsums. destruct sums as [unrealized partials].
  invert_bind H as realized w7 Hrealized.
  invert_bind H as total_realized w8 Htotal_realized.
  invert_bind H as total w9 Htotal.
  invert_bind H as items' w10 Hitems'. cbn in Hitems'.
  unfold mret, M_ret in Hitems'. simplify_eq.
  invert_bind H as wa w11 Hwa. invert_bind H as la w12 Hla.
  invert_bind H as wc w13 Hwc. invert_bind H as lc w14 Hlc.
  invert_bind H as na w15 Hna. cbn in Hna. unfold mret, M_ret in Hna.
  invert_bind H as nc w16 Hnc. cbn in Hnc. unfold mret, M_ret in Hnc.
  unfold mret, M_ret in H. simplify_eq. cbn.
  apply (select_sign above_zero gt_zero) in Hwa as [-> Ha]; [|done].
  apply (select_sign below_zero lt_zero) in Hla as [-> _]; [|done].
  apply (select_sign above_zero gt_zero) in Hwc as [-> Hc]; [|done].
  apply (select_sign below_zero lt_zero) in Hlc as [-> _]; [|done].
  split_and!; done.
Qed.

(** C4, as the code has it. For every list of active and of closed
    positions on which [calculate_profitability] returns its statistics,
    and in which no profit or loss that is read is NaN: the winners are
    the positions above zero, the losers those below zero, and together
    with the positions at exactly zero they make up the list; over both
    lists, winners, losers and positions at zero add up to
    [total_positions]. *)
Theorem win_loss_partition (active closed : list value) address d s w' :
  calculate_profitability address d (py "DAY") None
    (serving (Array active) (Array closed)) = (Ret s, w') ->
  tally is_nan "cashPnl" active = 0%nat ->
  tally is_nan "realizedPnl" closed = 0%nat ->
  (winning_active s = tally above_zero "cashPnl" active /\
   losing_active s = tally below_zero "cashPnl" active /\
   (winning_active s + losing_active s + tally is_zero "cashPnl" active
    = length active)%nat) /\
  (winning_closed s = tally above_zero "realizedPnl" closed /\
   losing_closed s = tally below_zero "realizedPnl" closed /\
   (winning_closed s + losing_closed s + tally is_zero "realizedPnl" closed
    = length closed)%nat) /\
  total_positions s = (length active + length closed)%nat /\
  (total_winning s + total_losing s
   + (tally is_zero "cashPnl" active + tally is_zero "realizedPnl" closed)
   = total_positions s)%nat.
Proof.
  intros H Hactive Hclosed.
  apply calculate_profitability_counts in H
    as ((Hwa & Hla & Hna & Ha) & (Hwc & Hlc & Hnc & Hc) & Hw & Hl & Ht).
  pose proof (tally_partition "cashPnl" active Ha Hactive).
  pose proof (tally_partition "realizedPnl" closed Hc Hclosed).
  split_and!; try done; lia.
Qed.

End Partition.

(** C4 on three active positions, a gain of 10, a loss of 2.5 and one
    without a figure, and one closed position at zero. *)
Lemma win_loss_partition_witness :
  let active :=
    [Decoded.Object [(py "cashPnl", Decoded.Num (Decoded.Int 10))];
     Decoded.Object
       [(py "cashPnl", Decoded.Num (Decoded.Float (S754_finite true 5 (-1))))];
     Decoded.Object []] in
  let closed :=
    [Decoded.Object [(py "realizedPnl", Decoded.Num (Decoded.Int 0))]] in
  exists s w',
    @Decoded.TraderProfitability.calculate_profitability
      plain_library Decoded.plain_interpreter Utils.trader1 false (py "DAY") None
      (Decoded.serving (Decoded.Array active) (Decoded.Array closed)) = (Ret s, w') /\
    Decoded.TraderProfitability.winning_active s = 1%nat /\
    Decoded.TraderProfitability.losing_active s = 1%nat /\
    Decoded.tally Decoded.is_zero "cashPnl" active = 1%nat /\
    (Decoded.TraderProfitability.total_winning s
     + Decoded.TraderProfitability.total_losing s + (1 + 1)
     = Decoded.TraderProfitability.total_positions s)%nat.
Proof.
  cbv zeta. eexists _, _. split; [vm_compute; reflexivity|].
  match goal with
  | |- context [Decoded.tally Decoded.is_zero "cashPnl" ?active] =>
      destruct (@win_loss_partition plain_library Decoded.plain_interpreter
                  active
                  [Decoded.Object [(py "realizedPnl", Decoded.Num (Decoded.Int 0))]]
                  Utils.trader1 false _ _ eq_refl eq_refl eq_refl)
        as ((Hw & Hl & _) & _ & _ & Ht)
  end.
  split; [exact Hw|]. split; [exact Hl|]. split; [reflexivity|]. exact Ht.
Defined.

(** C4 does not hold of every list: a position whose profit is NaN, which
    [json] decodes, is neither above nor below nor at zero, so that the
    three counts of a list of one add up to none; and a position whose
    profit is [null] leaves no statistics at all. *)
Lemma win_loss_partition_nan :
  let calculate active :=
    @Decoded.TraderProfitability.calculate_profitability
      plain_library Decoded.plain_interpreter Utils.trader1 false (py "DAY") None
      (Decoded.serving (Decoded.Array active) (Decoded.Array [])) in
  let unknown :=
    [Decoded.Object [(py "cashPnl", Decoded.Num (Decoded.Float S754_nan))]] in
  let missing := [Decoded.Object [(py "cashPnl", Decoded.Null)]] in
  (exists s w',
     calculate unknown = (Ret s, w') /\
     (Decoded.TraderProfitability.winning_active s
      + Decoded.TraderProfitability.losing_active s
      + Decoded.tally Decoded.is_zero "cashPnl" unknown)%nat = 0%nat /\
     length unknown = 1%nat /\
     (Decoded.TraderProfitability.total_winning s
      + Decoded.TraderProfitability.total_losing s
      + (Decoded.tally Decoded.is_zero "cashPnl" unknown
         + Decoded.tally Decoded.is_zero "realizedPnl" []))%nat = 0%nat /\
     Decoded.TraderProfitability.total_positions s = 1%nat) /\
  fst (calculate missing) = Raise TypeError.
Proof.
  cbv zeta. split; [eexists _, _; split_and!|]; vm_compute; reflexivity.
Qed.

(** * Steps that compute and steps that print *)

Section Steps.
Import Decoded.

Lemma computes_ret {A} (a : A) : computes (mret a).
Proof. by intros w. Qed.

Lemma computes_raise {A} (e : exn) :
  match e with SystemExit _ => False | _ => True end -> computes (@raise A e).
Proof. intros He w. split; [done|]. by destruct e. Qed.

Lemma computes_bind {A B} (m : M A) (k : A -> M B) :
  computes m -> (forall a, computes (k a)) -> computes (m ≫= k).
Proof.
  intros Hm Hk w. destruct (Hm w) as [Hw Hr]. unfold mbind, M_bind.
  destruct (m w) as [[a|e|] w1]; cbn [fst snd] in *; subst w1; [|done..].
  apply Hk.
Qed.

Lemma computes_fold_each {A S} (step : S -> A -> M S) (s : S) (xs : list A) :
  (forall s x, computes (step s x)) -> computes (fold_each step s xs).
Proof.
  intros Hstep. revert s. induction xs as [|x xs IH]; intros s; cbn [fold_each].
  - apply computes_ret.
  - apply computes_bind; [apply Hstep|intros s'; apply IH].
Qed.

Lemma computes_select {A} (test : A -> M bool) (xs : list A) :
  (forall x, computes (test x)) -> computes (select test xs).
Proof.
  intros Htest. induction xs as [|x xs IH]; cbn [select].
  - apply computes_ret.
  - apply computes_bind; [apply Htest|intros keep].
    apply computes_bind; [apply IH|intros rest; apply computes_ret].
Qed.

Lemma computes_collect {A B} (f : A -> M B) (xs : list A) :
  (forall x, computes (f x)) -> computes (collect f xs).
Proof.
  intros Hf. induction xs as [|x xs IH]; cbn [collect].
  - apply computes_ret.
  - apply computes_bind; [apply Hf|intros y].
    apply computes_bind; [apply IH|intros ys; apply computes_ret].
Qed.

Lemma computes_get p key dflt : computes (get p key dflt).
Proof. destruct p; first [apply computes_ret|by apply computes_raise]. Qed.

Lemma computes_add a b : computes (add a b).
Proof.
  unfold add. destruct a as [x|f], b as [y|g]; cbn [float_of];
    repeat match goal with
           | |- context [to_float ?z] => destruct (to_float z)
           end;
    first [apply computes_ret|by apply computes_raise].
Qed.

Lemma computes_plus a v : computes (plus a v).
Proof.
  unfold plus. destruct (as_number v);
    [apply computes_add|by apply computes_raise].
Qed.

Lemma computes_gt_zero v : computes (gt_zero v).
Proof.
  unfold gt_zero. destruct (as_number v);
    [apply computes_ret|by apply computes_raise].
Qed.

Lemma computes_lt_zero v : computes (lt_zero v).
Proof.
  unfold lt_zero. destruct (as_number v);
    [apply computes_ret|by apply computes_raise].
Qed.

Lemma computes_format_number comma digits n :
  computes (format_number comma digits n).
Proof.
  unfold format_number. destruct (float_of n);
    [apply computes_ret|by apply computes_raise].
Qed.

Lemma computes_iterate data : computes (iterate data).
Proof. destruct data; first [apply computes_ret|by apply computes_raise]. Qed.

Lemma computes_len data : computes (len data).
Proof. destruct data; first [apply computes_ret|by apply computes_raise]. Qed.

End Steps.

Ltac computes_steps :=
  repeat match goal with
         | |- Decoded.computes (mret _) => apply computes_ret
         | |- Decoded.computes (Decoded.raise _) => by apply computes_raise
         | |- Decoded.computes (Decoded.get _ _ _) => apply computes_get
         | |- Decoded.computes (Decoded.add _ _) => apply computes_add
         | |- Decoded.computes (Decoded.plus _ _) => apply computes_plus
         | |- Decoded.computes (Decoded.gt_zero _) => apply computes_gt_zero
         | |- Decoded.computes (Decoded.lt_zero _) => apply computes_lt_zero
         | |- Decoded.computes (Decoded.format_number _ _ _) =>
             apply computes_format_number
         | |- Decoded.computes (Decoded.iterate _) => apply computes_iterate
         | |- Decoded.computes (Decoded.len _) => apply computes_len
         | |- Decoded.computes (mbind _ _) => apply computes_bind; [|intros ?]
         | |- Decoded.computes (Decoded.fold_each _ _ _) =>
             apply computes_fold_each; intros [? ?] ?; cbv beta iota
         | |- Decoded.computes (Decoded.select _ _) =>
             apply computes_select; intros ?
         | |- Decoded.computes (Decoded.collect _ _) =>
             apply computes_collect; intros ?
         | |- Decoded.computes (if ?b then _ else _) => destruct b
         | |- Decoded.computes (let '(_, _) := ?p in _) => destruct p
         | |- Decoded.computes (match ?o with _ => _ end) => destruct o
         end.

Section ComputedSteps.
Import Decoded.

Lemma computes_sum_of `{Interpreter} key data : computes (sum_of key data).
Proof. unfold sum_of. computes_steps. Qed.

Lemma computes_sorted_by `{Interpreter} key data : computes (sorted_by key data).
Proof. unfold sorted_by. computes_steps. Qed.

Lemma computes_format_pnl pnl : computes (Utils.format_pnl pnl).
Proof. unfold Utils.format_pnl. computes_steps. Qed.

Lemma computes_format_percentage percent :
  computes (Utils.format_percentage percent).
Proof. unfold Utils.format_percentage. computes_steps. Qed.

Lemma computes_title_of `{Interpreter} pos :
  computes (TraderProfitability.title_of pos).
Proof. unfold TraderProfitability.title_of. computes_steps. Qed.

Lemma only_prints_computes {A} (m : M A) : computes m -> only_prints m.
Proof.
  intros Hm w. destruct (Hm w) as [-> Hr]. split_and!; try done.
  exists []. by rewrite app_nil_r.
Qed.

Lemma only_prints_print line : only_prints (print line).
Proof. intros w. split_and!; try done. by exists [line]. Qed.

Lemma only_prints_bind {A B} (m : M A) (k : A -> M B) :
  only_prints m -> (forall a, only_prints (k a)) -> only_prints (m ≫= k).
Proof.
  intros Hm Hk w. destruct (Hm w) as (Hr & Hs & Hv & more1 & Hc).
  unfold mbind, M_bind.
  destruct (m w) as [[a|e|] w1]; cbn [fst snd] in *; [|by eauto..].
  destruct (Hk a w1) as (Hr2 & Hs2 & Hv2 & more2 & Hc2).
  split_and!; [done|congruence|congruence|].
  exists (more1 ++ more2). by rewrite Hc2, Hc, app_assoc.
Qed.

Lemma only_prints_for_each {A} (xs : list A) (body : A -> M unit) :
  (forall x, only_prints (body x)) -> only_prints (for_each xs body).
Proof.
  intros Hbody. induction xs as [|x xs IH]; cbn [for_each].
  - apply only_prints_computes, computes_ret.
  - apply only_prints_bind; [apply Hbody|by intros _].
Qed.

End ComputedSteps.

Ltac only_prints_steps :=
  repeat match goal with
         | |- Decoded.only_prints (Decoded.print _) => apply only_prints_print
         | |- Decoded.only_prints (mret _) =>
             apply only_prints_computes, computes_ret
         | |- Decoded.only_prints (Decoded.raise _) =>
             by apply only_prints_computes, computes_raise
         | |- Decoded.only_prints (Decoded.get _ _ _) =>
             apply only_prints_computes, computes_get
         | |- Decoded.only_prints (Decoded.gt_zero _) =>
             apply only_prints_computes, computes_gt_zero
         | |- Decoded.only_prints (Decoded.format_number _ _ _) =>
             apply only_prints_computes, computes_format_number
         | |- Decoded.only_prints (Decoded.sorted_by _ _) =>
             apply only_prints_computes, computes_sorted_by
         | |- Decoded.only_prints (Decoded.Utils.format_pnl _) =>
             apply only_prints_computes, computes_format_pnl
         | |- Decoded.only_prints (Decoded.Utils.format_percentage _) =>
             apply only_prints_computes, computes_format_percentage
         | |- Decoded.only_prints (Decoded.TraderProfitability.title_of _) =>
             apply only_prints_computes, computes_title_of
         | |- Decoded.only_prints (mbind _ _) =>
             apply only_prints_bind; [|intros ?]
         | |- Decoded.only_prints (Decoded.for_each _ _) =>
             apply only_prints_for_each; intros [? ?]
         | |- Decoded.only_prints (if ?b then _ else _) => destruct b
         | |- Decoded.only_prints (let '(_, _) := (if ?b then _ else _) in _) =>
             destruct b
         | |- Decoded.only_prints (match ?o with _ => _ end) => destruct o
         end.

Section Display.
Import Decoded.

Lemma display_profitability_only_prints `{Interpreter} s d :
  only_prints (TraderProfitability.display_profitability s d).
Proof. unfold TraderProfitability.display_profitability. only_prints_steps. Qed.

End Display.

(** * trader_profitability.py: how a run ends *)

Lemma bind_run {A B} (m : Decoded.M A) (k : A -> Decoded.M B) w a w1 :
  m w = (Ret a, w1) -> (m ≫= k) w = k a w1.
Proof. intros E. unfold mbind, Decoded.M_bind. by rewrite E. Qed.

Lemma validated_run `{Library} address :
  match Decoded.validated address with
  | Ret _ | Raise (ValueError _) => True
  | _ => False
  end.
Proof.
  unfold Decoded.validated.
  match goal with
  | |- context [Utils.format_address address ?w] =>
      by destruct (format_address_run address w) as (r & -> & Hr)
  end.
Qed.

Section Exit.
Context {lib : Library} {interp : Decoded.Interpreter}.
Import Decoded Decoded.TraderProfitability.

(** A fetcher always returns: the decoded body, or the empty list after
    one line about the failure. Either way one request has been sent. *)
Lemma get_active_positions_run address limit w :
  let rq := {| req_url := py "https://data-api.polymarket.com/positions";
               req_params := [("user", PStr address); ("limit", PInt limit);
                              ("redeemable", PStr (py "false"))];
               req_timeout := Some 15 |} in
  exists v lines,
    get_active_positions address limit w =
      (Ret v, {| console := console w ++ lines;
                 sent := sent w ++ [rq];
                 server := server w |}) /\
    match failure (server w (sent w) rq) with
    | Some e =>
        v = Array [] /\
        lines = [py "Error fetching active positions: " ++ str_exn e]
    | None => (exists st, server w (sent w) rq = Response st v) /\ lines = []
    end.
Proof.
  cbv zeta. unfold get_active_positions, try_except, requests_get, mbind, M_bind.
  destruct (server w (sent w) _) as [st v| |] eqn:Hreply; cbn [failure].
  - unfold raise_for_status, ok, print. cbn [status_code content].
    destruct ((400 <=? st) && (st <? 600)); cbn.
    + eexists _, _. split; [reflexivity|]. by split.
    + eexists _, _. split; [by rewrite app_nil_r|]. split; [by exists st|done].
  - cbn. eexists _, _. split; [reflexivity|]. by split.
  - cbn. eexists _, _. split; [reflexivity|]. by split.
Qed.

Lemma get_closed_positions_run address limit w :
  let rq := {| req_url := py "https://data-api.polymarket.com/closed-positions";
               req_params := [("user", PStr address); ("limit", PInt limit);
                              ("sortBy", PStr (py "REALIZEDPNL"));
                              ("sortDirection", PStr (py "DESC"))];
               req_timeout := Some 15 |} in
  exists v lines,
    get_closed_positions address limit w =
      (Ret v, {| console := console w ++ lines;
                 sent := sent w ++ [rq];
                 server := server w |}) /\
    match failure (server w (sent w) rq) with
    | Some e =>
        v = Array [] /\
        lines = [py "Error fetching closed positions: " ++ str_exn e]
    | None => (exists st, server w (sent w) rq = Response st v) /\ lines = []
    end.
Proof.
  cbv zeta. unfold get_closed_positions, try_except, requests_get, mbind, M_bind.
  destruct (server w (sent w) _) as [st v| |] eqn:Hreply; cbn [failure].
  - unfold raise_for_status, ok, print. cbn [status_code content].
    destruct ((400 <=? st) && (st <? 600)); cbn.
    + eexists _, _. split; [reflexivity|]. by split.
    + eexists _, _. split; [by rewrite app_nil_r|]. split; [by exists st|done].
  - cbn. eexists _, _. split; [reflexivity|]. by split.
  - cbn. eexists _, _. split; [reflexivity|]. by split.
Qed.

(** [calculate_profitability] prints two lines, lets the fetchers send
    their requests and print about a failure, and then computes: it
    returns the statistics or raises what a step of the computation
    raised. *)
Lemma calculate_profitability_run address d period username w :
  let q1 := {| req_url := py "https://data-api.polymarket.com/positions";
               req_params := [("user", PStr address); ("limit", PInt 500);
                              ("redeemable", PStr (py "false"))];
               req_timeout := Some 15 |} in
  let q2 := {| req_url := py "https://data-api.polymarket.com/closed-positions";
               req_params := [("user", PStr address); ("limit", PInt 50);
                              ("sortBy", PStr (py "REALIZEDPNL"));
                              ("sortDirection", PStr (py "DESC"))];
               req_timeout := Some 15 |} in
  exists lines r,
    calculate_profitability address d period username w =
      (r, {| console :=
               console w ++
                 [[240; 376; 8221] ++ py " Analyzing profitability for "
                    ++ address ++ py "..."; []] ++ lines;
             sent := sent w ++ [q1; q2];
             server := server w |}) /\
    plain r /\
    (failure (server w (sent w) q1) = None ->
     failure (server w (sent w ++ [q1]) q2) = None ->
     lines = []) /\
    (forall e1 e2,
       failure (server w (sent w) q1) = Some e1 ->
       failure (server w (sent w ++ [q1]) q2) = Some e2 ->
       lines = [py "Error fetching active positions: " ++ str_exn e1;
                py "Error fetching closed positions: " ++ str_exn e2] /\
       r = Ret (no_positions d)) /\
    match r with
    | Ret s => is_profitable s = above_zero (total_pnl s)
    | _ => True
    end.
Proof.
  cbv zeta. unfold calculate_profitability.
  erewrite bind_run by reflexivity. erewrite bind_run by reflexivity.
  match goal with
  | |- context [(get_active_positions ?a ?l ≫= _) ?w0] =>
      destruct (get_active_positions_run a l w0) as (v1 & lines1 & E1 & H1)
  end.
  erewrite bind_run by exact E1. clear E1.
  match goal with
  | |- context [(get_closed_positions ?a ?l ≫= _) ?w0] =>
      destruct (get_closed_positions_run a l w0) as (v2 & lines2 & E2 & H2)
  end.
  erewrite bind_run by exact E2. clear E2.
  cbn [console sent server] in *.
  match goal with
  | |- context [(?m ≫= ?k) ?w0] => set (tail := m ≫= k); set (w1 := w0)
  end.
  assert (computes tail) as Htail
    by (unfold tail; repeat first [apply computes_sum_of | progress computes_steps]).
  assert (forall w s w', tail w = (Ret s, w') ->
                         is_profitable s = above_zero (total_pnl s)) as Hp.
  { intros w0 s w2 H. unfold tail in H.
    invert_bind H as active w3 Hi. invert_bind H as sums w4 Hs.
    destruct sums as [unrealized partials].
    invert_bind H as realized w5 Hrealized.
    invert_bind H as total_realized w6 Htr. invert_bind H as total w7 Ht.
    invert_bind H as closed w8 Hc.
    invert_bind H as wa w9 Hwa. invert_bind H as la w10 Hla.
    invert_bind H as wc w11 Hwc. invert_bind H as lc w12 Hlc.
    invert_bind H as na w13 Hna. invert_bind H as nc w14 Hnc.
    unfold mret, M_ret in H. by simplify_eq. }
  assert (v1 = Array [] -> v2 = Array [] ->
          fst (tail w1) = Ret (no_positions d)) as Hnone.
  { intros -> ->. unfold tail. by destruct d. }
  destruct (Htail w1) as [Hw Hr]. specialize (Hp w1).
  destruct (tail w1) as [r w2]. cbn [fst snd] in Hw, Hr, Hnone. subst w2.
  exists (lines1 ++ lines2), r.
  split; [unfold w1; by rewrite <- !app_assoc|].
  split; [done|]. split.
  { intros F1 F2. rewrite F1 in H1. rewrite F2 in H2.
    by destruct H1 as [_ ->], H2 as [_ ->]. }
  split.
  { intros e1 e2 F1 F2. rewrite F1 in H1. rewrite F2 in H2.
    destruct H1 as [-> ->], H2 as [-> ->]. split; [done|by apply Hnone]. }
  destruct r; [by apply (Hp _ _ eq_refl)|done..].
Qed.

(** [main] step by step. *)
Lemma main_run (a : args) (w : world) :
  main a w =
    match validated (address a) with
    | Ret formatted =>
        match calculate_profitability formatted (detailed a) (py "DAY") None w with
        | (Ret stats, w1) =>
            match display_profitability stats (detailed a) w1 with
            | (Ret _, w2) =>
                (Raise (SystemExit (if is_profitable stats then 0 else 1)), w2)
            | (Raise e, w2) => (Raise e, w2)
            | (Hang, w2) => (Hang, w2)
            end
        | (Raise e, w1) => (Raise e, w1)
        | (Hang, w1) => (Hang, w1)
        end
    | Raise e =>
        if value_error e then
          (Raise (SystemExit 1),
           {| console := console w ++ [py "Error: " ++ str_exn e];
              sent := sent w; server := server w |})
        else (Raise e, w)
    | Hang => (Hang, w)
    end.
Proof.
  unfold main, mbind, M_bind, try_except, Utils.format_address.
  destruct (validated (address a)) as [formatted|e|]; [|by destruct (value_error e)|done].
  destruct (calculate_profitability _ _ _ _ w) as [[stats|e|] w1]; [|done..].
  by destruct (display_profitability _ _ w1) as [[[]|e|] w2].
Qed.

(** C7, as the code has it. [main] leaves with status 1 when
    [format_address] rejects the address. Otherwise it leaves with status
    0 exactly when the statistics were computed, the report was printed to
    its end and the total profit and loss is above zero. In every other
    case it leaves with status 1: when the total is not above zero,
    break-even included, and when a decoded value made the computation or
    the report raise, whatever the total is. *)
Theorem main_exit_status (args : args) (w : world) :
  exit_status (main args) w =
    match validated (address args) with
    | Ret formatted =>
        match calculate_profitability formatted (detailed args)
                (py "DAY") None w with
        | (Ret stats, w1) =>
            match fst (display_profitability stats (detailed args) w1) with
            | Ret _ => Some (if above_zero (total_pnl stats) then 0 else 1)%Z
            | _ => Some 1%Z
            end
        | _ => Some 1%Z
        end
    | _ => Some 1%Z
    end.
Proof.
  unfold exit_status. rewrite main_run.
  pose proof (validated_run (address args)) as Hv.
  destruct (validated (address args)) as [formatted|[msg| | | | | |]|];
    try done.
  destruct (calculate_profitability_run formatted (detailed args) (py "DAY")
              None w) as (lines & r & -> & Hr & _ & _ & Hp).
  destruct r as [stats|e|]; [|by destruct e|done].
  match goal with
  | |- context [display_profitability stats ?d ?w1] =>
      destruct (display_profitability_only_prints stats d w1) as [Hd _];
      destruct (display_profitability stats d w1) as [[[]|e|] w2]
  end; cbn [fst] in *; [|by destruct e|done].
  rewrite Hp. by destruct (above_zero _).
Qed.

End Exit.

(** C7 does not hold of every response: a profit of 401 digits puts the
    total above zero, and so does a profit of 5 whose [percentPnl] is
    [null]; the report says PROFITABLE and then raises, [OverflowError] on
    the figure of the first and, with [--detailed], [TypeError] on the
    percentage of the second, and the status is 1. *)
Lemma main_exit_status_raised :
  let main detailed :=
    @Decoded.TraderProfitability.main plain_library Decoded.plain_interpreter
      {| Decoded.TraderProfitability.address := Utils.trader1;
         Decoded.TraderProfitability.detailed := detailed |} in
  let calculate detailed :=
    @Decoded.TraderProfitability.calculate_profitability
      plain_library Decoded.plain_interpreter Utils.trader1 detailed
      (py "DAY") None in
  let served active :=
    Decoded.serving (Decoded.Array active) (Decoded.Array []) in
  let huge :=
    [Decoded.Object [(py "cashPnl", Decoded.Num (Decoded.Int (10 ^ 400)))]] in
  let unrated :=
    [Decoded.Object [(py "cashPnl", Decoded.Num (Decoded.Int 5));
                     (py "percentPnl", Decoded.Null)]] in
  let profitable :=
    [240; 376; 353; 8364] ++ py "  " ++ [226; 339; 8230] ++ py " PROFITABLE" in
  (exists s,
     fst (calculate false (served huge)) = Ret s /\
     Decoded.above_zero (Decoded.TraderProfitability.total_pnl s) = true /\
     fst (main false (served huge)) = Raise OverflowError /\
     Decoded.console (snd (main false (served huge))) !! 6%nat = Some profitable /\
     Decoded.exit_status (main false) (served huge) = Some 1%Z) /\
  (exists s,
     fst (calculate true (served unrated)) = Ret s /\
     Decoded.above_zero (Decoded.TraderProfitability.total_pnl s) = true /\
     fst (main true (served unrated)) = Raise TypeError /\
     Decoded.console (snd (main true (served unrated))) !! 6%nat = Some profitable /\
     Decoded.exit_status (main true) (served unrated) = Some 1%Z).
Proof.
  cbv zeta. split; eexists; split_and!; vm_compute; reflexivity.
Qed.

(** C7 on three runs: a rejected address, a trader in profit, a trader at
    break-even. *)
Lemma main_exit_status_runs :
  let position (pnl : Z) :=
    Decoded.Object [(py "cashPnl", Decoded.Num (Decoded.Int pnl))] in
  let run address positions :=
    Decoded.exit_status
      (@Decoded.TraderProfitability.main plain_library Decoded.plain_interpreter
         {| Decoded.TraderProfitability.address := address;
            Decoded.TraderProfitability.detailed := true |})
      (Decoded.serving (Decoded.Array positions) (Decoded.Array [])) in
  run (py "0x5668") [] = Some 1%Z /\
  run Utils.trader1 [position 10%Z; position (-3)%Z] = Some 0%Z /\
  run Utils.trader1 [position 10%Z; position (-10)%Z] = Some 1%Z.
Proof. vm_compute. repeat split. Qed.

(** * trader_profitability.py: the verdict and the exit status *)

Section Verdict.
Context {lib : Library} {interp : Decoded.Interpreter}.
Import Decoded Decoded.TraderProfitability.

(** The report opens with its heading and the verdict, whatever comes of
    the rest. *)
Lemma display_profitability_verdict (s : stats) (d : bool) (w : world) :
  exists more,
    console (snd (display_profitability s d w)) =
      console w ++
        [times (py "=") 100; py "TRADER PROFITABILITY ANALYSIS";
         times (py "=") 100; [];
         if above_zero (total_pnl s) then
           [240; 376; 353; 8364] ++ py "  " ++ [226; 339; 8230] ++ py " PROFITABLE"
         else if below_zero (total_pnl s) then
           [240; 376; 8220; 8240] ++ py "  " ++ [226; 338] ++ py " IN LOSS"
         else
           [226; 382; 161; 239; 184] ++ py "  "
             ++ [226; 353; 8211; 239; 184] ++ py "  BREAK EVEN"]
        ++ more.
Proof.
  unfold display_profitability. cbv zeta.
  destruct (above_zero (total_pnl s)); [|destruct (below_zero (total_pnl s))].
  all: unfold mbind at 1 2 3 4 5, M_bind at 1 2 3 4 5, print at 1 2 3 4 5.
  all: cbn [fst snd console sent server].
  all: match goal with
       | |- context [console (snd (?rest ?w0))] =>
           assert (only_prints rest) as Hrest by only_prints_steps;
           destruct (Hrest w0) as (_ & _ & _ & more & ->)
       end.
  all: exists more; cbn [console]; by rewrite <- !app_assoc.
Qed.

(** X19. The verdict of the report and the exit status. Served two
    decoded bodies, whatever they are, [main] leaves with status 0 only
    after it has printed PROFITABLE as the seventh line of its output; and
    when the seventh line says IN LOSS or BREAK EVEN, the status is 1. *)
Theorem verdict_matches_exit_status (a : args) (active closed : value) :
  let w := serving active closed in
  (exit_status (main a) w = Some 0%Z ->
   console (snd (main a w)) !! 6%nat =
     Some ([240; 376; 353; 8364] ++ py "  " ++ [226; 339; 8230]
             ++ py " PROFITABLE")) /\
  (console (snd (main a w)) !! 6%nat =
     Some ([240; 376; 8220; 8240] ++ py "  " ++ [226; 338] ++ py " IN LOSS") \/
   console (snd (main a w)) !! 6%nat =
     Some ([226; 382; 161; 239; 184] ++ py "  "
             ++ [226; 353; 8211; 239; 184] ++ py "  BREAK EVEN") ->
   exit_status (main a) w = Some 1%Z).
Proof.
  cbv zeta. unfold exit_status. rewrite main_run.
  pose proof (validated_run (address a)) as Hv.
  destruct (validated (address a)) as [formatted|[msg| | | | | |]|];
    try done.
  destruct (calculate_profitability_run formatted (detailed a) (py "DAY")
              None (serving active closed))
    as (lines & r & -> & Hr & Hlines & _ & Hp).
  rewrite (Hlines eq_refl eq_refl). clear Hlines.
  destruct r as [stats|e|]; [|by destruct e|done].
  match goal with
  | |- context [display_profitability stats ?d ?w1] =>
      destruct (display_profitability_only_prints stats d w1) as [Hd _];
      destruct (display_profitability_verdict stats d w1) as [more Hconsole];
      destruct (display_profitability stats d w1) as [[[]|e|] w2]
  end; cbn [fst snd console] in *; try done.
  all: rewrite Hconsole, ?Hp; cbn [app lookup list_lookup].
  all: destruct (above_zero (total_pnl stats));
    [|destruct (below_zero (total_pnl stats))].
  all: try (destruct e; try done).
  all: split; [intros ?|intros [?|?]]; try done; eval_py; simplify_eq.
Qed.


End Verdict.

(** X19 at the first example address with one active position worth 10. *)
Lemma verdict_matches_exit_status_witness :
  Decoded.console
    (snd (@Decoded.TraderProfitability.main plain_library Decoded.plain_interpreter
            {| Decoded.TraderProfitability.address := Utils.trader1;
               Decoded.TraderProfitability.detailed := false |}
            (Decoded.serving
               (Decoded.Array
                  [Decoded.Object [(py "cashPnl", Decoded.Num (Decoded.Int 10))]])
               (Decoded.Array [])))) !! 6%nat =
    Some ([240; 376; 353; 8364] ++ py "  " ++ [226; 339; 8230] ++ py " PROFITABLE").
Proof.
  apply (proj1 (@verdict_matches_exit_status plain_library Decoded.plain_interpreter
                  {| Decoded.TraderProfitability.address := Utils.trader1;
                     Decoded.TraderProfitability.detailed := false |}
                  (Decoded.Array
                     [Decoded.Object [(py "cashPnl", Decoded.Num (Decoded.Int 10))]])
                  (Decoded.Array []))).
  vm_compute. reflexivity.
Defined.

(** * trader_profitability.py with the remote side down *)

Section Offline.
Context {lib : Library} {interp : Decoded.Interpreter}.
Import Decoded Decoded.TraderProfitability.









End Offline.

